(** * DeepWiki++ heading-section extraction and DOM synchronisation

    A shallow embedding of the heading-collection core of the browser
    extension: the [HeadingSection] entity and its factory, the two
    [HeadingParser] services, the section validator, the button overlay
    manager, the SPA monitor, the content-script orchestrator and the
    add-section use case.

    Conventions of the embedding.
    - A JavaScript string is a [string]: a sequence of code units below
      256 (Basic Latin and Latin-1).  Among these the whitespace of [\s]
      and [trim] is 9 to 13, 32 and 160 (the no-break space), and the
      case mappings are those of [toLowerCase] and [toUpperCase]: the
      letters A-Z and the Latin-1 letters 192-222 and 224-254 (without
      the signs 215 and 247), with [toUpperCase] turning 223 into "SS".
      The upper-case forms of 181 and 255 are code units above 255; a
      [string] cannot hold them and [toUpperCase] leaves these two
      alone, which no use of it can tell: each compares the result
      with an ASCII tag name.
    - A JavaScript [number] that the code uses as an integer (a heading
      level, an index, a length) is a [Z] or a [nat].
    - A [throw] is an [Outcome] value; [try]/[catch] is a match on it.
    - The browser (URL parser, clock, random source, HTML serialiser) is
      a parameter of the sections that need it. *)

From Stdlib Require Import ZArith String Ascii List Bool Lia.
From Stdlib Require Import DecimalString DecimalNat.
From stdpp Require Import gmap strings list sorting.
Import ListNotations.

Set Warnings "-register-all".

Local Open Scope string_scope.
Local Open Scope Z_scope.

(** ** JavaScript strings *)

Module Js.

Definition code (c : ascii) : nat := nat_of_ascii c.

(** The characters matched by [\s] (and stripped by [trim]): tab, line
    feed, vertical tab, form feed, carriage return, space and the
    no-break space. *)
Definition isSpace (c : ascii) : bool :=
  let n := code c in
  ((9 <=? n)%nat && (n <=? 13)%nat) || (n =? 32)%nat || (n =? 160)%nat.

Definition isDigit (c : ascii) : bool :=
  let n := code c in (48 <=? n)%nat && (n <=? 57)%nat.

Definition isUpper (c : ascii) : bool :=
  let n := code c in (65 <=? n)%nat && (n <=? 90)%nat.

Definition isLower (c : ascii) : bool :=
  let n := code c in (97 <=? n)%nat && (n <=? 122)%nat.

(** The characters matched by [\w]. *)
Definition isWord (c : ascii) : bool :=
  isDigit c || isUpper c || isLower c || (code c =? 95)%nat.

(** The Latin-1 letters with a lower-case form: 192 to 222 without the
    multiplication sign. *)
Definition isLatinUpper (c : ascii) : bool :=
  let n := code c in
  (192 <=? n)%nat && (n <=? 222)%nat && negb (n =? 215)%nat.

(** The Latin-1 letters with an upper-case form that is one code unit
    below 256: 224 to 254 without the division sign. *)
Definition isLatinLower (c : ascii) : bool :=
  let n := code c in
  (224 <=? n)%nat && (n <=? 254)%nat && negb (n =? 247)%nat.

Definition upperChar (c : ascii) : ascii :=
  if isLower c || isLatinLower c then ascii_of_nat (code c - 32) else c.

Definition lowerChar (c : ascii) : ascii :=
  if isUpper c || isLatinUpper c then ascii_of_nat (code c + 32) else c.

Fixpoint mapChars (f : ascii -> ascii) (s : string) : string :=
  match s with
  | EmptyString => EmptyString
  | String c r => String (f c) (mapChars f r)
  end.

Fixpoint filterChars (p : ascii -> bool) (s : string) : string :=
  match s with
  | EmptyString => EmptyString
  | String c r => if p c then String c (filterChars p r) else filterChars p r
  end.

(** [s.toUpperCase()]: the sharp s (223) becomes "SS". *)
Fixpoint toUpperCase (s : string) : string :=
  match s with
  | EmptyString => EmptyString
  | String c r =>
      if (code c =? 223)%nat then String "S" (String "S" (toUpperCase r))
      else String (upperChar c) (toUpperCase r)
  end.

Definition toLowerCase : string -> string := mapChars lowerChar.

Fixpoint trimStart (s : string) : string :=
  match s with
  | String c r => if isSpace c then trimStart r else s
  | EmptyString => EmptyString
  end.

(** [allSpace s] holds when [s] consists of whitespace only. *)
Fixpoint allSpace (s : string) : bool :=
  match s with
  | EmptyString => true
  | String c r => isSpace c && allSpace r
  end.

Fixpoint trimEnd (s : string) : string :=
  match s with
  | EmptyString => EmptyString
  | String c r => if allSpace s then EmptyString else String c (trimEnd r)
  end.

Definition trim (s : string) : string := trimEnd (trimStart s).

(** [s.replace(/\s+/g, r)]: every maximal run of whitespace becomes [r]. *)
Fixpoint replaceSpaceRuns (r : string) (s : string) : string :=
  match s with
  | EmptyString => EmptyString
  | String c rest =>
      if isSpace c
      then match rest with
           | String c' _ =>
               if isSpace c' then replaceSpaceRuns r rest
               else r ++ replaceSpaceRuns r rest
           | EmptyString => r
           end
      else String c (replaceSpaceRuns r rest)
  end.

(** [s.substring(0, n)] for an integer [n]: negative bounds clamp to 0. *)
Definition substring0 (n : Z) (s : string) : string :=
  String.substring 0 (Z.to_nat n) s.

Definition strlen (s : string) : Z := Z.of_nat (String.length s).

(** A string is truthy when it is not empty. *)
Definition truthy (s : string) : bool :=
  match s with EmptyString => false | _ => true end.

(** [`${n}`] for an integer. *)
Definition ofZ (n : Z) : string := NilZero.string_of_int (Z.to_int n).
Definition ofNat (n : nat) : string := NilZero.string_of_uint (Nat.to_uint n).

Definition eqb (a b : string) : bool := String.eqb a b.

(** The double quote character, as a string. *)
Definition dq : string := String (ascii_of_nat 34) EmptyString.

(** The no-break space (the text of [&nbsp;]), as a string. *)
Definition nbsp : string := String (ascii_of_nat 160) EmptyString.

End Js.

(** ** Thrown values *)

(** The error classes of the repository interface
    (domain/heading-collection/repositories/heading-section-repository.ts),
    which the index of domain/heading-collection exports.  They extend
    [Error] directly; the classes of the same names in
    domain/shared/errors.ts are other classes, and an instance of one
    family is no instance of the other. *)
Module HeadingSectionRepository.

Inductive Error : Type :=
| RepositoryError (message : string)
| StorageQuotaExceededError (message : string)
| SectionNotFoundError (sectionId : string)
| InvalidSectionError (message : string).

(** [error.message], as the constructors set it. *)
Definition message (e : Error) : string :=
  match e with
  | RepositoryError m | StorageQuotaExceededError m => m
  | SectionNotFoundError sectionId => "Section with ID '" ++ sectionId ++ "' not found"
  | InvalidSectionError m => "Invalid section: " ++ m
  end.

End HeadingSectionRepository.

(** What the code throws: the [DomainError]s of domain/shared/errors.ts
    ([ValidationError], [ParseError], [RepositoryError],
    [InvalidSectionError] and [StorageQuotaExceededError], a subclass
    of that [RepositoryError]), a plain [Error], the use case's
    [InputValidationError], an error of the repository interface, or a
    value that is no [Error]. *)
Inductive Exn : Type :=
| ValidationError (message : string)
| ParseError (message : string)
| PlainError (message : string)
| InputValidationError (message field : string)
| StorageQuotaExceededError (message : string)
| InvalidSectionError (message : string)
| RepositoryError (message : string)
| OfRepository (e : HeadingSectionRepository.Error)
| NonError (text : string).

Definition exnMessage (e : Exn) : string :=
  match e with
  | ValidationError m | ParseError m | PlainError m
  | InputValidationError m _ | StorageQuotaExceededError m
  | InvalidSectionError m | RepositoryError m | NonError m => m
  | OfRepository e => HeadingSectionRepository.message e
  end.

(** [error instanceof Error]: false only for a thrown non-error value. *)
Definition isErrorObject (e : Exn) : bool :=
  match e with NonError _ => false | _ => true end.

Inductive Outcome (A : Type) : Type :=
| Ok (a : A)
| Throw (e : Exn).
Arguments Ok {A} a.
Arguments Throw {A} e.

Definition bind {A B} (m : Outcome A) (k : A -> Outcome B) : Outcome B :=
  match m with
  | Ok a => k a
  | Throw e => Throw e
  end.

Notation "x <- m ;; k" := (bind m (fun x => k))
  (at level 100, m at next level, right associativity).
Notation "m ;;; k" := (bind m (fun _ => k))
  (at level 100, right associativity).

Definition guard (ok : bool) (e : Exn) : Outcome unit :=
  if ok then Ok tt else Throw e.

(** ** The HeadingSection entity (domain/heading-collection/heading-section.ts) *)

Module HeadingSection.

Definition MIN_HEADING_LEVEL : Z := 1.
Definition MAX_HEADING_LEVEL : Z := 6.

Record t : Type := mk {
  level : Z;
  tagName : string;
  titleText : string;
  contentHtml : string;
  sourceUrl : string;
  addedAt : Z;
  sectionId : string
}.

Record Params : Type := mkParams {
  p_level : Z;
  p_tagName : string;
  p_titleText : string;
  p_contentHtml : string;
  p_sourceUrl : string;
  p_sectionId : option string
}.

Definition isValidHeadingLevel (level : Z) : bool :=
  (MIN_HEADING_LEVEL <=? level) && (level <=? MAX_HEADING_LEVEL).

(** [tagName.toUpperCase().match(/^H([1-6])$/)] then [parseInt]. *)
Definition getHeadingLevelFromTag (tagName : string) : option Z :=
  match Js.toUpperCase tagName with
  | String h (String d EmptyString) =>
      if (Js.code h =? 72)%nat && (49 <=? Js.code d)%nat && (Js.code d <=? 54)%nat
      then Some (Z.of_nat (Js.code d - 48))
      else None
  | _ => None
  end.

Definition validateHeadingLevel (level : Z) : Outcome unit :=
  guard (isValidHeadingLevel level)
    (ValidationError ("Invalid heading level: " ++ Js.ofZ level
       ++ ". Must be between " ++ Js.ofZ MIN_HEADING_LEVEL
       ++ " and " ++ Js.ofZ MAX_HEADING_LEVEL)).

Definition validateTagName (tagName : string) (level : Z) : Outcome unit :=
  let expectedTag := "H" ++ Js.ofZ level in
  guard (Js.eqb (Js.toUpperCase tagName) expectedTag)
    (ValidationError ("Tag name " ++ tagName ++ " doesn't match level "
       ++ Js.ofZ level ++ ". Expected " ++ expectedTag)).

Section WithBrowser.

(** [new URL(s)] succeeds. *)
Variable validUrl : string -> bool.
(** [generateUniqueSectionId]: built from the host name, the level, a
    slug of the title, [Date.now()] and [Math.random()]. *)
Variable generateUniqueSectionId : string -> Z -> string -> string.
(** [new Date()]. *)
Variable now : Z.

Definition validateRequiredFields (p : Params) : Outcome unit :=
  guard (Js.truthy (Js.trim (p_titleText p)))
    (ValidationError "Title text is required") ;;;
  guard (Js.truthy (Js.trim (p_contentHtml p)))
    (ValidationError "Content HTML is required") ;;;
  guard (Js.truthy (Js.trim (p_sourceUrl p)))
    (ValidationError "Source URL is required") ;;;
  guard (validUrl (p_sourceUrl p))
    (ValidationError ("Invalid source URL: " ++ p_sourceUrl p)).

Definition createHeadingSection (p : Params) : Outcome t :=
  validateHeadingLevel (p_level p) ;;;
  validateTagName (p_tagName p) (p_level p) ;;;
  validateRequiredFields p ;;;
  let generated :=
    generateUniqueSectionId (p_sourceUrl p) (p_level p) (Js.trim (p_titleText p)) in
  let sectionId :=
    match p_sectionId p with
    | Some id => if Js.truthy (Js.trim id) then Js.trim id else generated
    | None => generated
    end in
  Ok {| level := p_level p;
        tagName := Js.toUpperCase (p_tagName p);
        titleText := Js.trim (p_titleText p);
        contentHtml := p_contentHtml p;
        sourceUrl := p_sourceUrl p;
        addedAt := now;
        sectionId := sectionId |}.

End WithBrowser.

End HeadingSection.

(** ** The HeadingSection entity as the parsing service imports it
    (entities/heading-section.ts): same factory, plain [Error]s. *)

Module Entities.

Import HeadingSection.

Section WithBrowser.

Variable validUrl : string -> bool.
Variable generateUniqueSectionId : string -> Z -> string -> string.
Variable now : Z.

Definition createHeadingSection (p : Params) : Outcome t :=
  (* Number.isInteger holds of every [Z] *)
  guard ((1 <=? p_level p) && (p_level p <=? 6))
    (PlainError ("Invalid heading level: " ++ Js.ofZ (p_level p)
       ++ ". Must be an integer between 1 and 6.")) ;;;
  let expectedTagName := "H" ++ Js.ofZ (p_level p) in
  guard (Js.eqb (Js.toUpperCase (p_tagName p)) expectedTagName)
    (PlainError ("Tag name " ++ Js.dq ++ p_tagName p ++ Js.dq
       ++ " does not match level " ++ Js.ofZ (p_level p)
       ++ ". Expected " ++ Js.dq ++ expectedTagName ++ Js.dq ++ ".")) ;;;
  guard (Js.truthy (Js.trim (p_titleText p)))
    (PlainError "titleText cannot be empty") ;;;
  guard (Js.truthy (Js.trim (p_contentHtml p)))
    (PlainError "contentHtml cannot be empty") ;;;
  guard (Js.truthy (Js.trim (p_sourceUrl p)))
    (PlainError "sourceUrl cannot be empty") ;;;
  guard (validUrl (p_sourceUrl p))
    (PlainError ("Invalid sourceUrl format: " ++ p_sourceUrl p)) ;;;
  let generated :=
    generateUniqueSectionId (p_sourceUrl p) (p_level p) (Js.trim (p_titleText p)) in
  let sectionId :=
    match p_sectionId p with
    | Some id => if Js.truthy (Js.trim id) then Js.trim id else generated
    | None => generated
    end in
  Ok {| level := p_level p;
        tagName := Js.toUpperCase (p_tagName p);
        titleText := Js.trim (p_titleText p);
        contentHtml := p_contentHtml p;
        sourceUrl := p_sourceUrl p;
        addedAt := now;
        sectionId := sectionId |}.

End WithBrowser.

End Entities.

(** ** The document tree *)

Module Dom.

Inductive Node : Type :=
| Text (data : string)
| Element (tagName : string) (id : string) (childNodes : list Node).

(** [node.textContent] *)
Fixpoint textContent (n : Node) : string :=
  match n with
  | Text d => d
  | Element _ _ kids =>
      (fix go (l : list Node) : string :=
         match l with
         | [] => ""
         | c :: r => textContent c ++ go r
         end) kids
  end.

(** A live element: where it sits (the path of its parent from the
    root of the search, and its position among the parent's child
    nodes), what it is, and the sibling nodes that follow it.  Two
    handles denote the same object when their positions agree. *)
Record Elem : Type := mkElem {
  parentPath : list nat;
  index : nat;
  tag : string;
  elemId : string;
  kids : list Node;
  after : list Node
}.

Definition nodeOf (e : Elem) : Node := Element (tag e) (elemId e) (kids e).

Definition elemText (e : Elem) : string := textContent (nodeOf e).

(** [a === b] *)
Definition sameElem (a b : Elem) : bool :=
  bool_decide (parentPath a = parentPath b) && (index a =? index b)%nat.

(** The element siblings found by following [nextElementSibling]. *)
Fixpoint siblingsFrom (pp : list nat) (i : nat) (l : list Node) : list Elem :=
  match l with
  | [] => []
  | Text _ :: r => siblingsFrom pp (S i) r
  | Element t eid ks :: r => mkElem pp i t eid ks r :: siblingsFrom pp (S i) r
  end.

Definition nextElementSiblings (e : Elem) : list Elem :=
  siblingsFrom (parentPath e) (S (index e)) (after e).

Definition nextElementSibling (e : Elem) : option Elem :=
  head (nextElementSiblings e).

(** All element descendants of a node sitting at path [pp], in
    document order. *)
Fixpoint descendants (pp : list nat) (n : Node) {struct n} : list Elem :=
  match n with
  | Text _ => []
  | Element _ _ children =>
      (fix go (i : nat) (l : list Node) {struct l} : list Elem :=
         match l with
         | [] => []
         | c :: r =>
             match c with
             | Text _ => go (S i) r
             | Element t eid ks =>
                 ((mkElem pp i t eid ks r :: descendants (pp ++ [i])%list c)
                  ++ go (S i) r)%list
             end
         end) 0%nat children
  end.

(** The same walk over a list of child nodes, the first of which is
    child number [i] of the node at [pp]. *)
Definition childDescendants (pp : list nat) : nat -> list Node -> list Elem :=
  fix go (i : nat) (l : list Node) {struct l} : list Elem :=
    match l with
    | [] => []
    | c :: r =>
        match c with
        | Text _ => go (S i) r
        | Element t eid ks =>
            ((mkElem pp i t eid ks r :: descendants (pp ++ [i])%list c)
             ++ go (S i) r)%list
        end
    end.

(** The node reached from [n] by a path of child indices. *)
Fixpoint nodeAt (n : Node) (path : list nat) : option Node :=
  match path with
  | [] => Some n
  | i :: rest =>
      match n with
      | Element _ _ children =>
          match children !! i with
          | Some c => nodeAt c rest
          | None => None
          end
      | Text _ => None
      end
  end.

(** A handle describes an element of the tree under [root]. *)
Definition inTree (root : Node) (e : Elem) : Prop :=
  exists t eid children,
    nodeAt root (parentPath e) = Some (Element t eid children)
    /\ drop (index e) children = nodeOf e :: after e.

(** Where a descendant sits: below [pp], at a place of the tree that
    holds exactly this element and its following siblings. *)
Definition placedBelow (n : Node) (pp : list nat) (e : Elem) : Prop :=
  exists q t eid children,
    parentPath e = (pp ++ q)%list
    /\ nodeAt n q = Some (Element t eid children)
    /\ drop (index e) children = nodeOf e :: after e.

(** [container.querySelectorAll("h1,h2,h3,h4,h5,h6")] *)
Definition isHeadingTag (t : string) : bool :=
  match HeadingSection.getHeadingLevelFromTag t with
  | Some _ => true
  | None => false
  end.

Definition queryHeadings (container : Node) : list Elem :=
  filter (fun e => isHeadingTag (tag e) = true) (descendants [] container).

(** Document order on positions: [a] precedes [b]. *)
Fixpoint pathBefore (a b : list nat) : bool :=
  match a, b with
  | [], [] => false
  | [], _ :: _ => true
  | _ :: _, [] => false
  | x :: a', y :: b' =>
      if (x <? y)%nat then true
      else if (y <? x)%nat then false
      else pathBefore a' b'
  end.

Definition position (e : Elem) : list nat := (parentPath e ++ [index e])%list.

Definition precedes (a b : Elem) : bool := pathBefore (position a) (position b).

(** A simple serialiser, used where a concrete one is needed. *)
Fixpoint simpleOuterHTML (n : Node) : string :=
  match n with
  | Text d => d
  | Element t eid children =>
      "<" ++ Js.toLowerCase t
      ++ (if Js.truthy eid then " id=" ++ Js.dq ++ eid ++ Js.dq else "") ++ ">"
      ++ (fix go (l : list Node) : string :=
            match l with
            | [] => ""
            | c :: r => simpleOuterHTML c ++ go r
            end) children
      ++ "</" ++ Js.toLowerCase t ++ ">"
  end.

End Dom.

(** ** HeadingParser (domain/heading-collection/heading-parser.ts) *)

Module HeadingParser.

Import Dom.

Record HeadingParserOptions : Type := mkOptions {
  opt_contentSelector : option string;
  opt_includeHeadingInContent : option bool;
  opt_maxContentLength : option Z
}.

Definition noOptions : HeadingParserOptions := mkOptions None None None.

(** The resolved options the constructor stores. *)
Record Options : Type := mkResolved {
  contentSelector : string;
  includeHeadingInContent : bool;
  maxContentLength : Z
}.

Definition constructor (o : HeadingParserOptions) : Options :=
  {| contentSelector :=
       match opt_contentSelector o with
       | Some s => if Js.truthy s then s else ""
       | None => ""
       end;
     includeHeadingInContent :=
       match opt_includeHeadingInContent o with Some b => b | None => true end;
     maxContentLength :=
       match opt_maxContentLength o with Some n => n | None => 50000 end |}.

Record HeadingParseResult : Type := mkResult {
  sections : list HeadingSection.t;
  warnings : list string;
  contentContainer : option Node
}.

(** The [while (current)] loop over the sibling chain, leaving at [break]. *)
Fixpoint collectUntil (stop : Elem -> bool) (chain : list Elem) : list Elem :=
  match chain with
  | [] => []
  | current :: rest =>
      if stop current then [] else current :: collectUntil stop rest
  end.

(** [tempDiv.innerHTML] after appending clones of the elements. *)
Definition innerHTMLOf (outerHTML : Node -> string) (content : list Elem) : string :=
  String.concat "" (map (fun e => outerHTML (nodeOf e)) content).

(** [if (max && html.length > max) html = html.substring(0, max) + "..."] *)
Definition applyContentLimit (max : Z) (html : string) : string :=
  if negb (max =? 0) && (Js.strlen html >? max)
  then Js.substring0 max html ++ "..."
  else html.

Section WithBrowser.

Variable outerHTML : Node -> string.
Variable validUrl : string -> bool.
Variable generateUniqueSectionId : string -> Z -> string -> string.
Variable now : Z.
Variable options : Options.

Definition extractTitleText (heading : Elem) : string :=
  Js.trim (elemText heading).

(** A sibling ends the section when it is a heading whose level is
    at most the section's; [null] as the section's level compares
    as 0. *)
Definition reachesBoundary (headingLevel : option Z) (current : Elem) : bool :=
  match HeadingSection.getHeadingLevelFromTag (tag current) with
  | Some currentLevel =>
      currentLevel <=? match headingLevel with Some l => l | None => 0 end
  | None => false
  end.

Definition sectionElements (heading : Elem) : list Elem :=
  let headingLevel := HeadingSection.getHeadingLevelFromTag (tag heading) in
  ((if includeHeadingInContent options then [heading] else [])
   ++ collectUntil (reachesBoundary headingLevel) (nextElementSiblings heading))%list.

Definition extractSectionContent (heading : Elem) : string :=
  applyContentLimit (maxContentLength options)
    (innerHTMLOf outerHTML (sectionElements heading)).

Definition parseHeadingSection (heading : Elem) (sourceUrl : string)
  : Outcome HeadingSection.t :=
  match HeadingSection.getHeadingLevelFromTag (tag heading) with
  | None => Throw (ParseError ("Invalid heading tag: " ++ tag heading))
  | Some level =>
      let titleText := extractTitleText heading in
      let contentHtml := extractSectionContent heading in
      HeadingSection.createHeadingSection validUrl generateUniqueSectionId now
        (HeadingSection.mkParams level (tag heading) titleText contentHtml
           sourceUrl None)
  end.

(** [error instanceof Error ? error.message : String(error)] *)
Definition describe (e : Exn) : string := exnMessage e.

(** The [for] loop of [parseFromContainer], from index [i] on. *)
Fixpoint parseLoop (sourceUrl : string) (i : nat) (headings : list Elem)
    (sections : list HeadingSection.t) (warnings : list string)
  : list HeadingSection.t * list string :=
  match headings with
  | [] => (sections, warnings)
  | heading :: rest =>
      match parseHeadingSection heading sourceUrl with
      | Ok section =>
          parseLoop sourceUrl (S i) rest (sections ++ [section])%list warnings
      | Throw error =>
          let warning :=
            "Failed to parse heading " ++ Js.ofNat (i + 1) ++ ": "
            ++ describe error in
          parseLoop sourceUrl (S i) rest sections (warnings ++ [warning])%list
      end
  end.

Definition parseFromContainer (container : Node) (sourceUrl : string)
  : HeadingParseResult :=
  let headings := queryHeadings container in
  let '(sections, warnings) := parseLoop sourceUrl 0 headings [] [] in
  {| sections := sections;
     warnings := warnings;
     contentContainer := Some container |}.

End WithBrowser.

End HeadingParser.

(** ** HeadingParser (domain/heading-collection/services/heading-parser.ts) *)

Module HeadingParserService.

Import Dom.

Definition getDefaultContentSelector : string :=
  "main, [role=" ++ Js.dq ++ "main" ++ Js.dq ++ "], .main-content, .content, #content".

Record Options : Type := mkResolved {
  contentSelector : string;
  includeHeadingInContent : bool;
  maxContentLength : Z
}.

Definition constructor (o : HeadingParser.HeadingParserOptions) : Options :=
  {| contentSelector :=
       match HeadingParser.opt_contentSelector o with
       | Some s => if Js.truthy s then s else getDefaultContentSelector
       | None => getDefaultContentSelector
       end;
     includeHeadingInContent :=
       match HeadingParser.opt_includeHeadingInContent o with
       | Some b => b
       | None => true
       end;
     maxContentLength :=
       match HeadingParser.opt_maxContentLength o with
       | Some n => if n =? 0 then 50000 else n
       | None => 50000
       end |}.

(** [Array.prototype.sort] with the comparator of [findHeadingElements]:
    -1 when [b] follows [a], 1 when [b] precedes [a], else 0. *)
Fixpoint insertSorted (x : Elem) (sorted : list Elem) : list Elem :=
  match sorted with
  | [] => [x]
  | y :: rest =>
      if precedes y x || negb (precedes x y)
      then y :: insertSorted x rest
      else x :: sorted
  end.

Definition sortByDocumentOrder (l : list Elem) : list Elem :=
  fold_left (fun sorted x => insertSorted x sorted) l [].

Definition findHeadingElements (container : Node) : list Elem :=
  sortByDocumentOrder (queryHeadings container).

(** [/^H[1-6]$/i.test(element.tagName)] *)
Definition isHeadingElement (element : Elem) : bool := isHeadingTag (tag element).

Fixpoint findFirstRelevant (currentLevel : Z) (candidates : list Elem) : option Elem :=
  match candidates with
  | [] => None
  | heading :: rest =>
      match HeadingSection.getHeadingLevelFromTag (tag heading) with
      | Some level =>
          if level <=? currentLevel then Some heading
          else findFirstRelevant currentLevel rest
      | None => findFirstRelevant currentLevel rest
      end
  end.

(** The first heading after [currentIndex] whose level is at most
    [currentLevel]. *)
Definition findNextRelevantHeading (allHeadings : list Elem) (currentIndex : nat)
    (currentLevel : Z) : option Elem :=
  findFirstRelevant currentLevel (drop (S currentIndex) allHeadings).

(** The two [break] conditions of the collecting loop. *)
Definition stopsAt (nextHeading : option Elem) (currentLevel : Z)
    (currentNode : Elem) : bool :=
  match nextHeading with
  | Some h => sameElem currentNode h
  | None => false
  end
  || (isHeadingElement currentNode
      && match HeadingSection.getHeadingLevelFromTag (tag currentNode) with
         | Some nodeLevel => nodeLevel <=? currentLevel
         | None => false
         end).

Section WithBrowser.

Variable outerHTML : Node -> string.
Variable validUrl : string -> bool.
Variable generateUniqueSectionId : string -> Z -> string -> string.
Variable now : Z.
(** [rootElement.querySelector(selector)]; an invalid selector throws. *)
Variable querySelector : string -> Node -> Outcome (option Node).
Variable options : Options.

Definition nodesToHtmlString (nodes : list Elem) : string :=
  match nodes with
  | [] => ""
  | _ =>
      let htmlString := HeadingParser.innerHTMLOf outerHTML nodes in
      if negb (maxContentLength options =? 0)
         && (Js.strlen htmlString >? maxContentLength options)
      then Js.substring0 (maxContentLength options) htmlString ++ "..."
      else htmlString
  end.

Definition sectionNodes (headingElement : Elem) (allHeadings : list Elem)
    (currentIndex : nat) (currentLevel : Z) : list Elem :=
  let nextHeading := findNextRelevantHeading allHeadings currentIndex currentLevel in
  ((if includeHeadingInContent options then [headingElement] else [])
   ++ HeadingParser.collectUntil (stopsAt nextHeading currentLevel)
        (nextElementSiblings headingElement))%list.

Definition extractSectionContent (headingElement : Elem) (allHeadings : list Elem)
    (currentIndex : nat) (currentLevel : Z) : string :=
  nodesToHtmlString (sectionNodes headingElement allHeadings currentIndex currentLevel).

Definition extractTitleText (headingElement : Elem) : string :=
  Js.trim (elemText headingElement).

Definition generateSectionId (headingElement : Elem) (index : nat) : string :=
  if Js.truthy (elemId headingElement) then elemId headingElement
  else
    let titleText := extractTitleText headingElement in
    let slugified :=
      Js.substring0 50
        (Js.replaceSpaceRuns "-"
           (Js.filterChars
              (fun c => Js.isWord c || Js.isSpace c || (Js.code c =? 45)%nat)
              (Js.toLowerCase titleText))) in
    "section-" ++ Js.ofNat index ++ "-" ++ slugified.

Definition parseHeadingSection (headingElement : Elem) (allHeadings : list Elem)
    (currentIndex : nat) (sourceUrl : string) : Outcome HeadingSection.t :=
  match HeadingSection.getHeadingLevelFromTag (tag headingElement) with
  | None => Throw (PlainError ("Invalid heading tag: " ++ tag headingElement))
  | Some level =>
      let titleText := extractTitleText headingElement in
      guard (Js.truthy (Js.trim titleText))
        (PlainError "Heading element has no text content") ;;;
      let contentHtml :=
        extractSectionContent headingElement allHeadings currentIndex level in
      guard (Js.truthy (Js.trim contentHtml))
        (PlainError "Section has no content") ;;;
      let sectionId := generateSectionId headingElement currentIndex in
      Entities.createHeadingSection validUrl generateUniqueSectionId now
        (HeadingSection.mkParams level (tag headingElement) titleText
           contentHtml sourceUrl (Some sectionId))
  end.

(** The selector cascade; an invalid selector is skipped. *)
Fixpoint firstMatch (selectors : list string) (rootElement : Node) : option Node :=
  match selectors with
  | [] => None
  | selector :: rest =>
      match querySelector selector rootElement with
      | Ok (Some element) => Some element
      | _ => firstMatch rest rootElement
      end
  end.

Definition findContentContainer (rootElement : Node) : option Node :=
  firstMatch
    (filter (fun s => Js.truthy s = true)
       [ contentSelector options; "main"; "[role=" ++ Js.dq ++ "main" ++ Js.dq ++ "]"; ".main-content";
         ".content"; "#content"; ".wiki-content"; ".page-content"; "article" ])
    rootElement.

(** The [for] loop of [parseFromElement], from index [i] on. *)
Fixpoint parseLoop (sourceUrl : string) (allHeadings : list Elem) (i : nat)
    (remaining : list Elem)
    (sections : list HeadingSection.t) (warnings : list string)
  : list HeadingSection.t * list string :=
  match remaining with
  | [] => (sections, warnings)
  | headingElement :: rest =>
      match parseHeadingSection headingElement allHeadings i sourceUrl with
      | Ok section =>
          parseLoop sourceUrl allHeadings (S i) rest
            (sections ++ [section])%list warnings
      | Throw error =>
          let errorMessage :=
            "Failed to parse heading at index " ++ Js.ofNat i ++ ": "
            ++ (if isErrorObject error then exnMessage error
                else "Unknown error") in
          parseLoop sourceUrl allHeadings (S i) rest sections
            (warnings ++ [errorMessage])%list
      end
  end.

Definition parseFromElement (rootElement : Node) (sourceUrl : string)
  : HeadingParser.HeadingParseResult :=
  let contentContainer := findContentContainer rootElement in
  let warnings0 :=
    match contentContainer with
    | None => ["Could not find main content container, using document body"]
    | Some _ => []
    end in
  let container :=
    match contentContainer with Some c => c | None => rootElement end in
  let headingElements := findHeadingElements container in
  match headingElements with
  | [] =>
      HeadingParser.mkResult []
        (warnings0 ++ ["No heading elements found in the content"])%list
        contentContainer
  | _ =>
      let '(sections, warnings) :=
        parseLoop sourceUrl headingElements 0 headingElements [] warnings0 in
      HeadingParser.mkResult sections warnings contentContainer
  end.

End WithBrowser.

End HeadingParserService.

(** ** Anchored regular expressions of the shape the validator uses *)

Module Regex.

Inductive Quant : Type := One | Opt | Plus | Star.

Definition Atom : Type := (Quant * (ascii -> bool))%type.

(** [^ a1 a2 ... an $] tested against the whole string. *)
Fixpoint test (p : list Atom) : string -> bool :=
  match p with
  | [] => fun s => negb (Js.truthy s)
  | (One, cls) :: p' =>
      fun s => match s with
               | String c r => cls c && test p' r
               | EmptyString => false
               end
  | (Opt, cls) :: p' =>
      fun s => test p' s
               || match s with
                  | String c r => cls c && test p' r
                  | EmptyString => false
                  end
  | (Star, cls) :: p' =>
      fix star (s : string) : bool :=
        test p' s
        || match s with
           | String c r => cls c && star r
           | EmptyString => false
           end
  | (Plus, cls) :: p' =>
      fun s => match s with
               | String c r =>
                   cls c
                   && (fix star (s : string) : bool :=
                         test p' s
                         || match s with
                            | String c r => cls c && star r
                            | EmptyString => false
                            end) r
               | EmptyString => false
               end
  end.

(** A literal character under the [i] flag. *)
Definition ci (c : ascii) : ascii -> bool :=
  fun x => (Js.code (Js.lowerChar x) =? Js.code (Js.lowerChar c))%nat.

Fixpoint word (s : string) : list Atom :=
  match s with
  | EmptyString => []
  | String c r => (One, ci c) :: word r
  end.

End Regex.

(** ** DomHelpers and HeadingExtractorService
    (infrastructure/gateways/dom/utils/dom-helpers.ts,
     infrastructure/gateways/dom/services/heading-extractor.service.ts) *)

Module DomHelpers.

(** [text.replace(/\s+/g, " ").trim()] *)
Definition normalizeText (text : string) : string :=
  Js.trim (Js.replaceSpaceRuns " " text).

End DomHelpers.

Module HeadingExtractorService.

Import Regex.

Definition excludePatterns : list (list Atom) :=
  [ (word "table" ++ [(Plus, Js.isSpace)] ++ word "of" ++ [(Plus, Js.isSpace)]
       ++ word "content" ++ [(Opt, ci "s")])%list;
    word "toc";
    (word "content" ++ [(Opt, ci "s")])%list;
    word "index";
    (word "reference" ++ [(Opt, ci "s")])%list;
    word "bibliography";
    (word "footnote" ++ [(Opt, ci "s")])%list;
    (word "see" ++ [(Plus, Js.isSpace)] ++ word "also")%list;
    [ (Plus, Js.isDigit); (Opt, fun c => (Js.code c =? 46)%nat); (Star, Js.isSpace) ];
    [ (Plus, fun c => (Js.code c =? 35)%nat || (Js.code c =? 45)%nat
                      || (Js.code c =? 42)%nat || (Js.code c =? 43)%nat
                      || Js.isSpace c) ] ].

Definition shouldExcludeSection (section : HeadingSection.t) : bool :=
  let title := Js.trim (Js.toLowerCase (HeadingSection.titleText section)) in
  existsb (fun pattern => test pattern title) excludePatterns.

Definition isValidSection (section : HeadingSection.t) : bool :=
  if negb (Js.truthy (HeadingSection.titleText section))
     || negb (Js.truthy (HeadingSection.sourceUrl section))
  then false
  else
    let trimmedTitle := Js.trim (HeadingSection.titleText section) in
    if Js.strlen trimmedTitle <? 2 then false
    else if (HeadingSection.level section <? 1) || (HeadingSection.level section >? 6)
    then false
    else if shouldExcludeSection section then false
    else true.

(** The loop of [validateAndFilterSections] with its two accumulators. *)
Fixpoint filterLoop (sections : list HeadingSection.t)
    (validSections : list HeadingSection.t) (seenTitles : gset string)
  : list HeadingSection.t :=
  match sections with
  | [] => validSections
  | section :: rest =>
      if negb (isValidSection section) then filterLoop rest validSections seenTitles
      else
        let normalizedTitle :=
          DomHelpers.normalizeText (HeadingSection.titleText section) in
        if bool_decide (normalizedTitle ∈ seenTitles)
        then filterLoop rest validSections seenTitles
        else filterLoop rest (validSections ++ [section])%list
               ({[ normalizedTitle ]} ∪ seenTitles)
  end.

Definition validateAndFilterSections (sections : list HeadingSection.t)
  : list HeadingSection.t :=
  filterLoop sections [] ∅.

End HeadingExtractorService.

(** ** The document as the overlay sees it: its headings and the
    mounted controls *)

Module Page.

Record HeadingEl : Type := mkHeading {
  hid : nat;                       (* the element's identity *)
  hLevel : Z;                      (* 2 for an [h2] *)
  hText : string;                  (* text of the heading without controls *)
  processed : bool;                (* has [data-dwpp-processed] *)
  sectionData : option string      (* [data-dwpp-section-id] *)
}.

Inductive Placement : Type := After | Inline | InParent.

(** An element carrying the control's marker class. *)
Record ButtonEl : Type := mkButton {
  bid : nat;
  anchor : nat;                    (* the heading it was mounted for *)
  placement : Placement;
  label : string                   (* its text *)
}.

Record Document : Type := mkDocument {
  headings : list HeadingEl;       (* every h1..h6, in document order *)
  buttonNodes : list ButtonEl;     (* every element with the marker class *)
  nextNode : nat                   (* identity of the next created node *)
}.

Definition isInlineAt (e : nat) (b : ButtonEl) : bool :=
  match placement b with
  | Inline => (anchor b =? e)%nat
  | _ => false
  end.

(** [heading.textContent]: a control wrapped inside the heading
    contributes its text. *)
Definition textContent (d : Document) (h : HeadingEl) : string :=
  hText h ++ String.concat "" (map label (filter (fun b => isInlineAt (hid h) b = true) (buttonNodes d))).

Definition hasProcessedAttribute (d : Document) (e : nat) : bool :=
  existsb (fun h => (hid h =? e)%nat && processed h) (headings d).

Definition updateHeading (f : HeadingEl -> HeadingEl) (e : nat) (d : Document)
  : Document :=
  {| headings := map (fun h => if (hid h =? e)%nat then f h else h) (headings d);
     buttonNodes := buttonNodes d;
     nextNode := nextNode d |}.

Definition setProcessed (e : nat) : Document -> Document :=
  updateHeading
    (fun h => mkHeading (hid h) (hLevel h) (hText h) true (sectionData h)) e.

Definition setSectionData (e : nat) (v : string) : Document -> Document :=
  updateHeading
    (fun h => mkHeading (hid h) (hLevel h) (hText h) (processed h) (Some v)) e.

Definition removeProcessedAttributes (d : Document) : Document :=
  {| headings :=
       map (fun h => mkHeading (hid h) (hLevel h) (hText h) false (sectionData h))
         (headings d);
     buttonNodes := buttonNodes d;
     nextNode := nextNode d |}.

Definition removeNode (b : nat) (d : Document) : Document :=
  {| headings := headings d;
     buttonNodes := filter (fun x => bid x ≠ b) (buttonNodes d);
     nextNode := nextNode d |}.

Definition removeMarked (d : Document) : Document :=
  {| headings := headings d; buttonNodes := []; nextNode := nextNode d |}.

Definition addButtonNode (b : ButtonEl) (d : Document) : Document :=
  {| headings := headings d;
     buttonNodes := (buttonNodes d ++ [b])%list;
     nextNode := nextNode d |}.

Definition createNode (d : Document) : nat * Document :=
  (nextNode d,
   {| headings := headings d; buttonNodes := buttonNodes d;
      nextNode := S (nextNode d) |}).

End Page.

(** ** HeadingElementFinder (strategies/heading-element-finder.ts) *)

Module HeadingElementFinder.

Import Page.

(** [a.includes(b)] *)
Fixpoint includes (a b : string) : bool :=
  String.prefix b a
  || match a with
     | String _ r => includes r b
     | EmptyString => false
     end.

Definition startsWith (a b : string) : bool := String.prefix b a.

(** [document.querySelectorAll("h" + level)]: the headings of that
    level in document order, each with its trimmed text. *)
Definition headingsOfLevel (d : Document) (level : Z) : list (nat * string) :=
  map (fun h => (hid h, Js.trim (textContent d h)))
    (filter (fun h => hLevel h = level) (headings d)).

Section Strategies.

Variable section : HeadingSection.t.

Definition firstWith (p : string -> bool) (hs : list (nat * string)) : option nat :=
  match find (fun h => p (snd h)) hs with
  | Some h => Some (fst h)
  | None => None
  end.

Definition findExactMatch (hs : list (nat * string)) : option nat :=
  firstWith (fun headingText =>
               Js.eqb headingText (HeadingSection.titleText section)) hs.

Definition findNormalizedMatch (hs : list (nat * string)) : option nat :=
  let normalizedSectionTitle :=
    DomHelpers.normalizeText (HeadingSection.titleText section) in
  firstWith (fun headingText =>
               Js.eqb (DomHelpers.normalizeText headingText)
                 normalizedSectionTitle) hs.

Definition findPartialMatch (hs : list (nat * string)) : option nat :=
  let title := HeadingSection.titleText section in
  firstWith (fun headingText =>
               startsWith headingText title
               || startsWith title headingText
               || includes headingText title
               || includes title headingText) hs.

Definition findIndexMatch (hs : list (nat * string)) (index : nat) : option nat :=
  match hs !! index with
  | Some h => Some (fst h)
  | None => None
  end.

(** The cascade: exact, normalised, partial, by position. *)
Definition locateIn (hs : list (nat * string)) (index : nat) : option nat :=
  match findExactMatch hs with
  | Some e => Some e
  | None =>
      match findNormalizedMatch hs with
      | Some e => Some e
      | None =>
          match findPartialMatch hs with
          | Some e => Some e
          | None => findIndexMatch hs index
          end
      end
  end.

End Strategies.

(** [find]: the located heading also receives the section-index
    attribute. *)
Definition find (section : HeadingSection.t) (index : nat) (d : Document)
  : option nat * Document :=
  match locateIn section (headingsOfLevel d (HeadingSection.level section)) index with
  | Some e => (Some e, setSectionData e (Js.ofNat index) d)
  | None => (None, d)
  end.

End HeadingElementFinder.

(** ** ButtonManagerService (services/button-manager.service.ts) *)

Module ButtonManagerService.

Import Page.

(** The service's private [buttons] map together with the document
    it acts on. *)
Record State : Type := mkState {
  buttons : gmap string nat;
  document : Document
}.

(** [BUTTON_STYLES.states.default.icon] *)
Definition DEFAULT_ICON : string := "➕".

(** [ButtonFactory.create]: a fresh, detached button. *)
Definition createButton (d : Document) : nat * Document := createNode d.

(** [ButtonFactory.removeButton]: the button is replaced by a clone
    and the clone is removed. *)
Definition removeButton (b : nat) (d : Document) : Document := removeNode b d.

Definition generateButtonId (section : HeadingSection.t) (index : nat) : string :=
  let normalizedTitle :=
    Js.toLowerCase
      (Js.filterChars
         (fun c => Js.isLower c || Js.isUpper c || Js.isDigit c
                   || (Js.code c =? 45)%nat)
         (Js.replaceSpaceRuns "-" (HeadingSection.titleText section))) in
  "dwpp-btn-" ++ Js.ofNat index ++ "-" ++ normalizedTitle.

(** The three insertion methods.  A heading found by a query on the
    document has a parent, and inserting a fresh button next to it
    does not throw. *)
Definition insertButtonAfterElement (e b : nat) (d : Document) : bool * Document :=
  (true, addButtonNode (mkButton b e After DEFAULT_ICON) d).

Definition insertButtonInline (e b : nat) (d : Document) : bool * Document :=
  (true, addButtonNode (mkButton b e Inline DEFAULT_ICON) d).

Definition insertButtonInParent (e b : nat) (d : Document) : bool * Document :=
  (true, addButtonNode (mkButton b e InParent DEFAULT_ICON) d).

Definition insertButton (e b : nat) (d : Document) : bool * Document :=
  let '(ok1, d1) := insertButtonAfterElement e b d in
  if ok1 then (true, d1)
  else
    let '(ok2, d2) := insertButtonInline e b d1 in
    if ok2 then (true, d2)
    else
      let '(ok3, d3) := insertButtonInParent e b d2 in
      if ok3 then (true, d3) else (false, d3).

Definition removeAllButtons (st : State) : State :=
  (* remove individual buttons, then clear the map *)
  let d1 := map_fold (fun _ b d => removeButton b d) (document st) (buttons st) in
  (* remove remaining buttons by class name *)
  let d2 := removeMarked d1 in
  (* remove processed attributes *)
  let d3 := removeProcessedAttributes d2 in
  {| buttons := ∅; document := d3 |}.

(** The body of the [forEach] callback of [insertButtons]. *)
Definition insertOne (section : HeadingSection.t) (index : nat) (st : State) : State :=
  let buttonId := generateButtonId section index in
  match buttons st !! buttonId with
  | Some _ => st
  | None =>
      match HeadingElementFinder.find section index (document st) with
      | (None, d1) => {| buttons := buttons st; document := d1 |}
      | (Some headingElement, d1) =>
          if hasProcessedAttribute d1 headingElement
          then {| buttons := buttons st; document := d1 |}
          else
            let '(button, d2) := createButton d1 in
            let '(inserted, d3) := insertButton headingElement button d2 in
            if inserted
            then {| buttons := <[ buttonId := button ]> (buttons st);
                    document := setProcessed headingElement d3 |}
            else {| buttons := buttons st; document := d3 |}
      end
  end.

Fixpoint insertEach (sections : list HeadingSection.t) (index : nat) (st : State)
  : State :=
  match sections with
  | [] => st
  | section :: rest => insertEach rest (S index) (insertOne section index st)
  end.

Definition insertButtons (sections : list HeadingSection.t) (st : State) : State :=
  insertEach sections 0 (removeAllButtons st).

Definition getButtonCount (st : State) : nat := size (buttons st).

End ButtonManagerService.

(** ** SPAMonitorService (services/spa-monitor.service.ts) *)

Module SPAMonitorService.

(** *** [waitForElement]

    The promise, the temporary observer and the timer form a small
    state machine.  Three kinds of event happen while it waits: nodes
    are added or removed under the container (a child-list mutation,
    delivered to the observer while it is connected), an attribute of
    an element under the container changes (the observer is registered
    with [{ childList: true, subtree: true }] only, so it hears nothing
    of it), and the timer expires.  Each mutation says whether the
    selector matches inside the container once it has happened. *)

Inductive Effect : Type :=
| Observe                      (* observer.observe(container, ...) *)
| SetTimeout (delay : Z)
| CallbackRan                  (* the observer callback was entered *)
| ClearTimeout
| Disconnect
| Resolve (value : bool).

Record Wait : Type := mkWait {
  promise : option bool;       (* [None] while pending *)
  observing : bool;            (* the observer is connected *)
  timerArmed : bool;           (* the timer is set and has not fired *)
  effects : list Effect        (* what happened, oldest first *)
}.

(** [resolve(v)]: settling a settled promise changes nothing. *)
Definition resolve (v : bool) (w : Wait) : Wait :=
  {| promise := match promise w with Some r => Some r | None => Some v end;
     observing := observing w;
     timerArmed := timerArmed w;
     effects := (effects w ++ [Resolve v])%list |}.

Definition disconnect (w : Wait) : Wait :=
  {| promise := promise w; observing := false; timerArmed := timerArmed w;
     effects := (effects w ++ [Disconnect])%list |}.

Definition clearTimeout (w : Wait) : Wait :=
  {| promise := promise w; observing := observing w; timerArmed := false;
     effects := (effects w ++ [ClearTimeout])%list |}.

Definition DEFAULT_TIMEOUT : Z := 10000.

(** The call itself; [matchesNow] is the result of the first
    [safeQuerySelector(selector, container)]. *)
Definition waitForElement (matchesNow : bool) (timeout : option Z) : Wait :=
  if matchesNow
  then {| promise := Some true; observing := false; timerArmed := false;
          effects := [Resolve true] |}
  else
    let delay := match timeout with Some t => t | None => DEFAULT_TIMEOUT end in
    {| promise := None; observing := true; timerArmed := true;
       effects := [Observe; SetTimeout delay] |}.

Inductive Event : Type :=
| ChildListMutation (matchesAfter : bool)
| AttributeMutation (matchesAfter : bool)
| TimeoutElapsed.

(** The observer callback. *)
Definition observerCallback (matches : bool) (w : Wait) : Wait :=
  let w1 := {| promise := promise w; observing := observing w;
               timerArmed := timerArmed w;
               effects := (effects w ++ [CallbackRan])%list |} in
  if matches then resolve true (disconnect (clearTimeout w1)) else w1.

(** The timer callback. *)
Definition timerCallback (w : Wait) : Wait :=
  let w1 := {| promise := promise w; observing := observing w;
               timerArmed := false; effects := effects w |} in
  resolve false (disconnect w1).

Definition step (w : Wait) (ev : Event) : Wait :=
  match ev with
  | ChildListMutation m => if observing w then observerCallback m w else w
  | AttributeMutation _ => w
  | TimeoutElapsed => if timerArmed w then timerCallback w else w
  end.

Definition run (w : Wait) (evs : list Event) : Wait := fold_left step evs w.



(** *** [checkNavigationChange] *)

(** A registered callback; it may throw on some URLs. *)
Record Callback : Type := mkCallback {
  cbId : nat;
  cbThrows : string -> bool
}.

Record Monitor : Type := mkMonitor {
  lastUrl : string;
  navigationCallbacks : list Callback;
  invocations : list (nat * string)   (* callback, URL: oldest first *)
}.

(** [callback(currentUrl)] inside [try]/[catch]. *)
Definition invoke (currentUrl : string) (log : list (nat * string)) (cb : Callback)
  : list (nat * string) :=
  let log' := (log ++ [(cbId cb, currentUrl)])%list in
  if cbThrows cb currentUrl then log' (* caught and reported *) else log'.

(** [currentUrl] is [window.location.href] at the time of the call. *)
Definition checkNavigationChange (currentUrl : string) (m : Monitor) : Monitor :=
  if negb (Js.eqb currentUrl (lastUrl m))
  then {| lastUrl := currentUrl;
          navigationCallbacks := navigationCallbacks m;
          invocations :=
            fold_left (invoke currentUrl) (navigationCallbacks m) (invocations m) |}
  else m.

End SPAMonitorService.

(** ** The content script (entrypoints/content/index.ts): [initialize]

    [initialize] is an [async] function: an invocation runs until its
    first [await], is suspended there, and is resumed when the awaited
    promise settles.  Several invocations may be alive at once; the
    state keeps every suspended one. *)

Module ContentScript.

(** What a pass does on the page. *)
Inductive Action : Type :=
| CheckRelevantPage
| FindMainContentContainer
| WaitForHeadings
| WaitForContentStabilization
| ExtractHeadingSections
| RemoveAddButtons
| InsertAddButtons (count : nat)
| LogError.

(** Where a suspended invocation waits. *)
Inductive Suspended : Type :=
| AwaitingHeadings (contentArea : nat)
| AwaitingStabilization (contentArea : nat)
| AwaitingExtraction (contentArea : nat).

Record State : Type := mkState {
  isInitializing : bool;
  lastUrl : string;
  inFlight : list Suspended;
  actions : list Action            (* oldest first *)
}.

Definition initial (url : string) : State :=
  {| isInitializing := false; lastUrl := url; inFlight := []; actions := [] |}.

Definition act (a : Action) (st : State) : State :=
  {| isInitializing := isInitializing st; lastUrl := lastUrl st;
     inFlight := inFlight st; actions := (actions st ++ [a])%list |}.

Definition setFlag (b : bool) (st : State) : State :=
  {| isInitializing := b; lastUrl := lastUrl st;
     inFlight := inFlight st; actions := actions st |}.

Definition suspend (s : Suspended) (st : State) : State :=
  {| isInitializing := isInitializing st; lastUrl := lastUrl st;
     inFlight := (inFlight st ++ [s])%list; actions := actions st |}.

Definition unsuspend (k : nat) (st : State) : State :=
  {| isInitializing := isInitializing st; lastUrl := lastUrl st;
     inFlight := delete k (inFlight st); actions := actions st |}.

(** Leaving the [try] block: [finally { isInitializing = false }]. *)
Definition finish (st : State) : State := setFlag false st.

(** The [catch] block, then [finally]. *)
Definition fail (st : State) : State := finish (act LogError st).

(** What the page answers to the calls of one invocation. *)
Inductive Event : Type :=
| Invoke (relevant : Outcome bool) (container : Outcome (option nat))
| HeadingsSettled (k : nat) (headingsFound : Outcome bool)
| StabilizationSettled (k : nat) (result : Outcome unit)
| ExtractionSettled (k : nat) (headingSections : Outcome nat)
    (removed inserted : Outcome unit) (href : string).

(** A call of [initialize()], up to its first [await] or its return. *)
Definition initialize (relevant : Outcome bool)
    (container : Outcome (option nat)) (st : State) : State :=
  if isInitializing st then st
  else
    let st := setFlag true st in
    let st := act CheckRelevantPage st in
    match relevant with
    | Throw _ => fail st
    | Ok false => finish st
    | Ok true =>
        let st := act FindMainContentContainer st in
        match container with
        | Throw _ => fail st
        | Ok None => finish st
        | Ok (Some contentArea) =>
            suspend (AwaitingHeadings contentArea) (act WaitForHeadings st)
        end
    end.

Definition step (st : State) (ev : Event) : State :=
  match ev with
  | Invoke relevant container => initialize relevant container st
  | HeadingsSettled k r =>
      match inFlight st !! k with
      | Some (AwaitingHeadings contentArea) =>
          let st := unsuspend k st in
          match r with
          | Throw _ => fail st
          | Ok false => finish st
          | Ok true =>
              suspend (AwaitingStabilization contentArea)
                (act WaitForContentStabilization st)
          end
      | _ => st
      end
  | StabilizationSettled k r =>
      match inFlight st !! k with
      | Some (AwaitingStabilization contentArea) =>
          let st := unsuspend k st in
          match r with
          | Throw _ => fail st
          | Ok _ =>
              suspend (AwaitingExtraction contentArea)
                (act ExtractHeadingSections st)
          end
      | _ => st
      end
  | ExtractionSettled k r removed inserted href =>
      match inFlight st !! k with
      | Some (AwaitingExtraction _) =>
          let st := unsuspend k st in
          match r with
          | Throw _ => fail st
          | Ok count =>
              let st := act RemoveAddButtons st in
              match removed with
              | Throw _ => fail st
              | Ok _ =>
                  let st := act (InsertAddButtons count) st in
                  match inserted with
                  | Throw _ => fail st
                  | Ok _ =>
                      finish
                        {| isInitializing := isInitializing st; lastUrl := href;
                           inFlight := inFlight st; actions := actions st |}
                  end
              end
          end
      | _ => st
      end
  end.

Definition run (st : State) (evs : list Event) : State := fold_left step evs st.

End ContentScript.

(** ** AddHeadingSectionUseCase
    (application/usecases/heading-collection/add-heading-section.ts) *)

Module AddHeadingSectionUseCase.

(** A JavaScript number as [validateInput] sees it. *)
Inductive Num : Type :=
| Integer (z : Z)
| NotInteger.                  (* a fraction, NaN or an infinity *)

Record AddHeadingSectionInput : Type := mkInput {
  in_level : Num;
  in_title : string;
  in_content : option string;
  in_sourceUrl : string;
  in_id : option string
}.

Inductive ErrorCode : Type :=
| INVALID_INPUT
| STORAGE_QUOTA_EXCEEDED
| REPOSITORY_ERROR
| UNKNOWN_ERROR.

Inductive AddHeadingSectionResult : Type :=
| Success (sectionId : string)
| Failure (errorCode : ErrorCode) (message : string).

(** The part of [IHeadingSectionRepository] the use case calls, over a
    storage state: each call returns or throws.  [addSection] resolves
    to a [Result] that [execute] does not read; what remains of a call
    that returns is the state it leaves. *)
Record Repository (Store : Type) : Type := mkRepository {
  sectionExists : Store -> string -> Outcome bool;
  addSection : Store -> HeadingSection.t -> Outcome Store
}.
Arguments sectionExists {Store} _ _ _.
Arguments addSection {Store} _ _ _.

(** The repository used by the tests: a list of sections. *)
Definition inMemory : Repository (list HeadingSection.t) :=
  {| sectionExists := fun store id =>
       Ok (existsb (fun s => Js.eqb (HeadingSection.sectionId s) id) store);
     addSection := fun store section => Ok (store ++ [section])%list |}.

Section WithBrowser.

Variable validUrl : string -> bool.
Variable generateUniqueSectionId : string -> Z -> string -> string.
Variable now : Z.

Definition validateInput (input : AddHeadingSectionInput) : Outcome Z :=
  level <-
    match in_level input with
    | Integer z =>
        if (z <? 1) || (z >? 6)
        then Throw (InputValidationError
                      "Heading level must be an integer between 1 and 6" "level")
        else Ok z
    | NotInteger =>
        Throw (InputValidationError
                 "Heading level must be an integer between 1 and 6" "level")
    end ;;
  guard (Js.truthy (in_title input) && negb (Js.strlen (Js.trim (in_title input)) =? 0))
    (InputValidationError "Title must be a non-empty string" "title") ;;;
  guard (Js.truthy (in_sourceUrl input))
    (InputValidationError "Source URL must be a non-empty string" "sourceUrl") ;;;
  guard (validUrl (in_sourceUrl input))
    (InputValidationError "Source URL must be a valid URL" "sourceUrl") ;;;
  guard match in_id input with
        | Some id => negb (Js.strlen (Js.trim id) =? 0)
        | None => true
        end
    (InputValidationError "Custom ID must be a non-empty string if provided" "id") ;;;
  Ok level.

(** The type guard on a freshly created section. *)
Definition isHeadingSection (s : HeadingSection.t) : bool :=
  (HeadingSection.level s >=? 1) && (HeadingSection.level s <=? 6).

Definition createHeadingSection (level : Z) (input : AddHeadingSectionInput)
  : Outcome HeadingSection.t :=
  let title := Js.trim (in_title input) in
  let fallback :=
    "<h" ++ Js.ofZ level ++ ">" ++ title ++ "</h" ++ Js.ofZ level ++ ">" in
  let contentHtml :=
    match in_content input with
    | Some c => if Js.truthy (Js.trim c) then Js.trim c else fallback
    | None => fallback
    end in
  let sectionId :=
    match in_id input with
    | Some id => if Js.truthy id then Some (Js.trim id) else None
    | None => None
    end in
  section <-
    HeadingSection.createHeadingSection validUrl generateUniqueSectionId now
      (HeadingSection.mkParams level ("H" ++ Js.ofZ level) title contentHtml
         (in_sourceUrl input) sectionId) ;;
  guard (isHeadingSection section)
    (PlainError "Failed to create valid HeadingSection entity") ;;;
  Ok section.

(** The [instanceof] cascade.  [StorageQuotaExceededError],
    [InvalidSectionError] and [RepositoryError] are the classes the
    use case imports from domain/heading-collection, those of the
    repository interface; an error of domain/shared/errors.ts is an
    instance of none of them, whatever its name. *)
Definition handleError (error : Exn) : AddHeadingSectionResult :=
  match error with
  | InputValidationError message _ => Failure INVALID_INPUT message
  | OfRepository (HeadingSectionRepository.StorageQuotaExceededError _) =>
      Failure STORAGE_QUOTA_EXCEEDED
        "Storage quota exceeded. Please remove some sections and try again."
  | OfRepository (HeadingSectionRepository.InvalidSectionError _ as e) =>
      Failure INVALID_INPUT (HeadingSectionRepository.message e)
  | OfRepository _ => Failure REPOSITORY_ERROR "Failed to save section to storage"
  | _ =>
      Failure UNKNOWN_ERROR "An unexpected error occurred while adding the section"
  end.

(** What one call leaves behind. *)
Record Run (Store : Type) : Type := mkRun {
  result : AddHeadingSectionResult;
  store : Store;
  existsCalls : list string;            (* ids passed to sectionExists *)
  addCalls : list HeadingSection.t      (* sections passed to addSection *)
}.
Arguments mkRun {Store} _ _ _ _.

Definition execute {Store : Type} (repository : Repository Store)
    (input : AddHeadingSectionInput) (st : Store) : Run Store :=
  match (level <- validateInput input ;; createHeadingSection level input) with
  | Throw error => mkRun (handleError error) st [] []
  | Ok section =>
      let id := HeadingSection.sectionId section in
      match sectionExists repository st id with
      | Throw error => mkRun (handleError error) st [id] []
      | Ok true =>
          mkRun (Failure INVALID_INPUT
                   ("A section with ID '" ++ id ++ "' already exists"))
            st [id] []
      | Ok false =>
          match addSection repository st section with
          | Throw error => mkRun (handleError error) st [id] [section]
          | Ok st' => mkRun (Success id) st' [id] [section]
          end
      end
  end.

End WithBrowser.

Arguments result {Store} _.
Arguments store {Store} _.
Arguments existsCalls {Store} _.
Arguments addCalls {Store} _.

End AddHeadingSectionUseCase.

(** ** Vocabulary of the statements, and sample inputs *)

Module Spec.

Import Dom.

(** An element that ends a section of level [L]: a heading of level at
    most [L]. *)
Definition endsSection (L : Z) (e : Elem) : Prop :=
  exists l, HeadingSection.getHeadingLevelFromTag (tag e) = Some l /\ l <= L.

(** [a] comes before [b] in document order. *)
Definition before (a b : Elem) : Prop := precedes a b = true.

(** The sections of the headings that parse, in order. *)
Fixpoint parsedSections {A} (parse : nat -> A -> Outcome HeadingSection.t)
    (i : nat) (l : list A) : list HeadingSection.t :=
  match l with
  | [] => []
  | h :: r =>
      match parse i h with
      | Ok s => s :: parsedSections parse (S i) r
      | Throw _ => parsedSections parse (S i) r
      end
  end.

(** One warning for each heading that does not parse, in order. *)
Fixpoint parseWarnings {A} (warn : nat -> Exn -> string)
    (parse : nat -> A -> Outcome HeadingSection.t)
    (i : nat) (l : list A) : list string :=
  match l with
  | [] => []
  | h :: r =>
      match parse i h with
      | Ok _ => parseWarnings warn parse (S i) r
      | Throw e => warn i e :: parseWarnings warn parse (S i) r
      end
  end.

(** A browser for the examples. *)
Definition anyUrl : string -> bool := fun _ => true.
Definition fixedId : string -> Z -> string -> string := fun _ _ _ => "generated-id".
Definition noSelector : string -> Node -> Outcome (option Node) := fun _ _ => Ok None.

Definition h (level : string) (title : string) : Node :=
  Element ("H" ++ level) "" [Text title].
Definition para (text : string) : Node := Element "P" "" [Text text].

(** [<div><h2>A</h2><p>a</p><h3>B</h3><p>b</p><h2>C</h2></div>] *)
Definition containerABC : Node :=
  Element "DIV" "" [h "2" "A"; para "a"; h "3" "B"; para "b"; h "2" "C"].

(** [<div><section><h2>A</h2><p>a</p></section><h3>B</h3><p>b</p><h2>C</h2></div>]:
    the same headings in the same order, the first inside a wrapper. *)
Definition containerWrappedA : Node :=
  Element "DIV" ""
    [ Element "SECTION" "" [h "2" "A"; para "a"]; h "3" "B"; para "b"; h "2" "C" ].

(** [<div><h2>A</h2><p>a</p><div><h2>C</h2></div><p>z</p></div>]: the
    second heading sits inside a later sibling of the first. *)
Definition containerWrappedC : Node :=
  Element "DIV" ""
    [ h "2" "A"; para "a"; Element "DIV" "" [h "2" "C"]; para "z" ].

(** Level and text of a heading element. *)
Definition headingSummary (e : Elem) : option Z * string :=
  (HeadingSection.getHeadingLevelFromTag (tag e), elemText e).

(** The first heading of [containerABC]. *)
Definition headingA : Elem :=
  mkElem [] 0 "H2" "" [Text "A"] [para "a"; h "3" "B"; para "b"; h "2" "C"].

(** [<div><h2>A</h2><p>a</p><h2> </h2><p>b</p><h2>C</h2></div>]: the
    second heading has no title. *)
Definition containerBlankTitle : Node :=
  Element "DIV" "" [h "2" "A"; para "a"; h "2" " "; para "b"; h "2" "C"].

(** [<div><h2>A</h2><p>a</p><h2>&nbsp;</h2><p>b</p><h2>C</h2></div>]:
    the title of the second heading is a no-break space. *)
Definition containerNbspTitle : Node :=
  Element "DIV" "" [h "2" "A"; para "a"; h "2" Js.nbsp; para "b"; h "2" "C"].

(** A section of level 2 with the given title. *)
Definition titled (title : string) : HeadingSection.t :=
  HeadingSection.mk 2 "H2" title "<h2>x</h2>" "https://deepwiki.com/a/b" 0 "id".






(** A stored section and a request for the same page, level and title
    under another id. *)
Definition storedUsage : HeadingSection.t :=
  HeadingSection.mk 2 "H2" "Usage" "<h2>Usage</h2>" "https://deepwiki.com/a/b" 0
    "deepwiki-com-h2-usage-old".

Definition usageAgain : AddHeadingSectionUseCase.AddHeadingSectionInput :=
  AddHeadingSectionUseCase.mkInput (AddHeadingSectionUseCase.Integer 2) "Usage"
    None "https://deepwiki.com/a/b" None.

(** A page with two headings of the same level and text. *)
Definition twoUsagePage : Page.Document :=
  Page.mkDocument
    [ Page.mkHeading 20 2 "Usage" false None;
      Page.mkHeading 21 2 "Usage" false None ]
    [] 100.

(** A monitor with two callbacks, the first of which throws. *)
Definition sampleMonitor : SPAMonitorService.Monitor :=
  SPAMonitorService.mkMonitor "https://deepwiki.com/a/b"
    [ SPAMonitorService.mkCallback 1 (fun _ => true);
      SPAMonitorService.mkCallback 2 (fun _ => false) ]
    [].

(** A pass that runs to its end while a second call arrives. *)
Definition fullPass : list ContentScript.Event :=
  [ ContentScript.Invoke (Ok true) (Ok (Some 1%nat));
    ContentScript.Invoke (Ok true) (Ok (Some 1%nat));
    ContentScript.HeadingsSettled 0 (Ok true);
    ContentScript.StabilizationSettled 0 (Ok tt);
    ContentScript.Invoke (Ok true) (Ok (Some 1%nat));
    ContentScript.ExtractionSettled 0 (Ok 3%nat) (Ok tt) (Ok tt)
      "https://deepwiki.com/a/c" ].

Definition summary (s : HeadingSection.t) : Z * string * string :=
  (HeadingSection.level s, HeadingSection.titleText s, HeadingSection.contentHtml s).

(** Parameters the factory accepts, and a pair it rejects. *)
Definition sampleParams : HeadingSection.Params :=
  HeadingSection.mkParams 2 "h2" " Usage " "<h2>Usage</h2>"
    "https://deepwiki.com/a/b" None.

Definition mismatchedParams : HeadingSection.Params :=
  HeadingSection.mkParams 2 "H3" "Usage" "<h2>Usage</h2>"
    "https://deepwiki.com/a/b" None.

(** The options [{ maxContentLength: 0 }]. *)
Definition zeroMaximum : HeadingParser.HeadingParserOptions :=
  HeadingParser.mkOptions None None (Some 0).

(** The options [{ maxContentLength: 5 }]. *)
Definition maximumFive : HeadingParser.HeadingParserOptions :=
  HeadingParser.mkOptions None None (Some 5).

(** What each parser does with heading number [i], and the warning it
    records for a failure. *)
Definition parse1 (outerHTML : Node -> string) (validUrl : string -> bool)
    (gen : string -> Z -> string -> string) (now : Z)
    (options : HeadingParser.Options) (sourceUrl : string)
    (i : nat) (heading : Elem) : Outcome HeadingSection.t :=
  HeadingParser.parseHeadingSection outerHTML validUrl gen now options heading
    sourceUrl.

Definition warn1 (i : nat) (error : Exn) : string :=
  "Failed to parse heading " ++ Js.ofNat (i + 1) ++ ": " ++ exnMessage error.

Definition parse2 (outerHTML : Node -> string) (validUrl : string -> bool)
    (gen : string -> Z -> string -> string) (now : Z)
    (options : HeadingParserService.Options) (sourceUrl : string)
    (allHeadings : list Elem)
    (i : nat) (heading : Elem) : Outcome HeadingSection.t :=
  HeadingParserService.parseHeadingSection outerHTML validUrl gen now options
    heading allHeadings i sourceUrl.

Definition warn2 (i : nat) (error : Exn) : string :=
  "Failed to parse heading at index " ++ Js.ofNat i ++ ": "
  ++ (if isErrorObject error then exnMessage error else "Unknown error").

(** The title under which the validator compares sections. *)
Definition key (s : HeadingSection.t) : string :=
  DomHelpers.normalizeText (HeadingSection.titleText s).

(** [s] is the first valid section of [ss] with its normalised title,
    and that title is not in [seen]. *)
Definition firstOfItsTitle (seen : gset string) (ss : list HeadingSection.t)
    (s : HeadingSection.t) : Prop :=
  exists i,
    ss !! i = Some s
    /\ HeadingExtractorService.isValidSection s = true
    /\ (key s ∉ seen)
    /\ forall j s', (j < i)%nat -> ss !! j = Some s' ->
         HeadingExtractorService.isValidSection s' = true -> key s' <> key s.

(** A string of decimal digits. *)
Fixpoint digitsOnly (s : string) : Prop :=
  match s with
  | EmptyString => True
  | String c r => Js.isDigit c = true /\ digitsOnly r
  end.







(** Either nothing runs and the flag is clear, or exactly one
    invocation is suspended and the flag is set. *)
Definition OnePass (st : ContentScript.State) : Prop :=
  (ContentScript.isInitializing st = false /\ ContentScript.inFlight st = [])
  \/ (ContentScript.isInitializing st = true /\ exists s, ContentScript.inFlight st = [s]).

(** Proof steps for the states of the content script. *)
Ltac unfold_pass :=
  unfold ContentScript.initialize, ContentScript.suspend,
    ContentScript.unsuspend, ContentScript.act, ContentScript.setFlag,
    ContentScript.finish, ContentScript.fail; simpl.

Ltac idle := left; split; reflexivity.
Ltac busy := right; split; [reflexivity | eexists; reflexivity].

(** Validation followed by the construction of the entity. *)
Definition prepared (validUrl : string -> bool)
    (gen : string -> Z -> string -> string) (now : Z)
    (input : AddHeadingSectionUseCase.AddHeadingSectionInput)
  : Outcome HeadingSection.t :=
  level <- AddHeadingSectionUseCase.validateInput validUrl input ;;
  AddHeadingSectionUseCase.createHeadingSection validUrl gen now level input.

End Spec.

(** ** Further vocabulary: text *)

Module Text.

(** Whitespace is tidy when every whitespace character of the string
    is a single space that no whitespace follows. *)
Fixpoint tidy (s : string) : bool :=
  match s with
  | EmptyString => true
  | String c r =>
      (if Js.isSpace c
       then (Js.code c =? 32)%nat
            && match r with
               | String c' _ => negb (Js.isSpace c')
               | EmptyString => true
               end
       else true)
      && tidy r
  end.

(** The first and the last character of a string, if any. *)
Definition first (s : string) : option ascii :=
  match s with String c _ => Some c | EmptyString => None end.

Fixpoint last (s : string) : option ascii :=
  match s with
  | EmptyString => None
  | String c EmptyString => Some c
  | String _ r => last r
  end.

Definition noSpaceAt (c : option ascii) : Prop :=
  match c with Some c => Js.isSpace c = false | None => True end.

(** Every character of the string is in the class. *)
Fixpoint allChars (p : ascii -> bool) (s : string) : bool :=
  match s with
  | EmptyString => true
  | String c r => p c && allChars p r
  end.

(** Lower-case letters, digits and the hyphen. *)
Definition idAlphabet (c : ascii) : bool :=
  Js.isLower c || Js.isDigit c || (Js.code c =? 45)%nat.

End Text.

(** ** Heading levels as numbers
    (domain/heading-collection/heading-section.ts)

    [isValidHeadingLevel] and [createHeadingTag] take a [number] and
    compare it with the two bounds; neither asks for an integer. *)

Module HeadingLevel.

(** A JavaScript number: an integer, a fraction [x] with
    [floor < x < floor + 1], [NaN], or an infinity. *)
Inductive Number : Type :=
| Int (z : Z)
| Fraction (floor : Z)
| NaN
| Infinity (negative : bool).

(** [level >= MIN_HEADING_LEVEL && level <= MAX_HEADING_LEVEL].  On an
    integer this is [HeadingSection.isValidHeadingLevel]; a fraction is
    at least 1 when its floor is, and at most 6 when its floor is
    below 6; [NaN] compares false with everything. *)
Definition isValidHeadingLevel (level : Number) : bool :=
  match level with
  | Int z => HeadingSection.isValidHeadingLevel z
  | Fraction floor =>
      (HeadingSection.MIN_HEADING_LEVEL <=? floor)
      && (floor <? HeadingSection.MAX_HEADING_LEVEL)
  | NaN => false
  | Infinity _ => false
  end.

Section WithBrowser.

(** [`${level}`] *)
Variable numberToString : Number -> string.


End WithBrowser.


End HeadingLevel.

(** ** Stored values

    What [chrome.storage] holds and hands back: JSON values. *)

Module Json.

Inductive Value : Type :=
| Undefined
| Null
| Bool (b : bool)
| Number (n : AddHeadingSectionUseCase.Num)
| Str (s : string)
| Arr (items : list Value)
| Obj (fields : list (string * Value)).

(** [key in object]'s value, for the first field of that name. *)
Fixpoint lookupField (key : string) (fields : list (string * Value))
  : option Value :=
  match fields with
  | [] => None
  | (k, v) :: rest => if Js.eqb k key then Some v else lookupField key rest
  end.

(** [key in data] *)
Definition hasField (key : string) (fields : list (string * Value)) : bool :=
  match lookupField key fields with Some _ => true | None => false end.

(** [data.key]: [undefined] when there is no such field. *)
Definition get (key : string) (fields : list (string * Value)) : Value :=
  match lookupField key fields with Some v => v | None => Undefined end.

End Json.

(** ** Serialisation of the entity
    (domain/heading-collection/heading-section.ts) and the storage
    mapper (infrastructure/repositories/chrome/heading-section/storage-mapper.ts) *)

Module HeadingSectionStorageMapper.

Import Json.

(** What [deserializeHeadingSection] returns: the level, the identifier
    and the date have been checked, the other fields are whatever the
    data held. *)
Record Deserialized : Type := mkDeserialized {
  d_level : Z;
  d_tagName : Value;
  d_titleText : Value;
  d_contentHtml : Value;
  d_sourceUrl : Value;
  d_addedAt : Z;
  d_sectionId : string
}.

Definition requiredFields : list string :=
  [ "level"; "tagName"; "titleText"; "contentHtml"; "sourceUrl"; "addedAt";
    "sectionId" ].

(** The first required field that [data] lacks. *)
Fixpoint firstMissing (fields : list (string * Value)) (required : list string)
  : option string :=
  match required with
  | [] => None
  | field :: rest =>
      if hasField field fields then firstMissing fields rest else Some field
  end.

(** [isHeadingSection] on a deserialised object: the level is a number
    and the date a [Date] already, the identifier a string. *)
Definition isHeadingSection (obj : Deserialized) : option HeadingSection.t :=
  if (d_level obj >=? 1) && (d_level obj <=? 6)
  then
    match d_tagName obj, d_titleText obj, d_contentHtml obj, d_sourceUrl obj with
    | Str tagName, Str titleText, Str contentHtml, Str sourceUrl =>
        Some (HeadingSection.mk (d_level obj) tagName titleText contentHtml
                sourceUrl (d_addedAt obj) (d_sectionId obj))
    | _, _, _, _ => None
    end
  else None.

Section WithBrowser.

(** [date.toISOString()] of a valid date. *)
Variable toISOString : Z -> string.
(** [new Date(v).getTime()]: [None] when it is [NaN]. *)
Variable newDate : Value -> option Z.
(** [`${v}`] *)
Variable display : Value -> string.

Definition serializeHeadingSection (section : HeadingSection.t) : Value :=
  Obj [ ("level",
         Number (AddHeadingSectionUseCase.Integer (HeadingSection.level section)));
        ("tagName", Str (HeadingSection.tagName section));
        ("titleText", Str (HeadingSection.titleText section));
        ("contentHtml", Str (HeadingSection.contentHtml section));
        ("sourceUrl", Str (HeadingSection.sourceUrl section));
        ("addedAt", Str (toISOString (HeadingSection.addedAt section)));
        ("sectionId", Str (HeadingSection.sectionId section)) ].

(** The own fields of a value that passes [!data || typeof data !==
    "object"]: an array has none of the names asked for. *)
Definition fieldsOf (data : Value) : option (list (string * Value)) :=
  match data with
  | Obj fields => Some fields
  | Arr _ => Some []
  | _ => None
  end.

Definition deserializeHeadingSection (data : Value) : Outcome Deserialized :=
  match fieldsOf data with
  | None => Throw (ValidationError "Invalid data for HeadingSection deserialization")
  | Some fields =>
      match firstMissing fields requiredFields with
      | Some field => Throw (ValidationError ("Missing required field: " ++ field))
      | None =>
          level <-
            match get "level" fields with
            | Number (AddHeadingSectionUseCase.Integer z) =>
                if (z <? 1) || (z >? 6)
                then Throw (ValidationError
                              ("Invalid level: " ++ display (get "level" fields)))
                else Ok z
            | _ => Throw (ValidationError
                            ("Invalid level: " ++ display (get "level" fields)))
            end ;;
          sectionId <-
            match get "sectionId" fields with
            | Str id =>
                if Js.truthy (Js.trim id) then Ok id
                else Throw (ValidationError
                              ("Invalid sectionId: "
                               ++ display (get "sectionId" fields)))
            | _ => Throw (ValidationError
                            ("Invalid sectionId: "
                             ++ display (get "sectionId" fields)))
            end ;;
          match newDate (get "addedAt" fields) with
          | None => Throw (ValidationError
                             ("Invalid date: " ++ display (get "addedAt" fields)))
          | Some addedAt =>
              Ok {| d_level := level;
                    d_tagName := get "tagName" fields;
                    d_titleText := get "titleText" fields;
                    d_contentHtml := get "contentHtml" fields;
                    d_sourceUrl := get "sourceUrl" fields;
                    d_addedAt := addedAt;
                    d_sectionId := sectionId |}
          end
      end
  end.

(** [sections.map(serializeHeadingSection)] *)
Definition serializeSections (sections : list HeadingSection.t) : Value :=
  Arr (map serializeHeadingSection sections).

(** The loop of [deserializeSections]: an entry that does not
    deserialise, or fails the type guard, is skipped with a warning. *)
Fixpoint deserializeLoop (sectionsData : list Value)
    (validSections : list HeadingSection.t) : list HeadingSection.t :=
  match sectionsData with
  | [] => validSections
  | sectionData :: rest =>
      match deserializeHeadingSection sectionData with
      | Ok section =>
          match isHeadingSection section with
          | Some section => deserializeLoop rest (validSections ++ [section])%list
          | None => deserializeLoop rest validSections
          end
      | Throw _ => deserializeLoop rest validSections
      end
  end.

Definition deserializeSections (sectionsData : Value) : list HeadingSection.t :=
  match sectionsData with
  | Arr items => deserializeLoop items []
  | _ => []
  end.

(** [data === undefined || Array.isArray(data)] *)
Definition isValidStorageData (data : Value) : bool :=
  match data with
  | Undefined | Arr _ => true
  | _ => false
  end.

(** A section the store gives back as it was: its level is one of
    1..6, its identifier is not blank, and its date survives
    [toISOString] and [new Date]. *)
Definition storable (s : HeadingSection.t) : Prop :=
  HeadingSection.isValidHeadingLevel (HeadingSection.level s) = true
  /\ Js.truthy (Js.trim (HeadingSection.sectionId s)) = true
  /\ newDate (Str (toISOString (HeadingSection.addedAt s)))
     = Some (HeadingSection.addedAt s).

End WithBrowser.

(** A browser for the examples: every date is the epoch. *)
Definition epochString : Z -> string := fun _ => "1970-01-01T00:00:00.000Z".
Definition epochOnly : Value -> option Z :=
  fun v => match v with
           | Str s => if Js.eqb s "1970-01-01T00:00:00.000Z" then Some 0 else None
           | _ => None
           end.
Definition noDisplay : Value -> string := fun _ => "".

End HeadingSectionStorageMapper.

(** ** ChromeStorageHeadingSectionRepository
    (infrastructure/repositories/chrome/heading-section/) *)

Module ChromeStorageHeadingSectionRepository.

Import Json HeadingSectionStorageMapper.

(** What may be thrown inside the repository: a value of the kinds
    above, or a [ChromeStorageError] of errors.ts (with its subclasses,
    which differ in their message only). *)
Inductive Thrown : Type :=
| Domain (e : Exn)
| ChromeStorageError (message : string).

Definition thrownMessage (e : Thrown) : string :=
  match e with
  | Domain e => exnMessage e
  | ChromeStorageError m => m
  end.

(** [error instanceof Error] *)
Definition isError (e : Thrown) : bool :=
  match e with
  | Domain e => isErrorObject e
  | ChromeStorageError _ => true
  end.

(** [error instanceof RepositoryError], the class of domain/shared. *)
Definition isRepositoryError (e : Thrown) : bool :=
  match e with
  | Domain (RepositoryError _) | Domain (StorageQuotaExceededError _) => true
  | _ => false
  end.

Inductive Try (A : Type) : Type :=
| Done (a : A)
| Raise (e : Thrown).
Arguments Done {A} a.
Arguments Raise {A} e.

(** [Result<T>] of domain/shared/types.ts. *)
Inductive Result (A : Type) : Type :=
| Success (data : A)
| Failure (error : Exn).
Arguments Success {A} data.
Arguments Failure {A} error.

(** A storage area: the value it holds under [SECTION_LIST_KEY]
    ([Undefined] when there is none) and how its calls fail, if they
    do (an area whose API is unavailable fails every call with a
    [RepositoryError]). *)
Record StorageArea : Type := mkArea {
  contents : Value;
  getError : option Thrown;
  setError : Value -> option Thrown
}.

(** [(await storage.get(key))[key]] *)
Definition storageGet (area : StorageArea) : Try Value :=
  match getError area with
  | Some e => Raise e
  | None => Done (contents area)
  end.

(** [await storage.set({ [key]: value })] *)
Definition storageSet (area : StorageArea) (value : Value) : Try StorageArea :=
  match setError area value with
  | Some e => Raise e
  | None => Done {| contents := value;
                    getError := getError area;
                    setError := setError area |}
  end.

(** [STORAGE_CONFIG.SYNC.MAX_SIZE] and [STORAGE_CONFIG.LOCAL.MAX_SIZE] *)
Definition MAX_SIZE (useSync : bool) : Z :=
  if useSync then 100 * 1024 else 5 * 1024 * 1024.

Definition storageType (useSync : bool) : string :=
  if useSync then "sync" else "local".

(** [StorageQuotaUtils.isQuotaExceededError] *)
Definition isQuotaExceededError (error : Thrown) : bool :=
  isError error
  && (HeadingElementFinder.includes (thrownMessage error) "QUOTA_EXCEEDED"
      || HeadingElementFinder.includes (thrownMessage error) "quota exceeded").

(** [array.slice(start, end)] for integers. *)
Definition slice {A} (start stop : Z) (l : list A) : list A :=
  let len := Z.of_nat (length l) in
  let clamp i := if i <? 0 then Z.max (len + i) 0 else Z.min i len in
  let from := clamp start in
  let to := clamp stop in
  take (Z.to_nat (to - from)) (drop (Z.to_nat from) l).

Section WithBrowser.

Variable toISOString : Z -> string.
Variable newDate : Value -> option Z.
Variable display : Value -> string.
(** [new Blob([JSON.stringify(data)]).size] *)
Variable byteSize : Value -> Z.
(** The constructor's option, [false] unless given. *)
Variable useSync : bool.

Definition getAllSections (area : StorageArea) : Outcome (list HeadingSection.t) :=
  match storageGet area with
  | Raise _ => Throw (RepositoryError "Failed to retrieve sections from storage")
  | Done sectionsData =>
      match sectionsData with
      | Arr _ => Ok (deserializeSections newDate display sectionsData)
      | _ => Ok []
      end
  end.

(** [allSections.find(...)] *)
Definition findById (sectionId : string) (sections : list HeadingSection.t)
  : option HeadingSection.t :=
  find (fun section => Js.eqb (HeadingSection.sectionId section) sectionId) sections.

Definition getSectionById (area : StorageArea) (sectionId : string)
  : Outcome (option HeadingSection.t) :=
  match getAllSections area with
  | Ok allSections => Ok (findById sectionId allSections)
  | Throw _ =>
      Throw (RepositoryError ("Failed to retrieve section with ID " ++ sectionId))
  end.

(** [StorageQuotaUtils.validateStorageSize] *)
Definition validateStorageSize (data : Value) : Try unit :=
  let dataSize := byteSize data in
  if dataSize >? MAX_SIZE useSync
  then Raise (Domain (RepositoryError
                        ("Storage size (" ++ Js.ofZ dataSize ++ " bytes) exceeds "
                         ++ storageType useSync ++ " storage limit ("
                         ++ Js.ofZ (MAX_SIZE useSync) ++ " bytes)")))
  else Done tt.

Definition saveSections (area : StorageArea) (sections : list HeadingSection.t)
  : Try StorageArea :=
  let serializedSections := serializeSections toISOString sections in
  let attempt :=
    match validateStorageSize serializedSections with
    | Raise e => Raise e
    | Done _ => storageSet area serializedSections
    end in
  match attempt with
  | Done area' => Done area'
  | Raise error =>
      if isQuotaExceededError error
      then Raise (ChromeStorageError
                    (storageType useSync ++ " storage quota exceeded: "
                     ++ Js.ofZ 0 ++ "/"
                     ++ Js.ofZ (if useSync then 102400 else 5242880) ++ " bytes"))
      else Raise error
  end.

Definition handleStorageError {A} (error : Thrown) (fallbackMessage : string)
  : Result A :=
  if isRepositoryError error
  then match error with
       | Domain e => Failure e
       | ChromeStorageError m => Failure (RepositoryError m)
       end
  else
    match error with
    | ChromeStorageError m => Failure (RepositoryError m)
    | _ =>
        if isQuotaExceededError error
        then Failure (RepositoryError "Storage quota exceeded")
        else Failure (RepositoryError fallbackMessage)
    end.

Definition addSection (area : StorageArea) (section : HeadingSection.t)
  : Result unit * StorageArea :=
  match getAllSections area with
  | Throw e => (handleStorageError (Domain e) "Failed to add section to storage", area)
  | Ok existingSections =>
      let updatedSections := (existingSections ++ [section])%list in
      match saveSections area updatedSections with
      | Raise e => (handleStorageError e "Failed to add section to storage", area)
      | Done area' => (Success tt, area')
      end
  end.

Definition removeSection (area : StorageArea) (sectionId : string)
  : Result bool * StorageArea :=
  match getAllSections area with
  | Throw e =>
      (handleStorageError (Domain e) "Failed to remove section from storage", area)
  | Ok existingSections =>
      let filteredSections :=
        filter (fun s => HeadingSection.sectionId s ≠ sectionId) existingSections in
      if (length filteredSections =? length existingSections)%nat
      then (Success false, area)
      else
        match saveSections area filteredSections with
        | Raise e =>
            (handleStorageError e "Failed to remove section from storage", area)
        | Done area' => (Success true, area')
        end
  end.

Definition removeSections (area : StorageArea) (sectionIds : list string)
  : Result nat * StorageArea :=
  match getAllSections area with
  | Throw e =>
      (handleStorageError (Domain e) "Failed to remove sections from storage", area)
  | Ok existingSections =>
      let idsSet : gset string := list_to_set sectionIds in
      let filteredSections :=
        filter (fun s => HeadingSection.sectionId s ∉ idsSet) existingSections in
      let removedCount := (length existingSections - length filteredSections)%nat in
      if (0 <? removedCount)%nat
      then
        match saveSections area filteredSections with
        | Raise e =>
            (handleStorageError e "Failed to remove sections from storage", area)
        | Done area' => (Success removedCount, area')
        end
      else (Success removedCount, area)
  end.

Definition clearAllSections (area : StorageArea) : Result unit * StorageArea :=
  match saveSections area [] with
  | Raise e =>
      (handleStorageError e "Failed to clear all sections from storage", area)
  | Done area' => (Success tt, area')
  end.

Definition findSectionsByUrl (area : StorageArea) (sourceUrl : string)
  : Outcome (list HeadingSection.t) :=
  match getAllSections area with
  | Ok allSections =>
      Ok (filter (fun section => HeadingSection.sourceUrl section = sourceUrl)
            allSections)
  | Throw _ =>
      Throw (RepositoryError ("Failed to find sections by URL: " ++ sourceUrl))
  end.

Definition findSectionsByLevel (area : StorageArea) (level : Z)
  : Outcome (list HeadingSection.t) :=
  match getAllSections area with
  | Ok allSections =>
      Ok (filter (fun section => HeadingSection.level section = level) allSections)
  | Throw _ =>
      Throw (RepositoryError ("Failed to find sections by level: " ++ Js.ofZ level))
  end.

Definition searchSectionsByTitle (area : StorageArea) (searchTerm : string)
  : Outcome (list HeadingSection.t) :=
  match getAllSections area with
  | Ok allSections =>
      let lowerSearchTerm := Js.toLowerCase searchTerm in
      Ok (filter (fun section =>
                    HeadingElementFinder.includes
                      (Js.toLowerCase (HeadingSection.titleText section))
                      lowerSearchTerm = true)
            allSections)
  | Throw _ =>
      Throw (RepositoryError ("Failed to search sections by title: " ++ searchTerm))
  end.

Record Page : Type := mkPage {
  pageSections : list HeadingSection.t;
  total : Z;
  hasMore : bool
}.

Definition getSectionsPage (area : StorageArea) (offset limit : Z) : Outcome Page :=
  match getAllSections area with
  | Ok allSections =>
      let total := Z.of_nat (length allSections) in
      Ok {| pageSections := slice offset (offset + limit) allSections;
            total := total;
            hasMore := offset + limit <? total |}
  | Throw _ => Throw (RepositoryError "Failed to get sections page")
  end.

(** [existingSections.findIndex(...)] *)
Fixpoint findIndex (sectionId : string) (sections : list HeadingSection.t)
  : option nat :=
  match sections with
  | [] => None
  | s :: rest =>
      if Js.eqb (HeadingSection.sectionId s) sectionId then Some 0%nat
      else match findIndex sectionId rest with
           | Some i => Some (S i)
           | None => None
           end
  end.

Definition updateSection (area : StorageArea) (section : HeadingSection.t)
  : Result unit * StorageArea :=
  match getAllSections area with
  | Throw e => (handleStorageError (Domain e) "Failed to update section", area)
  | Ok existingSections =>
      match findIndex (HeadingSection.sectionId section) existingSections with
      | None => (Failure (RepositoryError "Section not found for update"), area)
      | Some index =>
          let updatedSections := <[ index := section ]> existingSections in
          match saveSections area updatedSections with
          | Raise e => (handleStorageError e "Failed to update section", area)
          | Done area' => (Success tt, area')
          end
      end
  end.

Definition sectionExists (area : StorageArea) (sectionId : string) : bool :=
  match getSectionById area sectionId with
  | Ok (Some _) => true
  | Ok None => false
  | Throw _ => false
  end.

Definition getSectionCount (area : StorageArea) : Outcome Z :=
  match getAllSections area with
  | Ok allSections => Ok (Z.of_nat (length allSections))
  | Throw _ => Throw (RepositoryError "Failed to get section count")
  end.

(** The repository as [AddHeadingSectionUseCase] uses it: it awaits
    [sectionExists], which never rejects, and [addSection], whose
    promise never rejects either and whose [Result] it does not read. *)
Definition forAdding : AddHeadingSectionUseCase.Repository StorageArea :=
  {| AddHeadingSectionUseCase.sectionExists :=
       fun area sectionId => Ok (sectionExists area sectionId);
     AddHeadingSectionUseCase.addSection :=
       fun area section => Ok (snd (addSection area section)) |}.

End WithBrowser.

(** Areas for the examples: a healthy one, and one that refuses every
    write for lack of space. *)
Definition healthy (contents : Value) : StorageArea :=
  mkArea contents None (fun _ => None).

Definition full (contents : Value) : StorageArea :=
  mkArea contents None
    (fun _ => Some (Domain (PlainError "QUOTA_BYTES quota exceeded"))).

Definition noSize : Value -> Z := fun _ => 0.

End ChromeStorageHeadingSectionRepository.

(** ** RemoveHeadingSectionUseCase
    (application/usecases/heading-collection/remove-heading-section.ts) *)

Module RemoveHeadingSectionUseCase.

Import ChromeStorageHeadingSectionRepository.

Inductive ErrorCode : Type :=
| INVALID_INPUT
| SECTION_NOT_FOUND
| REPOSITORY_ERROR
| UNKNOWN_ERROR.

Inductive RemoveHeadingSectionResult : Type :=
| Removed (removedSectionId : string)
| Failed (errorCode : ErrorCode) (message : string).

(** The part of the repository the use case calls, over a storage
    state; either call may reject. *)
Record Repository (Store : Type) : Type := mkRepository {
  getSectionById : Store -> string -> Outcome (option HeadingSection.t);
  removeSection : Store -> string -> Outcome (Result bool * Store)
}.
Arguments getSectionById {Store} _ _ _.
Arguments removeSection {Store} _ _ _.

Definition validateInput (sectionId : string) : Outcome unit :=
  guard (Js.truthy sectionId)
    (PlainError "Section ID is required and must be a string") ;;;
  guard (negb (Js.strlen (Js.trim sectionId) =? 0))
    (PlainError "Section ID cannot be empty").

(** [error instanceof RepositoryError], the class of domain/shared. *)
Definition isRepositoryError (error : Exn) : bool :=
  match error with
  | RepositoryError _ | StorageQuotaExceededError _ => true
  | _ => false
  end.

Definition handleError (error : Exn) (sectionId : string)
  : RemoveHeadingSectionResult :=
  if isErrorObject error
     && HeadingElementFinder.includes (exnMessage error) "required"
  then Failed INVALID_INPUT (exnMessage error)
  else if isRepositoryError error
  then Failed REPOSITORY_ERROR
         ("Repository error while removing section '" ++ sectionId ++ "': "
          ++ exnMessage error)
  else
    let errorMessage :=
      if isErrorObject error then exnMessage error else "Unknown error occurred" in
    Failed UNKNOWN_ERROR
      ("Failed to remove section '" ++ sectionId ++ "': " ++ errorMessage).

(** What one call leaves behind. *)
Record Run (Store : Type) : Type := mkRun {
  result : RemoveHeadingSectionResult;
  store : Store;
  lookups : list string;          (* ids passed to getSectionById *)
  removals : list string          (* ids passed to removeSection *)
}.
Arguments mkRun {Store} _ _ _ _.
Arguments result {Store} _.
Arguments store {Store} _.
Arguments lookups {Store} _.
Arguments removals {Store} _.

Definition execute {Store : Type} (repository : Repository Store)
    (sectionId : string) (st : Store) : Run Store :=
  match validateInput sectionId with
  | Throw error => mkRun (handleError error sectionId) st [] []
  | Ok _ =>
      match getSectionById repository st sectionId with
      | Throw error => mkRun (handleError error sectionId) st [sectionId] []
      | Ok None =>
          mkRun (Failed SECTION_NOT_FOUND
                   ("Section with ID '" ++ sectionId ++ "' not found"))
            st [sectionId] []
      | Ok (Some _) =>
          match removeSection repository st sectionId with
          | Throw error =>
              mkRun (handleError error sectionId) st [sectionId] [sectionId]
          | Ok (Success true, st') =>
              mkRun (Removed sectionId) st' [sectionId] [sectionId]
          | Ok (_, st') =>
              mkRun (Failed REPOSITORY_ERROR
                       "Failed to remove section from repository")
                st' [sectionId] [sectionId]
          end
      end
  end.

End RemoveHeadingSectionUseCase.

(** ** ClearAllHeadingSectionsUseCase
    (application/usecases/heading-collection/clear-all-heading-sections.ts) *)

Module ClearAllHeadingSectionsUseCase.

Import ChromeStorageHeadingSectionRepository.

Inductive ErrorCode : Type :=
| REPOSITORY_ERROR
| UNKNOWN_ERROR.

Inductive ClearAllHeadingSectionsResult : Type :=
| Cleared (clearedCount : nat)
| Failed (errorCode : ErrorCode) (message : string).

Record Repository (Store : Type) : Type := mkRepository {
  getAllSections : Store -> Outcome (list HeadingSection.t);
  clearAllSections : Store -> Outcome (Result unit * Store)
}.
Arguments getAllSections {Store} _ _.
Arguments clearAllSections {Store} _ _.

Definition handleError (error : Exn) : ClearAllHeadingSectionsResult :=
  if RemoveHeadingSectionUseCase.isRepositoryError error
  then Failed REPOSITORY_ERROR
         ("Repository error while clearing sections: " ++ exnMessage error)
  else
    let errorMessage :=
      if isErrorObject error then exnMessage error else "Unknown error occurred" in
    Failed UNKNOWN_ERROR ("Failed to clear all sections: " ++ errorMessage).

Definition execute {Store : Type} (repository : Repository Store) (st : Store)
  : ClearAllHeadingSectionsResult * Store :=
  match getAllSections repository st with
  | Throw error => (handleError error, st)
  | Ok sectionsBeforeClear =>
      let countBeforeClear := length sectionsBeforeClear in
      match clearAllSections repository st with
      | Throw error => (handleError error, st)
      | Ok (Failure _, st') =>
          (Failed REPOSITORY_ERROR "Failed to clear sections from repository", st')
      | Ok (Success _, st') => (Cleared countBeforeClear, st')
      end
  end.

End ClearAllHeadingSectionsUseCase.

(** ** The use cases wired to the Chrome storage repository
    (entrypoints/background/index.ts) *)

Module Background.

Import ChromeStorageHeadingSectionRepository.

Section WithBrowser.

Variable toISOString : Z -> string.
Variable newDate : Json.Value -> option Z.
Variable display : Json.Value -> string.
Variable byteSize : Json.Value -> Z.
Variable useSync : bool.

Definition forRemoving : RemoveHeadingSectionUseCase.Repository StorageArea :=
  {| RemoveHeadingSectionUseCase.getSectionById :=
       getSectionById newDate display;
     RemoveHeadingSectionUseCase.removeSection :=
       fun area sectionId =>
         Ok (removeSection toISOString newDate display byteSize useSync
               area sectionId) |}.

Definition forClearing : ClearAllHeadingSectionsUseCase.Repository StorageArea :=
  {| ClearAllHeadingSectionsUseCase.getAllSections :=
       getAllSections newDate display;
     ClearAllHeadingSectionsUseCase.clearAllSections :=
       fun area => Ok (clearAllSections toISOString byteSize useSync area) |}.

End WithBrowser.

End Background.

(** ** GetHeadingSectionsUseCase
    (application/usecases/heading-collection/get-heading-sections.ts) *)

Module GetHeadingSectionsUseCase.

Import AddHeadingSectionUseCase(Num, Integer, NotInteger).

Record GetHeadingSectionsInput : Type := mkInput {
  in_sourceUrl : option string;
  in_level : option Num;
  in_startDate : option Z;
  in_endDate : option Z;
  in_searchText : option string;
  in_searchInContent : option bool;
  in_limit : option Num;
  in_sortBy : option string;
  in_sortOrder : option string
}.

(** [execute()]: no criteria at all. *)
Definition noInput : GetHeadingSectionsInput :=
  mkInput None None None None None None None None None.

Record Metadata : Type := mkMetadata {
  hasFilters : bool;
  wasLimited : bool;
  sortBy : option string;
  sortOrder : option string
}.

Inductive ErrorCode : Type :=
| INVALID_INPUT
| REPOSITORY_ERROR
| UNKNOWN_ERROR.

Inductive GetHeadingSectionsResult : Type :=
| Found (sections : list HeadingSection.t) (totalCount : nat) (metadata : Metadata)
| Failed (errorCode : ErrorCode) (message : string).

(** The queries of the repository the use case calls. *)
Record Repository (Store : Type) : Type := mkRepository {
  getAllSections : Store -> Outcome (list HeadingSection.t);
  findSectionsByUrl : Store -> string -> Outcome (list HeadingSection.t);
  findSectionsByLevel : Store -> Z -> Outcome (list HeadingSection.t);
  searchSectionsByTitle : Store -> string -> Outcome (list HeadingSection.t)
}.
Arguments getAllSections {Store} _ _.
Arguments findSectionsByUrl {Store} _ _ _.
Arguments findSectionsByLevel {Store} _ _ _.
Arguments searchSectionsByTitle {Store} _ _ _.

(** [Array.prototype.sort] with a comparator: the sort is stable, so
    for a consistent comparator the result is the one of inserting
    each element behind those that do not come after it. *)
Fixpoint insertBy {A} (compare : A -> A -> Z) (x : A) (sorted : list A) : list A :=
  match sorted with
  | [] => [x]
  | y :: rest =>
      if compare y x <=? 0 then y :: insertBy compare x rest else x :: sorted
  end.

Definition sort {A} (compare : A -> A -> Z) (l : list A) : list A :=
  fold_left (fun sorted x => insertBy compare x sorted) l [].

Definition validSortFields : list string :=
  [ "addedAt"; "level"; "titleText"; "sourceUrl" ].

(** The input once validated: the level and the limit are integers. *)
Record Validated : Type := mkValidated {
  v_level : option Z;
  v_limit : option Z
}.

Definition isSome {A} (o : option A) : bool :=
  match o with Some _ => true | None => false end.

(** Truthiness of an optional string and of an optional integer. *)
Definition given (o : option string) : bool :=
  match o with Some s => Js.truthy s | None => false end.

Definition givenNumber (o : option Z) : bool :=
  match o with Some z => negb (z =? 0) | None => false end.

Section WithBrowser.

Variable validUrl : string -> bool.
(** [a.localeCompare(b)] *)
Variable localeCompare : string -> string -> Z.

Definition validateInput (input : GetHeadingSectionsInput) : Outcome Validated :=
  level <-
    match in_level input with
    | None => Ok None
    | Some (Integer z) =>
        if (z <? 1) || (z >? 6)
        then Throw (PlainError "Heading level must be an integer between 1 and 6")
        else Ok (Some z)
    | Some NotInteger =>
        Throw (PlainError "Heading level must be an integer between 1 and 6")
    end ;;
  match in_sourceUrl input with
  | None => Ok tt
  | Some sourceUrl =>
      guard (negb (Js.strlen (Js.trim sourceUrl) =? 0))
        (PlainError "Source URL must be a non-empty string") ;;;
      guard (validUrl sourceUrl) (PlainError "Source URL must be a valid URL")
  end ;;;
  match in_startDate input, in_endDate input with
  | Some startDate, Some endDate =>
      guard (negb (startDate >? endDate))
        (PlainError "Start date must be before or equal to end date")
  | _, _ => Ok tt
  end ;;;
  limit <-
    match in_limit input with
    | None => Ok None
    | Some (Integer z) =>
        if z <? 1 then Throw (PlainError "Limit must be a positive integer")
        else Ok (Some z)
    | Some NotInteger => Throw (PlainError "Limit must be a positive integer")
    end ;;
  match in_sortBy input with
  | None => Ok tt
  | Some sortBy =>
      guard (existsb (Js.eqb sortBy) validSortFields)
        (PlainError ("Sort field must be one of: "
                     ++ String.concat ", " validSortFields))
  end ;;;
  match in_sortOrder input with
  | None => Ok tt
  | Some sortOrder =>
      guard (existsb (Js.eqb sortOrder) ["asc"; "desc"])
        (PlainError ("Sort order must be either " ++ Js.dq ++ "asc" ++ Js.dq
                     ++ " or " ++ Js.dq ++ "desc" ++ Js.dq))
  end ;;;
  Ok {| v_level := level; v_limit := limit |}.

(** [input.startDate && input.endDate] *)
Definition bothDates (input : GetHeadingSectionsInput) : bool :=
  isSome (in_startDate input) && isSome (in_endDate input).

(** The number of main filters that are given. *)
Definition filterCount (input : GetHeadingSectionsInput) (v : Validated) : nat :=
  length (filter (fun b => b = true)
            [ given (in_sourceUrl input); givenNumber (v_level v);
              bothDates input; given (in_searchText input) ]).

Inductive FilterType : Type := BySourceUrl | ByLevel | ByDateRange | BySearch.

Definition wasRepositoryFiltered (filterType : FilterType)
    (input : GetHeadingSectionsInput) (v : Validated) : bool :=
  if negb (filterCount input v =? 1)%nat then false
  else
    match filterType with
    | BySourceUrl => given (in_sourceUrl input)
    | ByLevel => givenNumber (v_level v)
    | ByDateRange => bothDates input
    | BySearch => given (in_searchText input)
    end.

Definition matchesSourceUrl (sourceUrl : string) (section : HeadingSection.t) : bool :=
  Js.eqb (HeadingSection.sourceUrl section) sourceUrl.

Definition matchesLevel (level : Z) (section : HeadingSection.t) : bool :=
  HeadingSection.level section =? level.

Definition withinDates (startDate endDate : option Z) (section : HeadingSection.t)
  : bool :=
  match startDate with
  | Some s => negb (HeadingSection.addedAt section <? s)
  | None => true
  end
  && match endDate with
     | Some e => negb (HeadingSection.addedAt section >? e)
     | None => true
     end.

Definition matchesSearch (searchText : string) (searchInContent : option bool)
    (section : HeadingSection.t) : bool :=
  let searchTerm := Js.toLowerCase searchText in
  let titleMatch :=
    HeadingElementFinder.includes
      (Js.toLowerCase (HeadingSection.titleText section)) searchTerm in
  let contentMatch :=
    match searchInContent with
    | Some true =>
        HeadingElementFinder.includes
          (Js.toLowerCase (HeadingSection.contentHtml section)) searchTerm
    | _ => false
    end in
  titleMatch || contentMatch.

(** [array.filter] with a boolean test. *)
Definition keep (test : HeadingSection.t -> bool) (l : list HeadingSection.t)
  : list HeadingSection.t :=
  List.filter test l.

Definition orEmpty (o : option string) : string :=
  match o with Some s => s | None => "" end.

Definition orZero (o : option Z) : Z :=
  match o with Some z => z | None => 0 end.

Definition applyAdditionalFilters (sections : list HeadingSection.t)
    (input : GetHeadingSectionsInput) (v : Validated) : list HeadingSection.t :=
  let filtered := sections in
  let filtered :=
    if given (in_sourceUrl input)
       && negb (wasRepositoryFiltered BySourceUrl input v)
    then keep (matchesSourceUrl (orEmpty (in_sourceUrl input))) filtered
    else filtered in
  let filtered :=
    if givenNumber (v_level v) && negb (wasRepositoryFiltered ByLevel input v)
    then keep (matchesLevel (orZero (v_level v))) filtered
    else filtered in
  let filtered :=
    if (isSome (in_startDate input) || isSome (in_endDate input))
       && negb (wasRepositoryFiltered ByDateRange input v)
    then keep (withinDates (in_startDate input) (in_endDate input)) filtered
    else filtered in
  let filtered :=
    if given (in_searchText input)
       && negb (wasRepositoryFiltered BySearch input v)
    then keep (matchesSearch (orEmpty (in_searchText input))
                 (in_searchInContent input)) filtered
    else filtered in
  filtered.

Definition retrieveFilteredSections {Store : Type} (repository : Repository Store)
    (st : Store) (input : GetHeadingSectionsInput) (v : Validated)
  : Outcome (list HeadingSection.t) :=
  sections <-
    (if given (in_sourceUrl input)
     then findSectionsByUrl repository st (orEmpty (in_sourceUrl input))
     else if givenNumber (v_level v)
     then findSectionsByLevel repository st (orZero (v_level v))
     else if bothDates input
     then
       allSections <- getAllSections repository st ;;
       Ok (keep (fun section =>
                   (HeadingSection.addedAt section >=? orZero (in_startDate input))
                   && (HeadingSection.addedAt section <=? orZero (in_endDate input)))
             allSections)
     else if given (in_searchText input)
     then searchSectionsByTitle repository st (orEmpty (in_searchText input))
     else getAllSections repository st) ;;
  Ok (applyAdditionalFilters sections input v).

Definition applySorting (sections : list HeadingSection.t)
    (sortBy sortOrder : option string) : list HeadingSection.t :=
  let sortOrder := match sortOrder with Some o => o | None => "desc" end in
  if negb (given sortBy)
  then sort (fun a b => HeadingSection.addedAt b - HeadingSection.addedAt a) sections
  else
    sort (fun a b =>
            let sortBy := match sortBy with Some f => f | None => "" end in
            if Js.eqb sortBy "addedAt"
            then
              let comparison := HeadingSection.addedAt a - HeadingSection.addedAt b in
              if Js.eqb sortOrder "asc" then comparison else - comparison
            else if Js.eqb sortBy "level"
            then
              let comparison := HeadingSection.level a - HeadingSection.level b in
              if Js.eqb sortOrder "asc" then comparison else - comparison
            else if Js.eqb sortBy "titleText"
            then
              let comparison :=
                localeCompare (HeadingSection.titleText a)
                  (HeadingSection.titleText b) in
              if Js.eqb sortOrder "asc" then comparison else - comparison
            else if Js.eqb sortBy "sourceUrl"
            then
              let comparison :=
                localeCompare (HeadingSection.sourceUrl a)
                  (HeadingSection.sourceUrl b) in
              if Js.eqb sortOrder "asc" then comparison else - comparison
            else 0)
      sections.

Definition hasAnyFilters (input : GetHeadingSectionsInput) (v : Validated) : bool :=
  given (in_sourceUrl input) || givenNumber (v_level v)
  || isSome (in_startDate input) || isSome (in_endDate input)
  || given (in_searchText input) || givenNumber (v_limit v).

(** [error instanceof Error && error.message.includes("must be")], then
    [instanceof RepositoryError]. *)
Definition handleError (error : Exn) : GetHeadingSectionsResult :=
  if isErrorObject error
     && HeadingElementFinder.includes (exnMessage error) "must be"
  then Failed INVALID_INPUT (exnMessage error)
  else if RemoveHeadingSectionUseCase.isRepositoryError error
  then Failed REPOSITORY_ERROR "Failed to retrieve sections from storage"
  else Failed UNKNOWN_ERROR "An unexpected error occurred while retrieving sections".

Definition execute {Store : Type} (repository : Repository Store)
    (input : GetHeadingSectionsInput) (st : Store) : GetHeadingSectionsResult :=
  match validateInput input with
  | Throw error => handleError error
  | Ok v =>
      match retrieveFilteredSections repository st input v with
      | Throw error => handleError error
      | Ok sections =>
          let totalCount := length sections in
          let sections :=
            applySorting sections (in_sortBy input) (in_sortOrder input) in
          let wasLimited :=
            match v_limit v with
            | Some limit => Z.of_nat (length sections) >? limit
            | None => false
            end in
          let sections :=
            match v_limit v with
            | Some limit => ChromeStorageHeadingSectionRepository.slice 0 limit sections
            | None => sections
            end in
          Found sections totalCount
            {| hasFilters := hasAnyFilters input v;
               wasLimited := wasLimited;
               sortBy := in_sortBy input;
               sortOrder := in_sortOrder input |}
      end
  end.

End WithBrowser.

End GetHeadingSectionsUseCase.

(** ** Further vocabulary: queries *)

Module Asked.

Import GetHeadingSectionsUseCase.

(** How many of the four main criteria (source URL, level, a complete
    date range, search text) a request carries. *)
Definition mainFilters (input : GetHeadingSectionsInput) : nat :=
  length (filter (fun b => b = true)
            [ given (in_sourceUrl input); isSome (in_level input);
              bothDates input; given (in_searchText input) ]).

(** The request with another [searchInContent]. *)
Definition withSearchInContent (b : option bool) (input : GetHeadingSectionsInput)
  : GetHeadingSectionsInput :=
  mkInput (in_sourceUrl input) (in_level input) (in_startDate input)
    (in_endDate input) (in_searchText input) b (in_limit input)
    (in_sortBy input) (in_sortOrder input).

Definition newestFirst (a b : HeadingSection.t) : Prop :=
  HeadingSection.addedAt b <= HeadingSection.addedAt a.

Definition oldestFirst (a b : HeadingSection.t) : Prop :=
  HeadingSection.addedAt a <= HeadingSection.addedAt b.

Definition lowestLevelFirst (a b : HeadingSection.t) : Prop :=
  HeadingSection.level a <= HeadingSection.level b.

(** A repository that holds a fixed list and answers every query
    from it. *)
Definition listed : Repository (list HeadingSection.t) :=
  {| getAllSections := fun stored => Ok stored;
     findSectionsByUrl := fun stored sourceUrl =>
       Ok (keep (matchesSourceUrl sourceUrl) stored);
     findSectionsByLevel := fun stored level => Ok (keep (matchesLevel level) stored);
     searchSectionsByTitle := fun stored searchTerm =>
       Ok (keep (matchesSearch searchTerm None) stored) |}.

Definition byCode : string -> string -> Z :=
  fun a b => match String.compare a b with Lt => -1 | Eq => 0 | Gt => 1 end.

(** Three stored sections, added at times 1, 3 and 2. *)
Definition threeStored : list HeadingSection.t :=
  [ HeadingSection.mk 2 "H2" "Install" "<h2>Install</h2>" "https://deepwiki.com/a/b" 1 "s1";
    HeadingSection.mk 3 "H3" "Usage" "<h3>Usage</h3>" "https://deepwiki.com/a/b" 3 "s2";
    HeadingSection.mk 2 "H2" "Options" "<h2>Options</h2><p>usage</p>" "https://deepwiki.com/a/c" 2 "s3" ].

End Asked.

(** ** The content script (entrypoints/content/index.ts): [handleAddHeading]

    The message the content script sends to the background script when
    the control of a section is clicked; [href] is
    [window.location.href] at that moment.  A value that fails the
    type guard sends nothing. *)

Module ContentMessages.

Definition handleAddHeading (section : HeadingSection.t) (href : string)
  : option AddHeadingSectionUseCase.AddHeadingSectionInput :=
  if negb (AddHeadingSectionUseCase.isHeadingSection section) then None
  else
    Some {| AddHeadingSectionUseCase.in_level :=
              AddHeadingSectionUseCase.Integer (HeadingSection.level section);
            AddHeadingSectionUseCase.in_title := HeadingSection.titleText section;
            AddHeadingSectionUseCase.in_content :=
              Some (HeadingSection.contentHtml section);
            AddHeadingSectionUseCase.in_sourceUrl := href;
            AddHeadingSectionUseCase.in_id :=
              Some (HeadingSection.sectionId section) |}.

End ContentMessages.

(** ** ButtonFactory and the feedback of a click
    (infrastructure/gateways/dom/factories/button.factory.ts,
     utils/button-styles.ts, services/button-manager.service.ts) *)

Module ButtonFactory.

Inductive ButtonState : Type := Default | Adding | Success | Error.

(** A button element: what the factory and the feedback set on it.
    [style] holds the inline style properties that were assigned. *)
Record Button : Type := mkButton {
  className : string;
  attributes : gmap string string;
  innerHTML : string;
  disabled : bool;
  style : gmap string string
}.

(** [button.title] reflects the attribute. *)
Definition title (button : Button) : string :=
  match attributes button !! "title" with Some t => t | None => "" end.

(** [BUTTON_STYLES.default] *)
Definition defaultStyle : gmap string string :=
  list_to_map
    [ ("marginLeft", "8px"); ("padding", "2px 6px"); ("fontSize", "12px");
      ("lineHeight", "1"); ("border", "1px solid #ccc"); ("borderRadius", "3px");
      ("backgroundColor", "#f8f9fa"); ("color", "#333"); ("cursor", "pointer");
      ("verticalAlign", "middle"); ("opacity", "0.7");
      ("transition", "all 0.2s ease") ].

(** [BUTTON_STYLES.states] *)
Definition stateIcon (state : ButtonState) : string :=
  match state with
  | Default => "➕"
  | Adding => "⏳"
  | Success => "✅"
  | Error => "❌"
  end.

Definition stateStyles (state : ButtonState) : gmap string string :=
  match state with
  | Default =>
      list_to_map [ ("opacity", "0.7"); ("backgroundColor", "#f8f9fa");
                    ("color", "#333") ]
  | Adding => list_to_map [ ("opacity", "0.5"); ("cursor", "not-allowed") ]
  | Success => list_to_map [ ("color", "#28a745"); ("borderColor", "#28a745") ]
  | Error => list_to_map [ ("color", "#dc3545"); ("borderColor", "#dc3545") ]
  end.

Definition stateLabels (state : ButtonState) : string :=
  match state with
  | Default => "Add to collection"
  | Adding => "Adding to collection..."
  | Success => "Successfully added to collection"
  | Error => "Failed to add to collection"
  end.

(** [Object.assign(button.style, styles)] *)
Definition assignStyle (styles : gmap string string) (button : Button) : Button :=
  {| className := className button; attributes := attributes button;
     innerHTML := innerHTML button; disabled := disabled button;
     style := styles ∪ style button |}.

(** [create], up to the listeners it attaches. *)
Definition create (section : HeadingSection.t) (index : nat) : Button :=
  let button :=
    {| className := "dwpp-add-section-btn";
       attributes :=
         <[ "aria-label" :=
              "Add section " ++ Js.dq ++ HeadingSection.titleText section ++ Js.dq
              ++ " to collection" ]>
           (<[ "title" :=
                 "Add " ++ Js.dq ++ HeadingSection.titleText section ++ Js.dq
                 ++ " to collection" ]>
              (<[ "data-section-index" := Js.ofNat index ]>
                 (<[ "type" := "button" ]> ∅)));
       innerHTML := stateIcon Default;
       disabled := false;
       style := ∅ |} in
  assignStyle defaultStyle button.

Definition updateButtonState (button : Button) (state : ButtonState) : Button :=
  let button :=
    if Js.truthy (stateIcon state)
    then {| className := className button; attributes := attributes button;
            innerHTML := stateIcon state; disabled := disabled button;
            style := style button |}
    else button in
  let button := assignStyle (stateStyles state) button in
  {| className := className button;
     attributes :=
       <[ "aria-label" := title button ++ " - " ++ stateLabels state ]>
         (attributes button);
     innerHTML := innerHTML button;
     disabled := match state with Adding => true | _ => false end;
     style := style button |}.

End ButtonFactory.

Module ButtonFeedback.

Import ButtonFactory.

(** [BUTTON_CONSTANTS.FEEDBACK_DURATION] *)
Definition FEEDBACK_SUCCESS : Z := 1500.
Definition FEEDBACK_ERROR : Z := 2000.

(** The manager's [buttons] map with the buttons themselves, the
    timers it has set (what each will do, and after how long), and the
    sections handed to the click callback so far. *)
Record Manager : Type := mkManager {
  buttons : gmap string Button;
  timers : list (string * ButtonState * Z);
  handled : list HeadingSection.t
}.

Definition updateButtonState (buttonId : string) (state : ButtonState)
    (m : Manager) : Manager :=
  match buttons m !! buttonId with
  | None => m
  | Some button =>
      {| buttons := <[ buttonId := ButtonFactory.updateButtonState button state ]>
                      (buttons m);
         timers := timers m;
         handled := handled m |}
  end.

Definition setTimeout (buttonId : string) (state : ButtonState) (delay : Z)
    (m : Manager) : Manager :=
  {| buttons := buttons m;
     timers := (timers m ++ [(buttonId, state, delay)])%list;
     handled := handled m |}.

(** [onButtonClick(section)]: the callback is entered, and returns or
    throws. *)
Definition call (section : HeadingSection.t) (m : Manager) : Manager :=
  {| buttons := buttons m; timers := timers m;
     handled := (handled m ++ [section])%list |}.

Definition handleButtonClick (buttonId : string) (section : HeadingSection.t)
    (onButtonClick : HeadingSection.t -> Outcome unit) (m : Manager) : Manager :=
  let m := updateButtonState buttonId Adding m in
  let m := call section m in
  match onButtonClick section with
  | Ok _ =>
      setTimeout buttonId Default FEEDBACK_SUCCESS
        (updateButtonState buttonId Success m)
  | Throw _ =>
      setTimeout buttonId Default FEEDBACK_ERROR
        (updateButtonState buttonId Error m)
  end.

(** The click listener that the factory attaches to [button], with the
    callback [insertButtons] gives it: the listener looks at the
    element it sits on and at nothing else, and the callback names the
    identifier the element was created for.  Whether the manager still
    tracks an element under that identifier is for [updateButtonState]
    to find out. *)
Definition click (button : Button) (buttonId : string) (section : HeadingSection.t)
    (onButtonClick : HeadingSection.t -> Outcome unit) (m : Manager) : Manager :=
  if disabled button then m
  else handleButtonClick buttonId section onButtonClick m.

(** The oldest timer fires. *)
Definition timerFires (m : Manager) : Manager :=
  match timers m with
  | [] => m
  | (buttonId, state, _) :: rest =>
      updateButtonState buttonId state
        {| buttons := buttons m; timers := rest; handled := handled m |}
  end.

End ButtonFeedback.

(** ** DomHelpers.hasValidContent (infrastructure/gateways/dom/utils/dom-helpers.ts) *)

Module DomContent.

(** On the number of [h1]..[h6] inside the element and the length of
    its trimmed text. *)
Definition hasValidContent (headingCount textLength : nat)
    (minHeadingCount minTextLength : nat) : bool :=
  (minHeadingCount <=? headingCount)%nat
  || ((0 <? headingCount)%nat && (minTextLength <=? textLength)%nat).

End DomContent.

(** ** ContentContainerFinder (strategies/content-container-finder.ts) *)

Module ContentContainerFinder.

Import DomContent.

Definition CONTENT_SELECTORS : list string :=
  [ "#codebase-wiki-repo-page .markdown-body";
    "#codebase-wiki-repo-page article";
    "#codebase-wiki-repo-page .prose";
    "#codebase-wiki-repo-page";
    "main";
    "[role=" ++ Js.dq ++ "main" ++ Js.dq ++ "]";
    "article";
    ".content";
    ".markdown-body";
    ".prose" ].

Record Element : Type := mkElement {
  elementId : nat;
  headingCount : nat;              (* [h1]..[h6] inside it *)
  textLength : nat                 (* length of its trimmed text *)
}.

(** The document as [find] queries it. *)
Record Document : Type := mkDocument {
  querySelector : string -> option Element;  (* first match in document order *)
  candidates : list Element;       (* [querySelectorAll("main, article, div")] *)
  body : Element
}.

Definition minHeadingCount : nat := 3.
Definition minTextLength : nat := 30.

Definition isValidContainer (element : Element) : bool :=
  hasValidContent (headingCount element) (textLength element)
    minHeadingCount minTextLength.

Definition findFallbackContainer (d : Document) : option Element :=
  List.find isValidContainer (candidates d).

Fixpoint trySelectors (d : Document) (selectors : list string) : option Element :=
  match selectors with
  | [] => None
  | selector :: rest =>
      match querySelector d selector with
      | Some container =>
          if isValidContainer container then Some container
          else trySelectors d rest
      | None => trySelectors d rest
      end
  end.

Definition find (d : Document) : Element :=
  match trySelectors d CONTENT_SELECTORS with
  | Some container => container
  | None =>
      match findFallbackContainer d with
      | Some fallbackContainer => fallbackContainer
      | None => body d
      end
  end.

End ContentContainerFinder.

(** ** SPAMonitorService: starting, stopping and the content observer
    (infrastructure/gateways/dom/services/spa-monitor.service.ts) *)

Module SPAMonitorSession.

Import SPAMonitorService DomContent.

(** A node added to the document, as the observer's callback examines
    it. *)
Record AddedNode : Type := mkAdded {
  nodeId : nat;
  isElement : bool;                 (* [nodeType === Node.ELEMENT_NODE] *)
  matchesContentSelector : bool;    (* one of the five content selectors *)
  matchesHeading : bool;            (* [matches("h1,h2,h3,h4,h5,h6")] *)
  headingCount : nat;               (* headings inside it *)
  textLength : nat;                 (* length of its trimmed text *)
  firstMarkdownInside : option nat  (* first [.markdown-body, article, .prose] inside *)
}.

Record MutationRecord : Type := mkMutation {
  isChildList : bool;
  addedNodes : list AddedNode
}.

Definition isSignificantElement (element : AddedNode) : bool :=
  if matchesContentSelector element then true
  else if matchesHeading element then true
  else hasValidContent (headingCount element) (textLength element) 2 50.

Definition findSignificantChildElement (element : AddedNode) : option nat :=
  if (0 <? headingCount element)%nat then Some (nodeId element)
  else firstMarkdownInside element.

Fixpoint detectInNodes (nodes : list AddedNode) : option nat :=
  match nodes with
  | [] => None
  | node :: rest =>
      if isElement node
      then
        if isSignificantElement node then Some (nodeId node)
        else match findSignificantChildElement node with
             | Some child => Some child
             | None => detectInNodes rest
             end
      else detectInNodes rest
  end.

Fixpoint detectSignificantChange (mutations : list MutationRecord) : option nat :=
  match mutations with
  | [] => None
  | mutation :: rest =>
      if isChildList mutation && (0 <? length (addedNodes mutation))%nat
      then match detectInNodes (addedNodes mutation) with
           | Some element => Some element
           | None => detectSignificantChange rest
           end
      else detectSignificantChange rest
  end.

(** What [history.pushState] (or [replaceState]) currently is: the
    browser's method, or the service's wrapper, which calls
    [this.originalPushState] and then schedules a check. *)
Inductive HistoryMethod : Type := Native | Wrapper.

(** The page the service runs on. *)
Record Window : Type := mkWindow {
  href : string;
  pushState : HistoryMethod;
  replaceState : HistoryMethod;
  popstateListener : bool;          (* [handlePopState] is registered *)
  navigationTimers : nat            (* pending 100 ms checks *)
}.

Record Service : Type := mkService {
  isActive : bool;
  monitor : Monitor;                (* lastUrl, navigationCallbacks, invocations *)
  contentCallbacks : list nat;
  contentInvocations : list (nat * nat);  (* callback, element: oldest first *)
  mutationObserver : bool;          (* the observer exists and is connected *)
  debounceTimer : bool;             (* [this.debounceTimer] holds a timer id *)
  pending : option (list MutationRecord);  (* the armed timer and its mutations *)
  originalPushState : option HistoryMethod;
  originalReplaceState : option HistoryMethod
}.

Definition fresh : Service :=
  mkService false (mkMonitor "" [] []) [] [] false false None None None.

Definition freshWindow (url : string) : Window :=
  mkWindow url Native Native false 0.

Definition startMonitoring (onNavigationChange : Callback) (onContentChange : nat)
    (s : Service) (w : Window) : Service * Window :=
  if isActive s then (s, w)
  else
    ({| isActive := true;
        monitor :=
          {| lastUrl := href w;
             navigationCallbacks :=
               (navigationCallbacks (monitor s) ++ [onNavigationChange])%list;
             invocations := invocations (monitor s) |};
        contentCallbacks := (contentCallbacks s ++ [onContentChange])%list;
        contentInvocations := contentInvocations s;
        (* setupContentMonitoring *)
        mutationObserver := true;
        debounceTimer := debounceTimer s;
        pending := pending s;
        (* wrapHistoryMethods *)
        originalPushState := Some (pushState w);
        originalReplaceState := Some (replaceState w) |},
     {| href := href w;
        pushState := Wrapper;
        replaceState := Wrapper;
        popstateListener := true;
        navigationTimers := navigationTimers w |}).

Definition stopMonitoring (s : Service) (w : Window) : Service * Window :=
  if negb (isActive s) then (s, w)
  else
    ({| isActive := false;
        monitor :=
          {| lastUrl := lastUrl (monitor s);
             navigationCallbacks := [];
             invocations := invocations (monitor s) |};
        contentCallbacks := [];
        contentInvocations := contentInvocations s;
        mutationObserver := false;
        debounceTimer := false;
        pending := if debounceTimer s then None else pending s;
        originalPushState := None;
        originalReplaceState := None |},
     {| href := href w;
        pushState :=
          match originalPushState s with Some f => f | None => pushState w end;
        replaceState :=
          match originalReplaceState s with Some f => f | None => replaceState w end;
        popstateListener := false;
        navigationTimers := navigationTimers w |}).

Definition isMonitoring (s : Service) : bool := isActive s.

Definition withMonitor (m : Monitor) (s : Service) : Service :=
  mkService (isActive s) m (contentCallbacks s) (contentInvocations s)
    (mutationObserver s) (debounceTimer s) (pending s)
    (originalPushState s) (originalReplaceState s).

(** The observer's callback: the timer is restarted with the
    mutations of this call. *)
Definition observerCallback (mutations : list MutationRecord) (s : Service)
  : Service :=
  mkService (isActive s) (monitor s) (contentCallbacks s) (contentInvocations s)
    (mutationObserver s) true (Some mutations)
    (originalPushState s) (originalReplaceState s).

(** The debounce timer's callback. *)
Definition debounced (mutations : list MutationRecord) (s : Service) : Service :=
  match detectSignificantChange mutations with
  | Some significantChange =>
      mkService (isActive s) (monitor s) (contentCallbacks s)
        (contentInvocations s
         ++ map (fun callback => (callback, significantChange)) (contentCallbacks s))%list
        (mutationObserver s) (debounceTimer s) (pending s)
        (originalPushState s) (originalReplaceState s)
  | None => s
  end.

Inductive Event : Type :=
| Start (onNavigationChange : Callback) (onContentChange : nat)
| Stop
| PushState (url : string)          (* the page calls [history.pushState] *)
| ReplaceState (url : string)
| PopState (url : string)           (* the user goes back or forward *)
| NavigationTimerFires
| Mutations (mutations : list MutationRecord)  (* nodes change under [body] *)
| DebounceTimerFires.

(** A call of [history.pushState] or [replaceState], by what the
    method currently is. *)
Definition navigate (method : HistoryMethod) (original : option HistoryMethod)
    (url : string) (w : Window) : Window :=
  match method with
  | Native =>
      mkWindow url (pushState w) (replaceState w) (popstateListener w)
        (navigationTimers w)
  | Wrapper =>
      match original with
      | Some Native =>
          mkWindow url (pushState w) (replaceState w) (popstateListener w)
            (S (navigationTimers w))
      | _ => w                      (* the wrapper has nothing to call *)
      end
  end.

Definition step (state : Service * Window) (event : Event) : Service * Window :=
  let '(s, w) := state in
  match event with
  | Start onNavigationChange onContentChange =>
      startMonitoring onNavigationChange onContentChange s w
  | Stop => stopMonitoring s w
  | PushState url => (s, navigate (pushState w) (originalPushState s) url w)
  | ReplaceState url => (s, navigate (replaceState w) (originalReplaceState s) url w)
  | PopState url =>
      let w := mkWindow url (pushState w) (replaceState w) (popstateListener w)
                 (navigationTimers w) in
      if popstateListener w
      then (withMonitor (checkNavigationChange (href w) (monitor s)) s, w)
      else (s, w)
  | NavigationTimerFires =>
      match navigationTimers w with
      | O => (s, w)
      | S n =>
          (withMonitor (checkNavigationChange (href w) (monitor s)) s,
           mkWindow (href w) (pushState w) (replaceState w) (popstateListener w) n)
      end
  | Mutations mutations =>
      if mutationObserver s then (observerCallback mutations s, w) else (s, w)
  | DebounceTimerFires =>
      match pending s with
      | Some mutations =>
          (debounced mutations
             (mkService (isActive s) (monitor s) (contentCallbacks s)
                (contentInvocations s) (mutationObserver s) (debounceTimer s)
                None (originalPushState s) (originalReplaceState s)),
           w)
      | None => (s, w)
      end
  end.

Definition run (state : Service * Window) (events : list Event) : Service * Window :=
  fold_left step events state.

Definition isStart (event : Event) : bool :=
  match event with Start _ _ => true | _ => false end.

(** How the fields of the service and the page hang together between
    two events. *)
Definition Consistent (state : Service * Window) : Prop :=
  let '(s, w) := state in
  (pending s <> None -> debounceTimer s = true)
  /\ if isActive s
     then length (navigationCallbacks (monitor s)) = 1%nat
          /\ length (contentCallbacks s) = 1%nat
          /\ pushState w = Wrapper /\ replaceState w = Wrapper
          /\ originalPushState s = Some Native
          /\ originalReplaceState s = Some Native
          /\ popstateListener w = true
          /\ mutationObserver s = true
     else navigationCallbacks (monitor s) = []
          /\ contentCallbacks s = []
          /\ pushState w = Native /\ replaceState w = Native
          /\ originalPushState s = None
          /\ originalReplaceState s = None
          /\ popstateListener w = false
          /\ mutationObserver s = false
          /\ pending s = None.

End SPAMonitorSession.

(** * Properties *)

(** ** The factory keeps level and tag consistent *)

Module HeadingSectionFacts.

Import HeadingSection Spec.

Lemma isValidHeadingLevel_spec (level : Z) :
  isValidHeadingLevel level = true <-> 1 <= level <= 6.
Proof.
  unfold isValidHeadingLevel, MIN_HEADING_LEVEL, MAX_HEADING_LEVEL.
  rewrite andb_true_iff, !Z.leb_le. tauto.
Qed.

Lemma createHeadingSection_ok validUrl gen now (p : Params) (s : t) :
  createHeadingSection validUrl gen now p = Ok s ->
  isValidHeadingLevel (p_level p) = true
  /\ Js.toUpperCase (p_tagName p) = "H" ++ Js.ofZ (p_level p)
  /\ level s = p_level p
  /\ tagName s = Js.toUpperCase (p_tagName p).
Proof.
  unfold createHeadingSection, validateHeadingLevel, validateTagName,
    validateRequiredFields, guard, bind.
  destruct (isValidHeadingLevel (p_level p)) eqn:Hl; [|discriminate].
  destruct (Js.eqb _ _) eqn:Ht; [|discriminate].
  apply String.eqb_eq in Ht.
  destruct (Js.truthy (Js.trim (p_titleText p))); [|discriminate].
  destruct (Js.truthy (Js.trim (p_contentHtml p))); [|discriminate].
  destruct (Js.truthy (Js.trim (p_sourceUrl p))); [|discriminate].
  destruct (validUrl (p_sourceUrl p)); [|discriminate].
  intros [= <-]. simpl. auto.
Qed.

(** C3.  Every section that [createHeadingSection] returns has a level
    between 1 and 6 and the tag name ["H" + level]; a call whose tag
    name, upper-cased, differs from ["H" + level], or whose level lies
    outside 1..6, throws a [ValidationError] and returns no section. *)
Theorem createHeadingSection_level_tag validUrl gen now (p : Params) :
  (forall s, createHeadingSection validUrl gen now p = Ok s ->
     1 <= level s <= 6 /\ tagName s = "H" ++ Js.ofZ (level s))
  /\ (Js.toUpperCase (p_tagName p) <> "H" ++ Js.ofZ (p_level p)
      \/ ~ (1 <= p_level p <= 6) ->
      exists message,
        createHeadingSection validUrl gen now p = Throw (ValidationError message)).
Proof.
  split.
  - intros s Hs.
    destruct (createHeadingSection_ok _ _ _ _ _ Hs) as (Hl & Ht & -> & ->).
    split; [now apply isValidHeadingLevel_spec | exact Ht].
  - intros Hbad.
    unfold createHeadingSection, validateHeadingLevel, validateTagName, guard, bind.
    destruct (isValidHeadingLevel (p_level p)) eqn:Hl; [|eauto].
    destruct (Js.eqb _ _) eqn:Ht; [|eauto].
    apply String.eqb_eq in Ht. apply isValidHeadingLevel_spec in Hl.
    destruct Hbad; contradiction.
Qed.

Lemma createHeadingSection_level_tag_witness :
  (exists s,
      createHeadingSection (fun _ => true) (fun _ _ _ => "generated") 0
        sampleParams = Ok s
      /\ 1 <= level s <= 6 /\ tagName s = "H2")
  /\ exists message,
      createHeadingSection (fun _ => true) (fun _ _ _ => "generated") 0
        mismatchedParams = Throw (ValidationError message).
Proof.
  split.
  - eexists. split; [reflexivity|].
    apply (proj1 (createHeadingSection_level_tag (fun _ => true)
                    (fun _ _ _ => "generated") 0 sampleParams)).
    reflexivity.
  - apply (proj2 (createHeadingSection_level_tag (fun _ => true)
                    (fun _ _ _ => "generated") 0 mismatchedParams)).
    left. discriminate.
Defined.

End HeadingSectionFacts.

(** ** Handles and the tree they point into *)

Module DomFacts.

Import Dom.

Lemma Node_forall_ind (P : Node -> Prop) :
  (forall d, P (Text d)) ->
  (forall t eid children, Forall P children -> P (Element t eid children)) ->
  forall n, P n.
Proof.
  intros HT HE. fix IH 1. intros [d | t eid children].
  - apply HT.
  - apply HE. induction children as [| c r IHr]; constructor.
    + apply IH.
    + exact IHr.
Qed.

Lemma descendants_element pp t eid children :
  descendants pp (Element t eid children) = childDescendants pp 0 children.
Proof. reflexivity. Qed.

Lemma drop_cons_inv {A} (l : list A) i x r :
  drop i l = x :: r -> l !! i = Some x /\ drop (S i) l = r.
Proof.
  intros H. split.
  - rewrite <- (Nat.add_0_r i), <- lookup_drop, H. reflexivity.
  - replace (S i) with (i + 1)%nat by lia.
    rewrite <- drop_drop, H. reflexivity.
Qed.

Lemma childDescendants_placed t0 e0 children :
  Forall (fun c => forall pp e, e ∈ descendants pp c -> placedBelow c pp e) children ->
  forall l i pp e,
    drop i children = l ->
    e ∈ childDescendants pp i l ->
    placedBelow (Element t0 e0 children) pp e.
Proof.
  intros IH l. induction l as [| c r IHl]; intros i pp e Hdrop Hin.
  - simpl in Hin. inversion Hin.
  - destruct (drop_cons_inv _ _ _ _ Hdrop) as [Hlook Hrest].
    destruct c as [d | t eid ks]; simpl in Hin.
    + eapply IHl; eauto.
    + rewrite elem_of_cons, elem_of_app in Hin.
      destruct Hin as [-> | [Hin | Hin]].
      * exists [], t0, e0, children. simpl. rewrite app_nil_r. auto.
      * rewrite Forall_forall in IH.
        assert (Hc : Element t eid ks ∈ children)
          by (apply list_elem_of_lookup; eauto).
        destruct (IH _ Hc _ _ Hin) as (q & t' & eid' & ch & Hp & Hn & Hd).
        exists (i :: q), t', eid', ch. split; [|split]; auto.
        -- rewrite Hp, <- app_assoc. reflexivity.
        -- simpl. rewrite Hlook. exact Hn.
      * eapply IHl; eauto.
Qed.

Lemma descendants_placed n :
  forall pp e, e ∈ descendants pp n -> placedBelow n pp e.
Proof.
  induction n as [d | t eid children IH] using Node_forall_ind; intros pp e Hin.
  - inversion Hin.
  - rewrite descendants_element in Hin.
    eapply (childDescendants_placed t eid children IH children 0%nat); eauto.
Qed.

Lemma queryHeadings_inTree container e :
  e ∈ queryHeadings container -> inTree container e.
Proof.
  unfold queryHeadings. rewrite list_elem_of_filter. intros [_ Hin].
  destruct (descendants_placed _ _ _ Hin) as (q & t & eid & ch & Hp & Hn & Hd).
  exists t, eid, ch. simpl in Hp. rewrite Hp. auto.
Qed.

Lemma queryHeadings_heading container e :
  e ∈ queryHeadings container -> isHeadingTag (tag e) = true.
Proof. unfold queryHeadings. rewrite list_elem_of_filter. tauto. Qed.

Lemma siblingsFrom_inTree root pp t eid children :
  nodeAt root pp = Some (Element t eid children) ->
  forall l i c,
    drop i children = l ->
    c ∈ siblingsFrom pp i l ->
    inTree root c.
Proof.
  intros Hn l. induction l as [| x r IHl]; intros i c Hdrop Hin.
  - inversion Hin.
  - destruct (drop_cons_inv _ _ _ _ Hdrop) as [Hlook Hrest].
    destruct x as [d | t' eid' ks]; simpl in Hin.
    + eapply IHl; eauto.
    + rewrite elem_of_cons in Hin. destruct Hin as [-> | Hin].
      * exists t, eid, children. simpl. auto.
      * eapply IHl; eauto.
Qed.

Lemma nextElementSiblings_inTree root e c :
  inTree root e -> c ∈ nextElementSiblings e -> inTree root c.
Proof.
  intros (t & eid & ch & Hn & Hd) Hin.
  destruct (drop_cons_inv _ _ _ _ Hd) as [_ Hrest].
  eapply siblingsFrom_inTree; eauto.
Qed.

(** Two handles at the same place of one tree are the same element. *)
Lemma sameElem_nodeOf root a b :
  inTree root a -> inTree root b -> sameElem a b = true -> nodeOf a = nodeOf b.
Proof.
  intros (t & eid & ch & Hn & Hd) (t' & eid' & ch' & Hn' & Hd') Hs.
  unfold sameElem in Hs. apply andb_true_iff in Hs as [Hp Hi].
  apply bool_decide_eq_true in Hp. apply Nat.eqb_eq in Hi.
  rewrite Hp, Hn' in Hn. injection Hn as -> -> ->.
  rewrite Hi, Hd' in Hd. congruence.
Qed.

Lemma sameElem_tag root a b :
  inTree root a -> inTree root b -> sameElem a b = true -> tag a = tag b.
Proof.
  intros Ha Hb Hs. pose proof (sameElem_nodeOf _ _ _ Ha Hb Hs) as H.
  unfold nodeOf in H. congruence.
Qed.

(** [nextElementSibling] walks the chain one element at a time. *)
Lemma nextElementSiblings_step e :
  nextElementSiblings e =
    match nextElementSibling e with
    | None => []
    | Some c => c :: nextElementSiblings c
    end.
Proof.
  unfold nextElementSibling, nextElementSiblings.
  generalize (S (index e)). generalize (parentPath e).
  induction (after e) as [| x r IH]; intros pp i; simpl.
  - reflexivity.
  - destruct x as [d | t eid ks]; simpl.
    + apply IH.
    + reflexivity.
Qed.

End DomFacts.

(** ** The parsers: section boundaries, the length cap, failure isolation *)

Module ParserFacts.

Import Dom Spec DomFacts.

Lemma collectUntil_split (stop : Elem -> bool) (l : list Elem) :
  exists span rest,
    l = (span ++ rest)%list
    /\ HeadingParser.collectUntil stop l = span
    /\ Forall (fun e => stop e = false) span
    /\ (rest = [] \/ exists b r, rest = b :: r /\ stop b = true).
Proof.
  induction l as [| c r (span & rest & Hl & Hc & Hs & Hr)].
  - exists [], []. simpl. auto.
  - simpl. destruct (stop c) eqn:E.
    + exists [], (c :: r). simpl. repeat split; eauto.
    + exists (c :: span), rest. simpl. rewrite Hl at 1. rewrite Hc.
      repeat split; auto.
Qed.

Lemma collectUntil_ext (f g : Elem -> bool) (l : list Elem) :
  (forall c, c ∈ l -> f c = g c) ->
  HeadingParser.collectUntil f l = HeadingParser.collectUntil g l.
Proof.
  induction l as [| c r IH]; intros H; simpl.
  - reflexivity.
  - rewrite <- (H c) by apply list_elem_of_here.
    destruct (f c); [reflexivity|].
    f_equal. apply IH. intros x Hx. apply H. now apply list_elem_of_further.
Qed.

Lemma reachesBoundary_spec (L : Z) (e : Elem) :
  HeadingParser.reachesBoundary (Some L) e = true <-> endsSection L e.
Proof.
  unfold HeadingParser.reachesBoundary, endsSection.
  destruct (HeadingSection.getHeadingLevelFromTag (tag e)) as [l|].
  - rewrite Z.leb_le. split.
    + intros H. eauto.
    + intros (l' & [= <-] & H). exact H.
  - split; [discriminate | intros (l' & [=] & _)].
Qed.

Lemma reachesBoundary_false (L : Z) (e : Elem) :
  HeadingParser.reachesBoundary (Some L) e = false <-> ~ endsSection L e.
Proof.
  rewrite <- reachesBoundary_spec. destruct (HeadingParser.reachesBoundary _ _); split;
    intros; try congruence; try tauto.
Qed.

Lemma insertSorted_elem x y l :
  y ∈ HeadingParserService.insertSorted x l -> y = x \/ y ∈ l.
Proof.
  induction l as [| z r IH]; simpl.
  - rewrite list_elem_of_singleton. auto.
  - destruct (precedes z x || negb (precedes x z)).
    + rewrite !elem_of_cons. intros [-> | H]; auto.
      destruct (IH H); auto.
    + rewrite !elem_of_cons. tauto.
Qed.

Lemma sortByDocumentOrder_elem y l :
  y ∈ HeadingParserService.sortByDocumentOrder l -> y ∈ l.
Proof.
  unfold HeadingParserService.sortByDocumentOrder.
  assert (G : forall acc, y ∈ fold_left
                (fun sorted x => HeadingParserService.insertSorted x sorted) l acc ->
              y ∈ acc \/ y ∈ l).
  { induction l as [| x r IH]; intros acc; simpl.
    - auto.
    - intros H. destruct (IH _ H) as [H1 | H1].
      + destruct (insertSorted_elem _ _ _ H1) as [-> | H2].
        * right. apply list_elem_of_here.
        * auto.
      + right. now apply list_elem_of_further. }
  intros H. destruct (G _ H) as [H1 | H1]; [inversion H1 | exact H1].
Qed.

Lemma findHeadingElements_inTree container e :
  e ∈ HeadingParserService.findHeadingElements container -> inTree container e.
Proof.
  intros H. apply queryHeadings_inTree. now apply sortByDocumentOrder_elem.
Qed.

Lemma findFirstRelevant_some L l next :
  HeadingParserService.findFirstRelevant L l = Some next ->
  next ∈ l /\ endsSection L next.
Proof.
  induction l as [| x r IH]; simpl; [discriminate|].
  destruct (HeadingSection.getHeadingLevelFromTag (tag x)) as [lv|] eqn:E.
  - destruct (lv <=? L) eqn:E2.
    + intros [= <-]. split; [apply list_elem_of_here|].
      exists lv. split; [exact E | now apply Z.leb_le].
    + intros H. destruct (IH H). split; [now apply list_elem_of_further | assumption].
  - intros H. destruct (IH H). split; [now apply list_elem_of_further | assumption].
Qed.

(** The identity test against the precomputed next heading never stops
    the loop earlier than the level test does. *)
Lemma stopsAt_reachesBoundary container allHeadings i L c :
  (forall x, x ∈ allHeadings -> inTree container x) ->
  inTree container c ->
  HeadingParserService.stopsAt
    (HeadingParserService.findNextRelevantHeading allHeadings i L) L c
  = HeadingParser.reachesBoundary (Some L) c.
Proof.
  intros Hall Hc. unfold HeadingParserService.stopsAt.
  assert (Hlvl :
    HeadingParserService.isHeadingElement c
    && match HeadingSection.getHeadingLevelFromTag (tag c) with
       | Some nodeLevel => nodeLevel <=? L
       | None => false
       end = HeadingParser.reachesBoundary (Some L) c).
  { unfold HeadingParserService.isHeadingElement, isHeadingTag,
      HeadingParser.reachesBoundary.
    destruct (HeadingSection.getHeadingLevelFromTag (tag c)); reflexivity. }
  rewrite Hlvl.
  destruct (HeadingParserService.findNextRelevantHeading allHeadings i L)
    as [next|] eqn:En; [|reflexivity].
  destruct (sameElem c next) eqn:Es; [|reflexivity].
  unfold HeadingParserService.findNextRelevantHeading in En.
  apply findFirstRelevant_some in En as [Hin Hends].
  apply list_elem_of_lookup in Hin as [j Hj].
  rewrite lookup_drop in Hj.
  assert (Hnext : inTree container next)
    by (apply Hall; apply list_elem_of_lookup; eauto).
  simpl. symmetry. apply reachesBoundary_spec.
  unfold endsSection. rewrite (sameElem_tag _ _ _ Hc Hnext Es). exact Hends.
Qed.

End ParserFacts.

(** ** Document order *)

Module DocumentOrder.

Import Dom Spec DomFacts.

Lemma pathBefore_app p a b : pathBefore (p ++ a) (p ++ b) = pathBefore a b.
Proof.
  induction p as [| x p IH]; [reflexivity|].
  simpl. now rewrite Nat.ltb_irrefl.
Qed.

Lemma pathBefore_lt i j a b : (i < j)%nat -> pathBefore (i :: a) (j :: b) = true.
Proof. intros H. simpl. apply Nat.ltb_lt in H. now rewrite H. Qed.

Lemma pathBefore_below q : q <> [] -> pathBefore [] q = true.
Proof. destruct q; [congruence | reflexivity]. Qed.

Lemma descendants_position n pp e :
  e ∈ descendants pp n -> exists q, position e = (pp ++ q)%list /\ q <> [].
Proof.
  intros H. destruct (descendants_placed _ _ _ H) as (q & _ & _ & _ & Hp & _).
  exists (q ++ [index e])%list. unfold position. rewrite Hp, app_assoc.
  split; [reflexivity|]. destruct q; discriminate.
Qed.

Lemma childDescendants_position pp l :
  forall i e,
    e ∈ childDescendants pp i l ->
    exists j q, (i <= j)%nat /\ position e = (pp ++ j :: q)%list.
Proof.
  induction l as [| c r IH]; intros i e Hin; simpl in Hin.
  - inversion Hin.
  - destruct c as [d | t eid ks].
    + destruct (IH _ _ Hin) as (j & q & Hj & Hp). exists j, q. split; [lia | exact Hp].
    + rewrite elem_of_cons, elem_of_app in Hin. destruct Hin as [-> | [Hin | Hin]].
      * exists i, []. split; [lia | reflexivity].
      * destruct (descendants_position _ _ _ Hin) as (q & Hp & _).
        exists i, q. split; [lia|]. rewrite Hp, <- app_assoc. reflexivity.
      * destruct (IH _ _ Hin) as (j & q & Hj & Hp). exists j, q.
        split; [lia | exact Hp].
Qed.

Lemma childDescendants_sorted pp l :
  Forall (fun c => forall pp, StronglySorted before (descendants pp c)) l ->
  forall i, StronglySorted before (childDescendants pp i l).
Proof.
  induction 1 as [| c r Hc Hr IH]; intros i; simpl.
  - constructor.
  - destruct c as [d | t eid ks]; [apply IH|].
    apply (StronglySorted_app before
             (mkElem pp i t eid ks r :: descendants (pp ++ [i]) (Element t eid ks))
             (childDescendants pp (S i) r)).
    split; [|split].
    + intros x1 x2 H1 H2.
      destruct (childDescendants_position _ _ _ _ H2) as (j & q2 & Hj & Hp2).
      assert (Hp1 : exists q1, position x1 = (pp ++ i :: q1)%list).
      { apply elem_of_cons in H1 as [-> | H1]; [exists []; reflexivity|].
        destruct (descendants_position _ _ _ H1) as (q & Hp & _).
        exists q. rewrite Hp, <- app_assoc. reflexivity. }
      destruct Hp1 as (q1 & Hp1).
      unfold before, precedes. rewrite Hp1, Hp2, pathBefore_app.
      apply pathBefore_lt. lia.
    + apply StronglySorted_cons. split; [|apply Hc].
      apply Forall_forall. intros x Hx.
      destruct (descendants_position _ _ _ Hx) as (q & Hp & Hq).
      unfold before, precedes. rewrite Hp.
      change (position (mkElem pp i t eid ks r)) with (pp ++ [i])%list.
      rewrite <- (app_nil_r (pp ++ [i])) at 1. rewrite pathBefore_app.
      now apply pathBefore_below.
    + apply IH.
Qed.

Lemma descendants_sorted n :
  forall pp, StronglySorted before (descendants pp n).
Proof.
  induction n as [d | t eid children IH] using Node_forall_ind; intros pp.
  - constructor.
  - rewrite descendants_element. now apply childDescendants_sorted.
Qed.

Lemma filter_sorted (P : Elem -> Prop) `{forall x, Decision (P x)} l :
  StronglySorted before l -> StronglySorted before (filter P l).
Proof.
  induction 1 as [| x l Hs IH Hx]; [constructor|].
  rewrite filter_cons. destruct (decide (P x)); [|exact IH].
  constructor; [exact IH|].
  apply Forall_forall. intros y Hy. apply list_elem_of_filter in Hy as [_ Hy].
  rewrite Forall_forall in Hx. now apply Hx.
Qed.

Lemma insertSorted_last x acc :
  (forall a, a ∈ acc -> before a x) ->
  HeadingParserService.insertSorted x acc = (acc ++ [x])%list.
Proof.
  induction acc as [| y r IH]; intros H; simpl; [reflexivity|].
  rewrite (H y) by apply list_elem_of_here. simpl.
  f_equal. apply IH. intros a Ha. apply H. now apply list_elem_of_further.
Qed.

Lemma sortByDocumentOrder_sorted l :
  StronglySorted before l -> HeadingParserService.sortByDocumentOrder l = l.
Proof.
  unfold HeadingParserService.sortByDocumentOrder.
  assert (G : forall acc,
             StronglySorted before (acc ++ l) ->
             fold_left (fun sorted x => HeadingParserService.insertSorted x sorted)
               l acc = (acc ++ l)%list).
  { induction l as [| x r IH]; intros acc Hs; simpl.
    - now rewrite app_nil_r.
    - rewrite insertSorted_last.
      + rewrite IH; rewrite <- app_assoc; [reflexivity | exact Hs].
      + intros a Ha.
        eapply (StronglySorted_app_1_elem_of before acc (x :: r)); eauto.
        apply list_elem_of_here. }
  intros Hs. now apply (G []).
Qed.

(** The sort of [findHeadingElements] finds the query result already
    in document order. *)
Lemma findHeadingElements_document_order container :
  HeadingParserService.findHeadingElements container = queryHeadings container
  /\ StronglySorted before (queryHeadings container).
Proof.
  assert (Hs : StronglySorted before (queryHeadings container))
    by (apply filter_sorted, descendants_sorted).
  split; [|exact Hs].
  unfold HeadingParserService.findHeadingElements.
  now apply sortByDocumentOrder_sorted.
Qed.

End DocumentOrder.

Module SectionBoundary.

Import Dom Spec DomFacts ParserFacts.

Lemma applyContentLimit_within (max : Z) (html : string) :
  Js.strlen html <= max -> HeadingParser.applyContentLimit max html = html.
Proof.
  intros H. unfold HeadingParser.applyContentLimit.
  destruct (Js.strlen html >? max) eqn:E.
  - apply Z.gtb_lt in E. lia.
  - now rewrite andb_false_r.
Qed.

Lemma collectUntil_prefix (stop : Elem -> bool) between next rest :
  Forall (fun e => stop e = false) between ->
  stop next = true ->
  HeadingParser.collectUntil stop (between ++ next :: rest) = between.
Proof.
  induction between as [| c between IH]; intros Hb Hn; simpl.
  - now rewrite Hn.
  - inversion Hb as [| ? ? Hc Hb']; subst. rewrite Hc. f_equal. now apply IH.
Qed.

Lemma collectUntil_all (stop : Elem -> bool) l :
  Forall (fun e => stop e = false) l -> HeadingParser.collectUntil stop l = l.
Proof.
  induction l as [| c l IH]; intros Hl; simpl; [reflexivity|].
  inversion Hl as [| ? ? Hc Hl']; subst. rewrite Hc. f_equal. now apply IH.
Qed.

Lemma innerHTMLOf_cons (outerHTML : Node -> string) heading span :
  HeadingParser.innerHTMLOf outerHTML (heading :: span)
  = outerHTML (nodeOf heading)
    ++ String.concat "" (map (fun e => outerHTML (nodeOf e)) span).
Proof.
  unfold HeadingParser.innerHTMLOf. cbn [map].
  destruct (map (fun e => outerHTML (nodeOf e)) span) as [| x xs].
  - cbn [String.concat]. generalize (outerHTML (nodeOf heading)).
    intros s. induction s as [| c r IH]; [reflexivity|].
    change (String c r ++ "") with (String c (r ++ "")). now rewrite <- IH.
  - reflexivity.
Qed.

(** C1.  For a heading of level [L] among the headings of a container,
    the content of its section is the markup of the heading itself
    (with [includeHeadingInContent], the default) followed by the markup
    of its following sibling elements in order, up to but excluding the
    first one that is a heading of level at most [L]: [span] is that
    run of siblings, it is the only one (it ends before the first
    sibling that ends the section, and takes every sibling if none
    does), and the content both parsers return is [markup], the
    concatenated markup of [heading :: span], cut by the length cap
    when longer than the maximum.  Only the siblings of the heading are
    looked at.  The headings are taken in document order (the sort of
    the parsing service leaves the query result as it is).  For the
    container whose children are H2 "A", a paragraph, H3 "B", a
    paragraph and H2 "C", both parsers produce three sections, two of
    level 2: "A", which runs up to but excluding "C" and contains the
    H3 "B" and what follows it, and "C", whose content is its heading
    alone. *)
Theorem extractSectionContent_section_span
    (outerHTML : Node -> string) (container : Node) (heading : Elem) (L : Z) :
  heading ∈ queryHeadings container ->
  HeadingSection.getHeadingLevelFromTag (tag heading) = Some L ->
  (exists span rest,
      nextElementSiblings heading = (span ++ rest)%list
      /\ Forall (fun e => ~ endsSection L e) span
      /\ (rest = [] \/ exists b r, rest = b :: r /\ endsSection L b)
      /\ (forall between next others,
            nextElementSiblings heading = (between ++ next :: others)%list ->
            Forall (fun e => ~ endsSection L e) between ->
            endsSection L next ->
            span = between)
      /\ (Forall (fun e => ~ endsSection L e) (nextElementSiblings heading) ->
          span = nextElementSiblings heading)
      /\ let markup :=
           outerHTML (nodeOf heading)
           ++ String.concat "" (map (fun e => outerHTML (nodeOf e)) span) in
         (forall options,
            HeadingParser.includeHeadingInContent options = true ->
            HeadingParser.sectionElements options heading = heading :: span
            /\ HeadingParser.extractSectionContent outerHTML options heading
               = HeadingParser.applyContentLimit
                   (HeadingParser.maxContentLength options) markup
            /\ (Js.strlen markup <= HeadingParser.maxContentLength options ->
                HeadingParser.extractSectionContent outerHTML options heading
                = markup))
         /\ (forall options i,
               HeadingParserService.includeHeadingInContent options = true ->
               HeadingParserService.findHeadingElements container !! i
               = Some heading ->
               HeadingParserService.sectionNodes options heading
                 (HeadingParserService.findHeadingElements container) i L
               = heading :: span
               /\ HeadingParserService.extractSectionContent outerHTML options
                    heading
                    (HeadingParserService.findHeadingElements container) i L
                  = HeadingParser.applyContentLimit
                      (HeadingParserService.maxContentLength options) markup
               /\ (Js.strlen markup
                     <= HeadingParserService.maxContentLength options ->
                   HeadingParserService.extractSectionContent outerHTML options
                     heading
                     (HeadingParserService.findHeadingElements container) i L
                   = markup)))
  /\ HeadingParserService.findHeadingElements container = queryHeadings container
  /\ StronglySorted before (queryHeadings container)
  /\ map summary
       (HeadingParser.sections
          (HeadingParser.parseFromContainer simpleOuterHTML anyUrl fixedId 0
             (HeadingParser.constructor HeadingParser.noOptions)
             containerABC "https://deepwiki.com/a/b"))
     = [ (2, "A", "<h2>A</h2><p>a</p><h3>B</h3><p>b</p>");
         (3, "B", "<h3>B</h3><p>b</p>");
         (2, "C", "<h2>C</h2>") ]
  /\ map summary
       (HeadingParser.sections
          (HeadingParserService.parseFromElement simpleOuterHTML anyUrl fixedId 0
             noSelector
             (HeadingParserService.constructor HeadingParser.noOptions)
             containerABC "https://deepwiki.com/a/b"))
     = [ (2, "A", "<h2>A</h2><p>a</p><h3>B</h3><p>b</p>");
         (3, "B", "<h3>B</h3><p>b</p>");
         (2, "C", "<h2>C</h2>") ].
Proof.
  intros Hin HL.
  split; [| split; [apply DocumentOrder.findHeadingElements_document_order |
            split; [apply DocumentOrder.findHeadingElements_document_order |
                    split; vm_compute; reflexivity]]].
  destruct (collectUntil_split (HeadingParser.reachesBoundary (Some L))
              (nextElementSiblings heading))
    as (span & rest & Hl & Hc & Hs & Hr).
  exists span, rest. split; [exact Hl|]. split; [|split; [|split; [|split]]].
  - eapply Forall_impl; [exact Hs|]. intros e He. now apply reachesBoundary_false.
  - destruct Hr as [-> | (b & r & -> & Hb)]; [now left | right].
    exists b, r. split; [reflexivity | now apply reachesBoundary_spec].
  - intros between next others Hsplit Hbetween Hnext.
    rewrite <- Hc, Hsplit. apply collectUntil_prefix.
    + eapply Forall_impl; [exact Hbetween|]. intros e He.
      now apply reachesBoundary_false.
    + now apply reachesBoundary_spec.
  - intros Hnone. rewrite <- Hc. apply collectUntil_all.
    eapply Forall_impl; [exact Hnone|]. intros e He.
    now apply reachesBoundary_false.
  - intros markup.
    assert (Hmarkup : HeadingParser.innerHTMLOf outerHTML (heading :: span) = markup).
    { unfold markup. apply innerHTMLOf_cons. }
    split.
    + intros options Hinc.
      assert (Hel : HeadingParser.sectionElements options heading = heading :: span).
      { unfold HeadingParser.sectionElements. rewrite Hinc, HL, Hc. reflexivity. }
      split; [exact Hel|].
      unfold HeadingParser.extractSectionContent. rewrite Hel, Hmarkup.
      split; [reflexivity|]. apply applyContentLimit_within.
    + intros options i Hinc Hi.
      assert (Hel : HeadingParserService.sectionNodes options heading
                      (HeadingParserService.findHeadingElements container) i L
                    = heading :: span).
      { unfold HeadingParserService.sectionNodes. rewrite Hinc. simpl. f_equal.
        rewrite <- Hc. apply collectUntil_ext. intros c Hcin.
        apply (stopsAt_reachesBoundary container).
        - apply findHeadingElements_inTree.
        - eapply nextElementSiblings_inTree; [|exact Hcin].
          now apply queryHeadings_inTree. }
      split; [exact Hel|].
      assert (Hcontent :
                HeadingParserService.extractSectionContent outerHTML options heading
                  (HeadingParserService.findHeadingElements container) i L
                = HeadingParser.applyContentLimit
                    (HeadingParserService.maxContentLength options) markup).
      { unfold HeadingParserService.extractSectionContent. rewrite Hel.
        unfold HeadingParserService.nodesToHtmlString. now rewrite Hmarkup. }
      split; [exact Hcontent|].
      intros Hwithin. rewrite Hcontent. now apply applyContentLimit_within.
Qed.

Lemma extractSectionContent_section_span_witness :
  HeadingParser.extractSectionContent simpleOuterHTML
    (HeadingParser.constructor HeadingParser.noOptions) headingA
  = "<h2>A</h2><p>a</p><h3>B</h3><p>b</p>".
Proof.
  assert (Hin : headingA ∈ queryHeadings containerABC)
    by (vm_compute; apply list_elem_of_here).
  assert (HL : HeadingSection.getHeadingLevelFromTag (tag headingA) = Some 2)
    by reflexivity.
  destruct (proj1 (extractSectionContent_section_span simpleOuterHTML
                     containerABC headingA 2 Hin HL))
    as (span & rest & Hl & Hs & Hr & _ & _ & Hfirst & _).
  destruct (Hfirst (HeadingParser.constructor HeadingParser.noOptions) eq_refl)
    as (Hel & _ & _).
  unfold HeadingParser.extractSectionContent. rewrite Hel.
  vm_compute in Hel. injection Hel as <-. reflexivity.
Defined.

(** The claim as first stated fails for headings that are not
    siblings.  The container of [containerWrappedA] has the headings
    H2 "A", H3 "B", H2 "C" in this order, but "A" sits inside a
    wrapper: its section ends with the wrapper and holds nothing of
    "B".  In [containerWrappedC] the heading "C" sits inside a later
    sibling of "A": it does not end the section of "A", which takes the
    whole sibling with "C" in it and the paragraph after it.  Both
    parsers agree. *)
Lemma headings_need_not_be_siblings :
  map headingSummary (queryHeadings containerWrappedA)
  = [ (Some 2, "A"); (Some 3, "B"); (Some 2, "C") ]
  /\ map summary
       (HeadingParser.sections
          (HeadingParser.parseFromContainer simpleOuterHTML anyUrl fixedId 0
             (HeadingParser.constructor HeadingParser.noOptions)
             containerWrappedA "https://deepwiki.com/a/b"))
     = [ (2, "A", "<h2>A</h2><p>a</p>");
         (3, "B", "<h3>B</h3><p>b</p>");
         (2, "C", "<h2>C</h2>") ]
  /\ map summary
       (HeadingParser.sections
          (HeadingParserService.parseFromElement simpleOuterHTML anyUrl fixedId 0
             noSelector
             (HeadingParserService.constructor HeadingParser.noOptions)
             containerWrappedA "https://deepwiki.com/a/b"))
     = [ (2, "A", "<h2>A</h2><p>a</p>");
         (3, "B", "<h3>B</h3><p>b</p>");
         (2, "C", "<h2>C</h2>") ]
  /\ map headingSummary (queryHeadings containerWrappedC)
     = [ (Some 2, "A"); (Some 2, "C") ]
  /\ map summary
       (HeadingParser.sections
          (HeadingParser.parseFromContainer simpleOuterHTML anyUrl fixedId 0
             (HeadingParser.constructor HeadingParser.noOptions)
             containerWrappedC "https://deepwiki.com/a/b"))
     = [ (2, "A", "<h2>A</h2><p>a</p><div><h2>C</h2></div><p>z</p>");
         (2, "C", "<h2>C</h2>") ]
  /\ map summary
       (HeadingParser.sections
          (HeadingParserService.parseFromElement simpleOuterHTML anyUrl fixedId 0
             noSelector
             (HeadingParserService.constructor HeadingParser.noOptions)
             containerWrappedC "https://deepwiki.com/a/b"))
     = [ (2, "A", "<h2>A</h2><p>a</p><div><h2>C</h2></div><p>z</p>");
         (2, "C", "<h2>C</h2>") ].
Proof. vm_compute. repeat split. Qed.

End SectionBoundary.

Module ContentCap.

Import Dom Spec.

Lemma substring0_prefix (s : string) (n : nat) :
  (n <= String.length s)%nat ->
  exists tail,
    s = String.substring 0 n s ++ tail
    /\ String.length (String.substring 0 n s) = n.
Proof.
  revert s. induction n as [| n IH]; intros s Hn.
  - exists s. destruct s; simpl; auto.
  - destruct s as [| c r]; simpl in *; [lia|].
    destruct (IH r ltac:(lia)) as (tail & Hr & Hlen).
    exists tail. split.
    + change (String c r = String c (String.substring 0 n r ++ tail)).
      f_equal. exact Hr.
    + f_equal. exact Hlen.
Qed.

Lemma substring0_first (max : Z) (s : string) :
  0 <= max <= Js.strlen s ->
  exists tail,
    s = Js.substring0 max s ++ tail /\ Js.strlen (Js.substring0 max s) = max.
Proof.
  intros H. unfold Js.substring0, Js.strlen in *.
  destruct (substring0_prefix s (Z.to_nat max) ltac:(lia)) as (tail & Hs & Hl).
  exists tail. split; [exact Hs | rewrite Hl; lia].
Qed.

Lemma applyContentLimit_over (max : Z) (html : string) :
  0 < max < Js.strlen html ->
  HeadingParser.applyContentLimit max html = Js.substring0 max html ++ "...".
Proof.
  intros H. unfold HeadingParser.applyContentLimit.
  replace (max =? 0) with false by (symmetry; apply Z.eqb_neq; lia).
  replace (Js.strlen html >? max) with true by (symmetry; apply Z.gtb_lt; lia).
  reflexivity.
Qed.

Lemma nodesToHtmlString_limit outerHTML options nodes :
  0 <= HeadingParserService.maxContentLength options ->
  HeadingParserService.nodesToHtmlString outerHTML options nodes
  = HeadingParser.applyContentLimit (HeadingParserService.maxContentLength options)
      (HeadingParser.innerHTMLOf outerHTML nodes).
Proof.
  intros Hmax.
  unfold HeadingParserService.nodesToHtmlString, HeadingParser.applyContentLimit.
  destruct nodes as [| n r]; [|reflexivity].
  replace (Js.strlen (HeadingParser.innerHTMLOf outerHTML []) >?
           HeadingParserService.maxContentLength options) with false.
  - now rewrite andb_false_r.
  - symmetry. rewrite Z.gtb_ltb. apply Z.ltb_ge. exact Hmax.
Qed.

(** C9, as the code has it.  With a positive maximum length (50,000
    unless configured), markup longer than the maximum becomes its first
    [maxContentLength] characters followed by ["..."], and markup at or
    below the maximum is returned unchanged; both are values of total
    functions, so nothing is thrown.  A configured maximum of 0 is not a
    cap: [HeadingParser] then leaves markup of any length unchanged, and
    the parsing service uses the default 50,000. *)
Theorem content_length_cap (outerHTML : Node -> string) (max : Z) :
  (0 < max ->
     (forall options heading,
        HeadingParser.maxContentLength options = max ->
        let markup :=
          HeadingParser.innerHTMLOf outerHTML
            (HeadingParser.sectionElements options heading) in
        (max < Js.strlen markup ->
           HeadingParser.extractSectionContent outerHTML options heading
           = Js.substring0 max markup ++ "..."
           /\ exists tail,
               markup = Js.substring0 max markup ++ tail
               /\ Js.strlen (Js.substring0 max markup) = max)
        /\ (Js.strlen markup <= max ->
            HeadingParser.extractSectionContent outerHTML options heading = markup))
     /\ (forall options nodes,
           HeadingParserService.maxContentLength options = max ->
           let html := HeadingParser.innerHTMLOf outerHTML nodes in
           (max < Js.strlen html ->
              HeadingParserService.nodesToHtmlString outerHTML options nodes
              = Js.substring0 max html ++ "..."
              /\ exists tail,
                  html = Js.substring0 max html ++ tail
                  /\ Js.strlen (Js.substring0 max html) = max)
           /\ (Js.strlen html <= max ->
               HeadingParserService.nodesToHtmlString outerHTML options nodes = html)))
  /\ HeadingParser.maxContentLength (HeadingParser.constructor HeadingParser.noOptions)
     = 50000
  /\ HeadingParserService.maxContentLength
       (HeadingParserService.constructor HeadingParser.noOptions) = 50000
  /\ (forall heading,
        HeadingParser.extractSectionContent outerHTML
          (HeadingParser.constructor zeroMaximum) heading
        = HeadingParser.innerHTMLOf outerHTML
            (HeadingParser.sectionElements
               (HeadingParser.constructor zeroMaximum) heading))
  /\ HeadingParserService.maxContentLength
       (HeadingParserService.constructor zeroMaximum) = 50000.
Proof.
  split; [| repeat split].
  intros Hpos. split.
  - intros options heading Hmax markup. unfold HeadingParser.extractSectionContent.
    fold markup. rewrite Hmax. split.
    + intros Hlong. split.
      * apply applyContentLimit_over. lia.
      * apply substring0_first. lia.
    + apply SectionBoundary.applyContentLimit_within.
  - intros options nodes Hmax html. rewrite nodesToHtmlString_limit by lia.
    fold html. rewrite Hmax. split.
    + intros Hlong. split.
      * apply applyContentLimit_over. lia.
      * apply substring0_first. lia.
    + apply SectionBoundary.applyContentLimit_within.
Qed.

Lemma content_length_cap_witness :
  HeadingParser.extractSectionContent simpleOuterHTML
    (HeadingParser.constructor maximumFive) headingA
  = "<h2>A...".
Proof.
  pose proof (proj1 (content_length_cap simpleOuterHTML 5) ltac:(lia)) as [H _].
  destruct (H (HeadingParser.constructor maximumFive) headingA eq_refl) as [Hover _].
  destruct Hover as [Heq _]; [vm_compute; reflexivity|].
  rewrite Heq. vm_compute. reflexivity.
Defined.

(** With [{ maxContentLength: 0 }] the ten characters of [<h2>A</h2>]
    exceed the configured maximum and are returned whole. *)
Lemma zero_maximum_is_not_a_cap :
  let options := HeadingParser.constructor zeroMaximum in
  let heading := mkElem [] 0 "H2" "" [Text "A"] [] in
  let markup :=
    HeadingParser.innerHTMLOf simpleOuterHTML
      (HeadingParser.sectionElements options heading) in
  HeadingParser.maxContentLength options < Js.strlen markup
  /\ HeadingParser.extractSectionContent simpleOuterHTML options heading = "<h2>A</h2>"
  /\ HeadingParser.extractSectionContent simpleOuterHTML options heading
     <> Js.substring0 (HeadingParser.maxContentLength options) markup ++ "...".
Proof.
  vm_compute. repeat split; discriminate.
Qed.

End ContentCap.

Module FailureIsolation.

Import Dom Spec.

Section FirstParser.

Variable outerHTML : Node -> string.
Variable validUrl : string -> bool.
Variable gen : string -> Z -> string -> string.
Variable now : Z.
Variable options : HeadingParser.Options.
Variable sourceUrl : string.

Local Abbreviation parse1 := (Spec.parse1 outerHTML validUrl gen now options sourceUrl).

Lemma parseLoop_spec headings :
  forall i sections warnings,
    HeadingParser.parseLoop outerHTML validUrl gen now options sourceUrl i headings
      sections warnings
    = ((sections ++ parsedSections parse1 i headings)%list,
       (warnings ++ parseWarnings warn1 parse1 i headings)%list).
Proof.
  induction headings as [| heading rest IH]; intros i sections warnings; simpl.
  - now rewrite !app_nil_r.
  - change (HeadingParser.parseHeadingSection outerHTML validUrl gen now options
              heading sourceUrl) with (parse1 i heading).
    destruct (parse1 i heading).
    + rewrite IH, <- app_assoc. reflexivity.
    + rewrite IH, <- app_assoc. reflexivity.
Qed.

End FirstParser.

Section Service.

Variable outerHTML : Node -> string.
Variable validUrl : string -> bool.
Variable gen : string -> Z -> string -> string.
Variable now : Z.
Variable options : HeadingParserService.Options.
Variable sourceUrl : string.
Variable allHeadings : list Elem.

Local Abbreviation parse2 :=
  (Spec.parse2 outerHTML validUrl gen now options sourceUrl allHeadings).

Lemma service_parseLoop_spec headings :
  forall i sections warnings,
    HeadingParserService.parseLoop outerHTML validUrl gen now options sourceUrl
      allHeadings i headings sections warnings
    = ((sections ++ parsedSections parse2 i headings)%list,
       (warnings ++ parseWarnings warn2 parse2 i headings)%list).
Proof.
  induction headings as [| heading rest IH]; intros i sections warnings; simpl.
  - now rewrite !app_nil_r.
  - change (HeadingParserService.parseHeadingSection outerHTML validUrl gen now
              options heading allHeadings i sourceUrl) with (parse2 i heading).
    destruct (parse2 i heading).
    + rewrite IH, <- app_assoc. reflexivity.
    + rewrite IH, <- app_assoc. reflexivity.
Qed.

End Service.

Section Generic.

Context {A : Type}.
Variable parse : nat -> A -> Outcome HeadingSection.t.
Variable warn : nat -> Exn -> string.

Lemma parsed_lengths l :
  forall i,
    (length (parsedSections parse i l) + length (parseWarnings warn parse i l)
     = length l)%nat.
Proof.
  induction l as [| x r IH]; intros i; simpl; [reflexivity|].
  destruct (parse i x); simpl; rewrite <- (IH (S i)); lia.
Qed.

(** Every heading is accounted for, whatever happened to the others. *)
Lemma parsed_each l :
  forall i k x,
    l !! k = Some x ->
    match parse (i + k) x with
    | Ok s => s ∈ parsedSections parse i l
    | Throw e => warn (i + k) e ∈ parseWarnings warn parse i l
    end.
Proof.
  induction l as [| y r IH]; intros i k x Hk; [discriminate|].
  destruct k as [| k]; simpl in Hk.
  - injection Hk as ->. rewrite Nat.add_0_r. simpl.
    destruct (parse i x); apply list_elem_of_here.
  - specialize (IH (S i) k x Hk).
    replace (i + S k)%nat with (S i + k)%nat by lia.
    destruct (parse (S i + k)%nat x); cbn [parsedSections parseWarnings];
      destruct (parse i y); try apply list_elem_of_further; exact IH.
Qed.

End Generic.

Lemma empty_title_fails outerHTML validUrl gen now options heading sourceUrl :
  Js.trim (elemText heading) = "" ->
  exists error,
    HeadingParser.parseHeadingSection outerHTML validUrl gen now options heading
      sourceUrl = Throw error.
Proof.
  intros Hempty. unfold HeadingParser.parseHeadingSection.
  destruct (HeadingSection.getHeadingLevelFromTag (tag heading)) as [level|]; [|eauto].
  unfold HeadingSection.createHeadingSection, HeadingSection.validateRequiredFields,
    bind. simpl.
  destruct (HeadingSection.validateHeadingLevel level); [|eauto].
  destruct (HeadingSection.validateTagName (tag heading) level); [|eauto].
  unfold HeadingParser.extractTitleText. rewrite Hempty. simpl. eauto.
Qed.

Lemma empty_content_fails outerHTML validUrl gen now options heading sourceUrl :
  HeadingParser.sectionElements options heading = [] ->
  0 <= HeadingParser.maxContentLength options ->
  exists error,
    HeadingParser.parseHeadingSection outerHTML validUrl gen now options heading
      sourceUrl = Throw error.
Proof.
  intros Hnone Hmax. unfold HeadingParser.parseHeadingSection.
  destruct (HeadingSection.getHeadingLevelFromTag (tag heading)) as [level|]; [|eauto].
  assert (Hcontent :
    HeadingParser.extractSectionContent outerHTML options heading = "").
  { unfold HeadingParser.extractSectionContent. rewrite Hnone.
    apply SectionBoundary.applyContentLimit_within. exact Hmax. }
  unfold HeadingSection.createHeadingSection, HeadingSection.validateRequiredFields,
    bind. simpl.
  destruct (HeadingSection.validateHeadingLevel level); [|eauto].
  destruct (HeadingSection.validateTagName (tag heading) level); [|eauto].
  rewrite Hcontent.
  destruct (Js.truthy (Js.trim (HeadingParser.extractTitleText heading)));
    simpl; eauto.
Qed.

End FailureIsolation.

Module FailureIsolationTheorem.

Import Dom Spec FailureIsolation.

(** C5.  A heading whose section cannot be built (an empty title, an
    empty content, any thrown error) costs one warning naming it and
    yields no section; every other heading of the container is still
    parsed, in order, and the parse of the container returns a result
    whatever the headings are.  This holds of [parseFromContainer] and
    of [parseFromElement].  A title is empty when nothing is left of it
    once trimmed: a heading that holds a no-break space only fails like
    one that holds a space. *)
Theorem parse_isolates_failing_headings
    (outerHTML : Node -> string) (validUrl : string -> bool)
    (gen : string -> Z -> string -> string) (now : Z) (sourceUrl : string) :
  (forall options container,
     let headings := queryHeadings container in
     let result :=
       HeadingParser.parseFromContainer outerHTML validUrl gen now options
         container sourceUrl in
     let parse := parse1 outerHTML validUrl gen now options sourceUrl in
     (forall k heading,
        headings !! k = Some heading ->
        match parse k heading with
        | Ok section => section ∈ HeadingParser.sections result
        | Throw error =>
            "Failed to parse heading " ++ Js.ofNat (k + 1) ++ ": "
            ++ exnMessage error ∈ HeadingParser.warnings result
        end)
     /\ HeadingParser.sections result = parsedSections parse 0 headings
     /\ HeadingParser.warnings result = parseWarnings warn1 parse 0 headings
     /\ (length (HeadingParser.sections result)
         + length (HeadingParser.warnings result) = length headings)%nat
     /\ (forall k heading,
           Js.trim (elemText heading) = "" -> exists error,
             parse k heading = Throw error)
     /\ (forall k heading,
           HeadingParser.sectionElements options heading = [] ->
           0 <= HeadingParser.maxContentLength options ->
           exists error, parse k heading = Throw error))
  /\ (forall querySelector options rootElement,
        let found :=
          HeadingParserService.findContentContainer querySelector options
            rootElement in
        let container := match found with Some c => c | None => rootElement end in
        let headings := HeadingParserService.findHeadingElements container in
        let result :=
          HeadingParserService.parseFromElement outerHTML validUrl gen now
            querySelector options rootElement sourceUrl in
        let parse := parse2 outerHTML validUrl gen now options sourceUrl headings in
        (forall k heading,
           headings !! k = Some heading ->
           match parse k heading with
           | Ok section => section ∈ HeadingParser.sections result
           | Throw error => warn2 k error ∈ HeadingParser.warnings result
           end)
        /\ HeadingParser.sections result = parsedSections parse 0 headings
        /\ (exists preamble,
              HeadingParser.warnings result
              = (preamble ++ parseWarnings warn2 parse 0 headings)%list)
        /\ (forall k heading,
              Js.trim (elemText heading) = "" -> exists error,
                parse k heading = Throw error))
  /\ (let result :=
        HeadingParser.parseFromContainer simpleOuterHTML anyUrl fixedId 0
          (HeadingParser.constructor HeadingParser.noOptions)
          containerBlankTitle "https://deepwiki.com/a/b" in
      map summary (HeadingParser.sections result)
      = [ (2, "A", "<h2>A</h2><p>a</p>"); (2, "C", "<h2>C</h2>") ]
      /\ HeadingParser.warnings result
         = [ "Failed to parse heading 2: Title text is required" ])
  /\ (let result :=
        HeadingParser.parseFromContainer simpleOuterHTML anyUrl fixedId 0
          (HeadingParser.constructor HeadingParser.noOptions)
          containerNbspTitle "https://deepwiki.com/a/b" in
      map summary (HeadingParser.sections result)
      = [ (2, "A", "<h2>A</h2><p>a</p>"); (2, "C", "<h2>C</h2>") ]
      /\ HeadingParser.warnings result
         = [ "Failed to parse heading 2: Title text is required" ])
  /\ (let result :=
        HeadingParserService.parseFromElement simpleOuterHTML anyUrl fixedId 0
          noSelector (HeadingParserService.constructor HeadingParser.noOptions)
          containerNbspTitle "https://deepwiki.com/a/b" in
      map summary (HeadingParser.sections result)
      = [ (2, "A", "<h2>A</h2><p>a</p>"); (2, "C", "<h2>C</h2>") ]
      /\ HeadingParser.warnings result
         = [ "Could not find main content container, using document body";
             "Failed to parse heading at index 1: Heading element has no text content" ]).
Proof.
  split; [|split; [|split; [|split]]].
  - intros options container headings result parse.
    assert (Hs : HeadingParser.sections result = parsedSections parse 0 headings
                 /\ HeadingParser.warnings result
                    = parseWarnings warn1 parse 0 headings).
    { unfold result, HeadingParser.parseFromContainer.
      fold headings. rewrite parseLoop_spec. simpl. auto. }
    destruct Hs as [Hs Hw]. rewrite Hs, Hw.
    split; [|split; [|split; [|split; [|split]]]]; auto.
    + intros k heading Hk.
      pose proof (parsed_each parse warn1 headings 0 k heading Hk) as H.
      simpl in H. exact H.
    + apply parsed_lengths.
    + intros k heading Hempty. unfold parse, parse1.
      now apply empty_title_fails.
    + intros k heading Hnone Hmax. unfold parse, parse1.
      now apply empty_content_fails.
  - intros querySelector options rootElement found container headings result parse.
    assert (Hs : HeadingParser.sections result = parsedSections parse 0 headings
                 /\ exists preamble,
                     HeadingParser.warnings result
                     = (preamble ++ parseWarnings warn2 parse 0 headings)%list).
    { unfold result, HeadingParserService.parseFromElement.
      fold found. fold container. fold headings.
      destruct headings as [| x r] eqn:E.
      - simpl. split; [reflexivity|]. eexists. now rewrite app_nil_r.
      - rewrite service_parseLoop_spec. simpl. split; [reflexivity|]. eauto. }
    destruct Hs as [Hs (preamble & Hw)]. rewrite Hs, Hw.
    split; [|split; [|split]]; eauto.
    + intros k heading Hk.
      pose proof (parsed_each parse warn2 headings 0 k heading Hk) as H.
      simpl in H. destruct (parse k heading); [exact H|].
      apply elem_of_app. now right.
    + intros k heading Hempty. unfold parse, parse2,
        HeadingParserService.parseHeadingSection,
        HeadingParserService.extractTitleText.
      destruct (HeadingSection.getHeadingLevelFromTag (tag heading)); [|eauto].
      rewrite Hempty. cbn. eauto.
  - vm_compute. auto.
  - vm_compute. auto.
  - vm_compute. auto.
Qed.

Lemma parse_isolates_failing_headings_witness :
  let result :=
    HeadingParser.parseFromContainer simpleOuterHTML anyUrl fixedId 0
      (HeadingParser.constructor HeadingParser.noOptions)
      containerBlankTitle "https://deepwiki.com/a/b" in
  "Failed to parse heading 2: Title text is required"
    ∈ HeadingParser.warnings result
  /\ length (HeadingParser.sections result) = 2%nat.
Proof.
  pose proof (proj1 (parse_isolates_failing_headings simpleOuterHTML anyUrl
                       fixedId 0 "https://deepwiki.com/a/b")
                (HeadingParser.constructor HeadingParser.noOptions)
                containerBlankTitle) as (Heach & Hs & _).
  split.
  - exact (Heach 1%nat (mkElem [] 2 "H2" "" [Text " "] [para "b"; h "2" "C"])
             eq_refl).
  - rewrite Hs. reflexivity.
Defined.

End FailureIsolationTheorem.

(** ** The validator: duplicates by normalised title *)

Module ValidatorFacts.

Import HeadingExtractorService Spec.

Lemma filterLoop_acc ss :
  forall acc seen,
    filterLoop ss acc seen = (acc ++ filterLoop ss [] seen)%list.
Proof.
  induction ss as [| x r IH]; intros acc seen; simpl.
  - now rewrite app_nil_r.
  - destruct (isValidSection x); simpl; [|apply IH].
    case_bool_decide; [apply IH|].
    rewrite (IH (acc ++ [x])%list), (IH [x]), <- app_assoc. reflexivity.
Qed.

Lemma firstOfItsTitle_skip seen x r s :
  (isValidSection x = true -> key x ∈ seen) ->
  firstOfItsTitle seen (x :: r) s <-> firstOfItsTitle seen r s.
Proof.
  intros Hx. split.
  - intros (i & Hi & Hv & Hs & Hfirst). destruct i as [| i].
    + injection Hi as ->. exfalso. apply Hs. now apply Hx.
    + exists i. repeat split; auto.
      intros j s' Hj Hl Hv'. apply (Hfirst (S j) s'); auto. lia.
  - intros (i & Hi & Hv & Hs & Hfirst). exists (S i). repeat split; auto.
    intros j s' Hj Hl Hv'. destruct j as [| j].
    + injection Hl as <-. intros Heq. apply Hs. rewrite <- Heq. now apply Hx.
    + apply (Hfirst j s'); auto. lia.
Qed.

Lemma firstOfItsTitle_keep seen x r s :
  isValidSection x = true -> key x ∉ seen ->
  firstOfItsTitle seen (x :: r) s
  <-> s = x \/ firstOfItsTitle ({[ key x ]} ∪ seen) r s.
Proof.
  intros Hvx Hnx. split.
  - intros (i & Hi & Hv & Hs & Hfirst). destruct i as [| i].
    + injection Hi as ->. now left.
    + right. exists i. repeat split; auto.
      * assert (Hne : key x <> key s) by (apply (Hfirst 0%nat x); auto; lia).
        rewrite not_elem_of_union, not_elem_of_singleton. split; congruence.
      * intros j s' Hj Hl Hv'. apply (Hfirst (S j) s'); auto. lia.
  - intros [-> | (i & Hi & Hv & Hs & Hfirst)].
    + exists 0%nat. repeat split; auto. intros j s' Hj. lia.
    + exists (S i). repeat split; auto.
      * set_solver.
      * intros j s' Hj Hl Hv'. destruct j as [| j].
        -- injection Hl as <-. set_solver.
        -- apply (Hfirst j s'); auto. lia.
Qed.

Lemma filterLoop_elem ss :
  forall seen s, s ∈ filterLoop ss [] seen <-> firstOfItsTitle seen ss s.
Proof.
  induction ss as [| x r IH]; intros seen s; simpl.
  - split; [intros H; inversion H | intros (i & Hi & _); discriminate].
  - destruct (isValidSection x) eqn:Hv; simpl.
    + case_bool_decide as Hseen.
      * rewrite IH. symmetry. apply firstOfItsTitle_skip. auto.
      * rewrite filterLoop_acc. simpl. rewrite elem_of_cons, IH.
        symmetry. now apply firstOfItsTitle_keep.
    + rewrite IH. symmetry. apply firstOfItsTitle_skip. congruence.
Qed.

Lemma filterLoop_NoDup ss :
  forall seen, NoDup (map key (filterLoop ss [] seen)).
Proof.
  induction ss as [| x r IH]; intros seen; simpl.
  - constructor.
  - destruct (isValidSection x) eqn:Hv; simpl; [|apply IH].
    case_bool_decide as Hseen; [apply IH|].
    rewrite filterLoop_acc. simpl. apply NoDup_cons. split; [|apply IH].
    intros Hin. apply list_elem_of_fmap in Hin as (s & Hk & Hs).
    apply filterLoop_elem in Hs as (i & _ & _ & Hnot & _).
    apply Hnot. rewrite <- Hk. set_solver.
Qed.

Lemma filterLoop_sublist ss :
  forall seen, sublist (filterLoop ss [] seen) ss.
Proof.
  induction ss as [| x r IH]; intros seen; simpl.
  - constructor.
  - destruct (isValidSection x); simpl; [|apply sublist_cons, IH].
    case_bool_decide; [apply sublist_cons, IH|].
    rewrite filterLoop_acc. simpl. apply sublist_skip, IH.
Qed.

End ValidatorFacts.

Module ValidatorTheorem.

Import HeadingExtractorService ValidatorFacts Spec.

(** C4, as the code has it.  In one pass the validator keeps, of the
    valid sections, the first with each normalised title (runs of
    whitespace collapsed to one space, then trimmed; letter case is
    kept) and drops the later ones: the kept sections are exactly those
    with no earlier valid section of the same normalised title, their
    normalised titles are pairwise distinct, and their order is the
    input's.  Of "Intro" and "  Intro  " it keeps the first only, and
    so of "Getting Started" and the same words with a no-break space
    between them; "Intro" and "  intro  " differ in case and are both
    kept. *)
Theorem validateAndFilterSections_keeps_first (sections : list HeadingSection.t) :
  (forall s,
     s ∈ validateAndFilterSections sections
     <-> exists i,
          sections !! i = Some s
          /\ isValidSection s = true
          /\ forall j s', (j < i)%nat -> sections !! j = Some s' ->
               isValidSection s' = true -> key s' <> key s)
  /\ NoDup (map key (validateAndFilterSections sections))
  /\ sublist (validateAndFilterSections sections) sections
  /\ validateAndFilterSections [titled "Intro"; titled "  Intro  "]
     = [titled "Intro"]
  /\ validateAndFilterSections
       [titled "Getting Started"; titled ("Getting" ++ Js.nbsp ++ "Started")]
     = [titled "Getting Started"]
  /\ validateAndFilterSections [titled "Intro"; titled "  intro  "]
     = [titled "Intro"; titled "  intro  "].
Proof.
  unfold validateAndFilterSections. split; [|split; [|split; [|split; [|split]]]].
  - intros s. rewrite filterLoop_elem. unfold firstOfItsTitle. split.
    + intros (i & Hi & Hv & _ & Hf). eauto.
    + intros (i & Hi & Hv & Hf). exists i. repeat split; auto. set_solver.
  - apply filterLoop_NoDup.
  - apply filterLoop_sublist.
  - vm_compute. reflexivity.
  - vm_compute. reflexivity.
  - vm_compute. reflexivity.
Qed.

Lemma validateAndFilterSections_keeps_first_witness :
  titled "Usage  notes"
    ∈ validateAndFilterSections
        [titled "Usage  notes"; titled " Usage notes "; titled "Index"].
Proof.
  apply (proj1 (validateAndFilterSections_keeps_first
                  [titled "Usage  notes"; titled " Usage notes "; titled "Index"])).
  exists 0%nat. split; [reflexivity|]. split; [vm_compute; reflexivity|].
  intros j s' Hj. lia.
Defined.

(** Titles that differ in letter case are not duplicates of each other. *)
Lemma case_variants_are_both_kept :
  length (validateAndFilterSections [titled "Intro"; titled "  intro  "]) = 2%nat.
Proof. vm_compute. reflexivity. Qed.

End ValidatorTheorem.

(** ** The overlay: one control per section, however often it is refreshed *)

Module OverlayFacts.

Import Page Spec ButtonManagerService.

(** *** Button identifiers *)

Lemma append_inj_l (p x y : string) : p ++ x = p ++ y -> x = y.
Proof.
  induction p as [| c p IH]; simpl; [auto|]. intros [= H]. auto.
Qed.


Lemma string_of_uint_digits d : digitsOnly (NilEmpty.string_of_uint d).
Proof. induction d; simpl; auto. Qed.

Lemma ofNat_digits n : digitsOnly (Js.ofNat n).
Proof.
  unfold Js.ofNat, NilZero.string_of_uint.
  destruct (Nat.to_uint n); try apply (string_of_uint_digits (_ _)).
  simpl. auto.
Qed.

Lemma to_uint_nonnil n : Nat.to_uint n <> Decimal.Nil.
Proof.
  rewrite <- (DecimalNat.Unsigned.of_to n) at 1.
  rewrite DecimalNat.Unsigned.to_of. apply DecimalFacts.unorm_nonnil.
Qed.

Lemma ofNat_inj i j : Js.ofNat i = Js.ofNat j -> i = j.
Proof.
  unfold Js.ofNat. intros H.
  apply DecimalNat.Unsigned.to_uint_inj.
  assert (Hs : Some (Nat.to_uint i) = Some (Nat.to_uint j)).
  { rewrite <- (NilZero.usu _ (to_uint_nonnil i)),
            <- (NilZero.usu _ (to_uint_nonnil j)), H. reflexivity. }
  congruence.
Qed.

Lemma digits_then_dash a :
  forall b x y,
    digitsOnly a -> digitsOnly b ->
    a ++ "-" ++ x = b ++ "-" ++ y -> a = b.
Proof.
  induction a as [| c a IH]; intros [| c' b] x y Ha Hb H; simpl in *.
  - reflexivity.
  - injection H as <- _. destruct Hb as [Hd _]. vm_compute in Hd. discriminate.
  - injection H as -> _. destruct Ha as [Hd _]. vm_compute in Hd. discriminate.
  - injection H as -> H. f_equal. eapply IH; [tauto | tauto | exact H].
Qed.

(** Two sections at different positions never share a button id. *)
Lemma generateButtonId_index s s' i j :
  generateButtonId s i = generateButtonId s' j -> i = j.
Proof.
  unfold generateButtonId. intros H. apply append_inj_l in H.
  apply ofNat_inj. eapply digits_then_dash; [apply ofNat_digits.. | exact H].
Qed.

(** *** What the operations leave alone *)









End OverlayFacts.

Module OverlayLoop.

Import Page Spec ButtonManagerService OverlayFacts.




End OverlayLoop.

Module OverlayTheorem.

Import Page Spec ButtonManagerService OverlayFacts OverlayLoop.







(** Two sections that the finder resolves to one heading are not both
    located: the second finds the heading processed and is skipped. *)
Example two_sections_one_heading_share_a_control :
  let st := insertButtons [titled "Usage"; titled "Usage"] (mkState ∅ twoUsagePage) in
  getButtonCount st = 1%nat
  /\ map anchor (buttonNodes (document st)) = [20%nat].
Proof. vm_compute. auto. Qed.

End OverlayTheorem.

(** ** The monitor: bounded waiting and navigation changes *)

Module MonitorFacts.

Import SPAMonitorService Spec.









Lemma invocations_fold (url : string) (cbs : list Callback) :
  forall log,
    fold_left (invoke url) cbs log
    = (log ++ map (fun cb => (cbId cb, url)) cbs)%list.
Proof.
  induction cbs as [| cb r IH]; intros log; simpl.
  - now rewrite app_nil_r.
  - rewrite IH. unfold invoke. destruct (cbThrows cb url);
      now rewrite <- app_assoc.
Qed.

(** C7.  The navigation callbacks run only when the resolved URL
    differs from the last observed one, which then becomes that URL; a
    second notification while the URL is unchanged does nothing, so
    two notifications for one URL invoke each callback at most once. *)
Theorem checkNavigationChange_same_url_once (m : Monitor) (url : string) :
  let once := checkNavigationChange url m in
  let twice := checkNavigationChange url once in
  twice = once
  /\ lastUrl once = url
  /\ (url = lastUrl m -> once = m)
  /\ (url <> lastUrl m ->
      invocations once
      = (invocations m
         ++ map (fun cb => (cbId cb, url)) (navigationCallbacks m))%list)
  /\ exists added,
      invocations twice = (invocations m ++ added)%list
      /\ (added = []
          \/ added = map (fun cb => (cbId cb, url)) (navigationCallbacks m)).
Proof.
  intros once twice.
  assert (Hlast : lastUrl once = url).
  { unfold once, checkNavigationChange.
    destruct (Js.eqb url (lastUrl m)) eqn:E; simpl; [|reflexivity].
    apply String.eqb_eq in E. now symmetry. }
  assert (Htwice : twice = once).
  { unfold twice, checkNavigationChange at 1. rewrite Hlast.
    unfold Js.eqb. now rewrite String.eqb_refl. }
  assert (Hsame : url = lastUrl m -> once = m).
  { intros ->. unfold once, checkNavigationChange, Js.eqb.
    now rewrite String.eqb_refl. }
  assert (Hdiff : url <> lastUrl m ->
                  invocations once
                  = (invocations m
                     ++ map (fun cb => (cbId cb, url)) (navigationCallbacks m))%list).
  { intros Hne. unfold once, checkNavigationChange, Js.eqb.
    apply String.eqb_neq in Hne. rewrite Hne. simpl. apply invocations_fold. }
  repeat split; auto.
  rewrite Htwice. destruct (string_dec url (lastUrl m)) as [E | E].
  - exists []. rewrite (Hsame E), app_nil_r. auto.
  - eexists. split; [apply (Hdiff E) | auto].
Qed.

Example wait_resolves_at_first_match :
  let w :=
    run (waitForElement false None)
      [ ChildListMutation false; ChildListMutation true;
        ChildListMutation true; TimeoutElapsed ] in
  promise w = Some true
  /\ effects w
     = [ Observe; SetTimeout 10000; CallbackRan; CallbackRan; ClearTimeout;
         Disconnect; Resolve true ].
Proof. vm_compute. auto. Qed.

Example wait_times_out_and_stays_silent :
  let w :=
    run (waitForElement false (Some 5000))
      [ ChildListMutation false; TimeoutElapsed; ChildListMutation true;
        TimeoutElapsed ] in
  promise w = Some false
  /\ effects w
     = [ Observe; SetTimeout 5000; CallbackRan; Disconnect; Resolve false ].
Proof. vm_compute. auto. Qed.

Example navigation_notified_twice_invokes_once :
  invocations
    (checkNavigationChange "https://deepwiki.com/a/c"
       (checkNavigationChange "https://deepwiki.com/a/c" sampleMonitor))
  = [ (1%nat, "https://deepwiki.com/a/c"); (2%nat, "https://deepwiki.com/a/c") ].
Proof. vm_compute. reflexivity. Qed.

End MonitorFacts.

(** ** The content script: one initialisation pass at a time *)

Module InitializeFacts.

Import ContentScript Spec.

Lemma OnePass_initial url : OnePass (initial url).
Proof. left. split; reflexivity. Qed.

Lemma OnePass_invoke relevant container st :
  OnePass st -> OnePass (initialize relevant container st).
Proof.
  intros [[Hf Hi] | [Hf Hs]].
  - destruct relevant as [[|] | e]; [destruct container as [[c|] | e] | |];
      unfold_pass; rewrite Hf; simpl; rewrite ?Hi; first [idle | busy].
  - unfold initialize. rewrite Hf. right. split; assumption.
Qed.

Lemma OnePass_step st ev : OnePass st -> OnePass (step st ev).
Proof.
  intros H.
  destruct ev as [relevant container | k r | k r | k r removed inserted href];
    [now apply OnePass_invoke | | |];
    (destruct H as [[Hf Hi] | [Hf [s Hs]]];
     [ simpl; rewrite Hi, lookup_nil; left; split; assumption |]);
    (destruct k as [| k]; [| simpl; rewrite Hs; simpl; right; split; eauto]);
    destruct s; try (simpl; rewrite Hs; simpl; right; split; eauto; fail).
  - destruct r as [[|] | e]; unfold_pass; rewrite Hs; unfold_pass; rewrite ?Hs;
      simpl; first [idle | (right; split; [exact Hf | eexists; reflexivity])].
  - destruct r as [u | e]; unfold_pass; rewrite Hs; unfold_pass; rewrite ?Hs;
      simpl; first [idle | (right; split; [exact Hf | eexists; reflexivity])].
  - destruct r as [count | e];
      [destruct removed as [u | e]; [destruct inserted as [u' | e] | ] | ];
      unfold_pass; rewrite Hs; unfold_pass; rewrite ?Hs; simpl; idle.
Qed.

Lemma OnePass_run evs : forall st, OnePass st -> OnePass (run st evs).
Proof.
  unfold run. induction evs as [| ev r IH]; intros st H; simpl; [exact H|].
  apply IH. now apply OnePass_step.
Qed.

(** C8.  In every state the content script can reach, at most one
    invocation of [initialize] is in flight, and the flag
    [isInitializing] is set exactly while one is.  A call made while
    the flag is set returns at once and does nothing: no container is
    located, nothing is extracted, no control is mounted.  When the
    running pass ends, also by a thrown error or a rejected promise at
    any of its steps, the flag is clear again, and the next call
    starts a pass. *)
Theorem initialize_runs_one_pass_at_a_time (url : string) (evs : list Event) :
  let st := run (initial url) evs in
  (length (inFlight st) <= 1)%nat
  /\ (isInitializing st = true <-> length (inFlight st) = 1%nat)
  /\ (isInitializing st = true ->
      forall relevant container, step st (Invoke relevant container) = st)
  /\ (forall ev,
        inFlight (step st ev) = [] -> isInitializing (step st ev) = false)
  /\ (forall k c error,
        inFlight st !! k = Some (AwaitingHeadings c) ->
        isInitializing (step st (HeadingsSettled k (Throw error))) = false)
  /\ (forall k c error,
        inFlight st !! k = Some (AwaitingStabilization c) ->
        isInitializing (step st (StabilizationSettled k (Throw error))) = false)
  /\ (forall k c error removed inserted href,
        inFlight st !! k = Some (AwaitingExtraction c) ->
        isInitializing
          (step st (ExtractionSettled k (Throw error) removed inserted href))
        = false)
  /\ (isInitializing st = false ->
      forall c,
        let next := step st (Invoke (Ok true) (Ok (Some c))) in
        isInitializing next = true
        /\ inFlight next = [AwaitingHeadings c]
        /\ actions next
           = (actions st
              ++ [CheckRelevantPage; FindMainContentContainer; WaitForHeadings])%list).
Proof.
  intros st.
  assert (H : OnePass st) by (apply OnePass_run, OnePass_initial).
  split; [|split; [|split; [|split; [|split; [|split; [|split]]]]]].
  - destruct H as [[_ ->] | [_ [s ->]]]; simpl; lia.
  - destruct H as [[Hf ->] | [Hf [s ->]]]; rewrite Hf; simpl; split;
      congruence.
  - intros Hf relevant container. simpl. unfold initialize. now rewrite Hf.
  - intros ev Hnil.
    destruct (OnePass_step st ev H) as [[Hf _] | [_ [s Hs]]]; [exact Hf|].
    congruence.
  - intros k c error Hk. simpl. rewrite Hk. reflexivity.
  - intros k c error Hk. simpl. rewrite Hk. reflexivity.
  - intros k c error removed inserted href Hk. simpl. rewrite Hk. reflexivity.
  - intros Hf c next.
    destruct H as [[_ Hi] | [Hf' _]]; [|congruence].
    unfold next. simpl. unfold_pass. rewrite Hf. simpl.
    rewrite Hi, <- !app_assoc. repeat split; reflexivity.
Qed.

Example overlapping_calls_are_dropped :
  let st := run (initial "https://deepwiki.com/a/b") fullPass in
  isInitializing st = false
  /\ inFlight st = []
  /\ lastUrl st = "https://deepwiki.com/a/c"
  /\ actions st
     = [ CheckRelevantPage; FindMainContentContainer; WaitForHeadings;
         WaitForContentStabilization; ExtractHeadingSections;
         RemoveAddButtons; InsertAddButtons 3 ].
Proof. vm_compute. auto. Qed.

End InitializeFacts.

(** ** Adding a section: structured results, duplicates by id *)

Module UseCaseFacts.

Import AddHeadingSectionUseCase Spec.

Section WithBrowser.

Variable validUrl : string -> bool.
Variable gen : string -> Z -> string -> string.
Variable now : Z.

Local Abbreviation prepared := (Spec.prepared validUrl gen now).

Lemma execute_cases {Store} (repository : Repository Store) input (st : Store) :
  let run := execute validUrl gen now repository input st in
  match prepared input with
  | Throw error =>
      run = mkRun Store (handleError error) st [] []
  | Ok section =>
      let id := HeadingSection.sectionId section in
      match sectionExists repository st id with
      | Throw error => run = mkRun Store (handleError error) st [id] []
      | Ok true =>
          run = mkRun Store
                  (Failure INVALID_INPUT
                     ("A section with ID '" ++ id ++ "' already exists"))
                  st [id] []
      | Ok false =>
          match addSection repository st section with
          | Throw error => run = mkRun Store (handleError error) st [id] [section]
          | Ok st' => run = mkRun Store (Success id) st' [id] [section]
          end
      end
  end.
Proof.
  unfold execute, prepared.
  destruct (level <- validateInput validUrl input ;;
            createHeadingSection validUrl gen now level input) as [section | e];
    [|reflexivity].
  simpl. destruct (sectionExists repository st _) as [[|] | e]; try reflexivity.
  destruct (addSection repository st section); reflexivity.
Qed.

(** Every rejection of [validateInput] is an [InputValidationError]. *)
Lemma validateInput_throws input error :
  validateInput validUrl input = Throw error ->
  handleError error = Failure INVALID_INPUT (exnMessage error).
Proof.
  unfold validateInput, bind, guard.
  destruct (in_level input) as [z|]; [destruct ((z <? 1) || (z >? 6))|];
    try (intros [= <-]; reflexivity).
  repeat match goal with
         | |- context [if ?b then _ else _] =>
             destruct b; try (intros [= <-]; reflexivity)
         end.
  all: try discriminate.
Qed.

(** The factory and the type guard throw errors of no class that
    [handleError] knows. *)
Lemma createHeadingSection_throws level input error :
  createHeadingSection validUrl gen now level input = Throw error ->
  handleError error
  = Failure UNKNOWN_ERROR "An unexpected error occurred while adding the section".
Proof.
  unfold createHeadingSection, HeadingSection.createHeadingSection,
    HeadingSection.validateHeadingLevel, HeadingSection.validateTagName,
    HeadingSection.validateRequiredFields, bind, guard.
  repeat match goal with
         | |- context [if ?b then _ else _] =>
             destruct b; try (intros [= <-]; reflexivity)
         end.
  all: try discriminate.
Qed.

End WithBrowser.

(** C10.  [execute] always returns a result, and the result is fixed by
    the step at which the call ends.  An input that [validateInput]
    rejects is answered with [INVALID_INPUT] and the message of the
    rejection; a failure of the factory or of the type guard with
    [UNKNOWN_ERROR]; in both cases the repository is not called.  Once
    the entity is built the outcome depends on the stored ids alone:
    the call is rejected as [INVALID_INPUT] when [sectionExists]
    answers [true] for the section's id, and otherwise the section is
    handed to [addSection] and, when that returns, reported as added.
    [addSection] is called at most once, and only after validation, the
    construction and a [false] answer of [sectionExists].  An error
    thrown by either call of the repository is answered by its class:
    [STORAGE_QUOTA_EXCEEDED] for a [StorageQuotaExceededError],
    [INVALID_INPUT] with the error's message for an
    [InvalidSectionError], [REPOSITORY_ERROR] for any other
    [RepositoryError] of the repository interface, and [UNKNOWN_ERROR]
    for everything else, the errors of domain/shared among it.  The
    store is left as it was by every call that does not report
    success.  With the list-backed repository, a request for the page,
    level and title of a stored section gets its own generated id, is
    not a duplicate, and is stored beside it. *)
Theorem execute_returns_structured_result
    (validUrl : string -> bool) (gen : string -> Z -> string -> string) (now : Z)
    (Store : Type) (repository : Repository Store)
    (input : AddHeadingSectionInput) (st : Store) :
  let run := execute validUrl gen now repository input st in
  let unexpected :=
    Failure UNKNOWN_ERROR "An unexpected error occurred while adding the section" in
  (forall error,
     validateInput validUrl input = Throw error ->
     run = mkRun Store (Failure INVALID_INPUT (exnMessage error)) st [] [])
  /\ (forall level error,
        validateInput validUrl input = Ok level ->
        createHeadingSection validUrl gen now level input = Throw error ->
        run = mkRun Store unexpected st [] [])
  /\ (forall section,
        prepared validUrl gen now input = Ok section ->
        let id := HeadingSection.sectionId section in
        (forall error,
           sectionExists repository st id = Throw error ->
           run = mkRun Store (handleError error) st [id] [])
        /\ (sectionExists repository st id = Ok true ->
            run = mkRun Store
                    (Failure INVALID_INPUT
                       ("A section with ID '" ++ id ++ "' already exists"))
                    st [id] [])
        /\ (sectionExists repository st id = Ok false ->
            (forall error,
               addSection repository st section = Throw error ->
               run = mkRun Store (handleError error) st [id] [section])
            /\ (forall st',
                  addSection repository st section = Ok st' ->
                  run = mkRun Store (Success id) st' [id] [section])))
  /\ (forall message field,
        handleError (InputValidationError message field)
        = Failure INVALID_INPUT message)
  /\ (forall message,
        handleError
          (OfRepository (HeadingSectionRepository.StorageQuotaExceededError message))
        = Failure STORAGE_QUOTA_EXCEEDED
            "Storage quota exceeded. Please remove some sections and try again.")
  /\ (forall message,
        handleError
          (OfRepository (HeadingSectionRepository.InvalidSectionError message))
        = Failure INVALID_INPUT ("Invalid section: " ++ message))
  /\ (forall message sectionId,
        handleError (OfRepository (HeadingSectionRepository.RepositoryError message))
        = Failure REPOSITORY_ERROR "Failed to save section to storage"
        /\ handleError
             (OfRepository (HeadingSectionRepository.SectionNotFoundError sectionId))
           = Failure REPOSITORY_ERROR "Failed to save section to storage")
  /\ (forall message,
        handleError (RepositoryError message) = unexpected
        /\ handleError (StorageQuotaExceededError message) = unexpected
        /\ handleError (InvalidSectionError message) = unexpected
        /\ handleError (ValidationError message) = unexpected
        /\ handleError (ParseError message) = unexpected
        /\ handleError (PlainError message) = unexpected
        /\ handleError (NonError message) = unexpected)
  /\ (addCalls run = []
      \/ exists section,
          addCalls run = [section]
          /\ prepared validUrl gen now input = Ok section
          /\ sectionExists repository st (HeadingSection.sectionId section)
             = Ok false)
  /\ (forall stored : list HeadingSection.t,
        let listRun := execute validUrl gen now inMemory input stored in
        forall section,
          prepared validUrl gen now input = Ok section ->
          if existsb (fun s => Js.eqb (HeadingSection.sectionId s)
                                 (HeadingSection.sectionId section)) stored
          then result listRun
               = Failure INVALID_INPUT
                   ("A section with ID '" ++ HeadingSection.sectionId section
                    ++ "' already exists")
               /\ store listRun = stored
          else result listRun = Success (HeadingSection.sectionId section)
               /\ store listRun = (stored ++ [section])%list)
  /\ (let again := execute anyUrl fixedId 7 inMemory usageAgain [storedUsage] in
      result again = Success "generated-id"
      /\ map (fun s => (summary s, HeadingSection.sectionId s)) (store again)
         = [ ((2, "Usage", "<h2>Usage</h2>"), "deepwiki-com-h2-usage-old");
             ((2, "Usage", "<h2>Usage</h2>"), "generated-id") ]).
Proof.
  intros run unexpected.
  pose proof (execute_cases validUrl gen now repository input st) as Hcases.
  cbv zeta in Hcases. fold run in Hcases.
  split; [|split; [|split; [|split; [|split; [|split; [|split; [|split;
    [|split; [|split]]]]]]]]].
  - intros error Hv. unfold prepared, bind in Hcases. rewrite Hv in Hcases.
    rewrite Hcases. now rewrite (validateInput_throws validUrl input error Hv).
  - intros level error Hv Hc. unfold prepared, bind in Hcases.
    rewrite Hv, Hc in Hcases. rewrite Hcases.
    now rewrite (createHeadingSection_throws validUrl gen now level input error Hc).
  - intros section Hprep id. rewrite Hprep in Hcases. fold id in Hcases.
    split; [|split].
    + intros error Hex. now rewrite Hex in Hcases.
    + intros Hex. now rewrite Hex in Hcases.
    + intros Hex. rewrite Hex in Hcases. split.
      * intros error Hadd. now rewrite Hadd in Hcases.
      * intros st' Hadd. now rewrite Hadd in Hcases.
  - reflexivity.
  - reflexivity.
  - reflexivity.
  - intros message sectionId. split; reflexivity.
  - intros message. repeat split; reflexivity.
  - destruct (prepared validUrl gen now input) as [section | e] eqn:Hprep;
      [|rewrite Hcases; now left].
    destruct (sectionExists repository st (HeadingSection.sectionId section))
      as [[|] | e] eqn:Hex; try (rewrite Hcases; now left).
    right. exists section.
    destruct (addSection repository st section); rewrite Hcases; auto.
  - intros stored listRun section Hprep.
    pose proof (execute_cases validUrl gen now inMemory input stored) as Hl.
    cbv zeta in Hl. fold listRun in Hl. rewrite Hprep in Hl. simpl in Hl.
    destruct (existsb _ stored); rewrite Hl; auto.
  - vm_compute. auto.
Qed.

End UseCaseFacts.

(** ** Text normalisation *)

Module TextFacts.

Import Text.

Lemma allSpace_trimEnd s : Js.allSpace (Js.trimEnd s) = Js.allSpace s.
Proof.
  induction s as [| c r IH]; [reflexivity|].
  cbn [Js.trimEnd]. destruct (Js.allSpace (String c r)) eqn:Hall; [reflexivity|].
  cbn [Js.allSpace] in *. now rewrite IH.
Qed.

Lemma trimEnd_idempotent s : Js.trimEnd (Js.trimEnd s) = Js.trimEnd s.
Proof.
  induction s as [| c r IH]; [reflexivity|].
  cbn [Js.trimEnd]. destruct (Js.allSpace (String c r)) eqn:Hall; [reflexivity|].
  cbn [Js.trimEnd].
  replace (Js.allSpace (String c (Js.trimEnd r))) with false.
  - now rewrite IH.
  - cbn [Js.allSpace] in *. now rewrite allSpace_trimEnd.
Qed.

Lemma trimStart_first s : noSpaceAt (first (Js.trimStart s)).
Proof.
  induction s as [| c r IH]; [exact I|].
  cbn [Js.trimStart]. destruct (Js.isSpace c) eqn:Hc; [exact IH | exact Hc].
Qed.

Lemma trimStart_fixed s : noSpaceAt (first s) -> Js.trimStart s = s.
Proof.
  destruct s as [| c r]; [reflexivity|]. cbn. now intros ->.
Qed.

Lemma trimEnd_first s : noSpaceAt (first s) -> noSpaceAt (first (Js.trimEnd s)).
Proof.
  destruct s as [| c r]; [auto|]. cbn [first noSpaceAt Js.trimEnd Js.allSpace].
  intros Hc. rewrite Hc. exact Hc.
Qed.

Lemma trim_first s : noSpaceAt (first (Js.trim s)).
Proof. apply trimEnd_first, trimStart_first. Qed.

Lemma trimEnd_last s : noSpaceAt (last (Js.trimEnd s)).
Proof.
  induction s as [| c r IH]; [exact I|].
  cbn [Js.trimEnd]. destruct (Js.allSpace (String c r)) eqn:Hall; [exact I|].
  cbn [last]. destruct (Js.trimEnd r) as [| d t] eqn:Hr; [|exact IH].
  cbn [Js.allSpace] in Hall. cbn.
  destruct (Js.isSpace c); [|reflexivity].
  rewrite <- allSpace_trimEnd, Hr in Hall. discriminate.
Qed.

Lemma trim_idempotent s : Js.trim (Js.trim s) = Js.trim s.
Proof.
  unfold Js.trim at 1. rewrite trimStart_fixed by apply trim_first.
  apply trimEnd_idempotent.
Qed.

Lemma space_is_32 c : (Js.code c =? 32)%nat = true -> c = " "%char.
Proof.
  intros H. apply Nat.eqb_eq in H. unfold Js.code in H.
  rewrite <- (ascii_nat_embedding c), H. reflexivity.
Qed.

Lemma replaceSpaceRuns_first s :
  noSpaceAt (first s) -> first (Js.replaceSpaceRuns " " s) = first s.
Proof.
  destruct s as [| c r]; [reflexivity|]. cbn [first noSpaceAt Js.replaceSpaceRuns].
  now intros ->.
Qed.

Lemma replaceSpaceRuns_tidy s : tidy (Js.replaceSpaceRuns " " s) = true.
Proof.
  induction s as [| c r IH]; [reflexivity|].
  cbn [Js.replaceSpaceRuns]. destruct (Js.isSpace c) eqn:Hc.
  - destruct r as [| c' r']; [reflexivity|].
    destruct (Js.isSpace c') eqn:Hc'; [exact IH|].
    change (" " ++ Js.replaceSpaceRuns " " (String c' r'))
      with (String " " (Js.replaceSpaceRuns " " (String c' r'))).
    cbn [tidy]. rewrite IH, andb_true_r.
    change (Js.isSpace " ") with true. cbn [Js.replaceSpaceRuns].
    rewrite Hc'. now rewrite Hc'.
  - cbn [tidy]. now rewrite Hc, IH.
Qed.

Lemma tidy_fixed s : tidy s = true -> Js.replaceSpaceRuns " " s = s.
Proof.
  induction s as [| c r IH]; [reflexivity|].
  cbn [tidy Js.replaceSpaceRuns]. intros H.
  apply andb_true_iff in H as [Hc Hr]. destruct (Js.isSpace c) eqn:Hs.
  - apply andb_true_iff in Hc as [H32 Hnext]. apply space_is_32 in H32 as ->.
    destruct r as [| c' r']; [reflexivity|].
    apply negb_true_iff in Hnext. rewrite Hnext.
    change (" " ++ Js.replaceSpaceRuns " " (String c' r'))
      with (String " " (Js.replaceSpaceRuns " " (String c' r'))).
    now rewrite IH.
  - now rewrite IH.
Qed.

Lemma tidy_trimStart s : tidy s = true -> tidy (Js.trimStart s) = true.
Proof.
  induction s as [| c r IH]; [reflexivity|].
  cbn [Js.trimStart]. destruct (Js.isSpace c); [|auto].
  cbn [tidy]. intros H. apply andb_true_iff in H as [_ Hr]. auto.
Qed.

Lemma tidy_trimEnd s : tidy s = true -> tidy (Js.trimEnd s) = true.
Proof.
  induction s as [| c r IH]; [reflexivity|].
  cbn [Js.trimEnd]. destruct (Js.allSpace (String c r)) eqn:Hall; [reflexivity|].
  cbn [tidy]. intros H. apply andb_true_iff in H as [Hc Hr].
  rewrite (IH Hr), andb_true_r. destruct (Js.isSpace c) eqn:Hs; [|reflexivity].
  apply andb_true_iff in Hc as [H32 Hnext]. rewrite H32. cbn [andb].
  cbn [Js.allSpace] in Hall. rewrite Hs in Hall. cbn [andb] in Hall.
  destruct r as [| c' r']; [discriminate|].
  cbn [Js.trimEnd]. rewrite Hall. exact Hnext.
Qed.

Lemma normalizeText_tidy s : tidy (DomHelpers.normalizeText s) = true.
Proof.
  unfold DomHelpers.normalizeText, Js.trim.
  apply tidy_trimEnd, tidy_trimStart, replaceSpaceRuns_tidy.
Qed.

(** X1.  [DomHelpers.normalizeText] is idempotent: a normalised text
    is its own normal form.  The result has no whitespace at either
    end, and every whitespace character in it is a single space
    followed by a character that is not whitespace. *)
Theorem normalizeText_idempotent (text : string) :
  DomHelpers.normalizeText (DomHelpers.normalizeText text)
  = DomHelpers.normalizeText text
  /\ tidy (DomHelpers.normalizeText text) = true
  /\ noSpaceAt (first (DomHelpers.normalizeText text))
  /\ noSpaceAt (last (DomHelpers.normalizeText text)).
Proof.
  split; [|split; [apply normalizeText_tidy | split]].
  - unfold DomHelpers.normalizeText at 1.
    rewrite tidy_fixed by apply normalizeText_tidy.
    unfold DomHelpers.normalizeText. apply trim_idempotent.
  - apply trim_first.
  - apply trimEnd_last.
Qed.

End TextFacts.

(** ** Heading tags and levels *)

Module TagFacts.

Import HeadingSection.



Lemma level_cases level :
  isValidHeadingLevel level = true ->
  level = 1 \/ level = 2 \/ level = 3 \/ level = 4 \/ level = 5 \/ level = 6.
Proof.
  unfold isValidHeadingLevel, MIN_HEADING_LEVEL, MAX_HEADING_LEVEL.
  intros H. apply andb_true_iff in H as [H1 H2]. lia.
Qed.






End TagFacts.

(** ** The section validator, applied again *)

Module ValidatorAgain.

Import HeadingExtractorService ValidatorFacts Spec.

Lemma filterLoop_fixed l :
  forall seen,
    Forall (fun s => isValidSection s = true) l ->
    NoDup (map key l) ->
    (forall s, s ∈ l -> key s ∉ seen) ->
    filterLoop l [] seen = l.
Proof.
  induction l as [| x r IH]; intros seen Hv Hn Hs; [reflexivity|].
  cbn [filterLoop]. apply Forall_cons in Hv as [Hx Hr].
  rewrite Hx. cbn [negb]. fold (key x).
  cbn [map] in Hn. apply NoDup_cons in Hn as [Hnx Hn].
  rewrite bool_decide_eq_false_2 by (apply Hs; left).
  rewrite filterLoop_acc. cbn [app]. f_equal.
  apply IH; auto.
  intros s Hin. rewrite not_elem_of_union, not_elem_of_singleton. split.
  - intros Heq. apply Hnx. rewrite <- Heq. apply list_elem_of_fmap. eauto.
  - apply Hs. now right.
Qed.

(** X3.  [validateAndFilterSections] is idempotent: what one pass keeps,
    a second pass keeps unchanged and in the same order, since every
    kept section is valid and no two kept sections share a normalised
    title. *)
Theorem validateAndFilterSections_idempotent (sections : list HeadingSection.t) :
  validateAndFilterSections (validateAndFilterSections sections)
  = validateAndFilterSections sections
  /\ Forall (fun s => isValidSection s = true) (validateAndFilterSections sections).
Proof.
  assert (Hv : Forall (fun s => isValidSection s = true)
                 (validateAndFilterSections sections)).
  { apply Forall_forall. intros s Hs. unfold validateAndFilterSections in Hs.
    apply filterLoop_elem in Hs as (i & _ & Hvalid & _). exact Hvalid. }
  split; [|exact Hv].
  unfold validateAndFilterSections at 1. apply filterLoop_fixed.
  - exact Hv.
  - apply filterLoop_NoDup.
  - intros s _. set_solver.
Qed.

End ValidatorAgain.

(** ** Identifiers of controls and of parsed sections *)

Module IdentifierFacts.

Import Text Spec OverlayFacts.

Lemma allChars_filterChars p s : allChars p (Js.filterChars p s) = true.
Proof.
  induction s as [| c r IH]; [reflexivity|].
  cbn [Js.filterChars]. destruct (p c) eqn:Hc; [|exact IH].
  cbn [allChars]. now rewrite Hc, IH.
Qed.

Lemma allChars_mapChars (p q : ascii -> bool) f s :
  (forall c, p c = true -> q (f c) = true) ->
  allChars p s = true -> allChars q (Js.mapChars f s) = true.
Proof.
  intros Hf. induction s as [| c r IH]; [reflexivity|].
  cbn [allChars Js.mapChars]. intros H. apply andb_true_iff in H as [Hc Hr].
  now rewrite (Hf c Hc), IH.
Qed.

Lemma lowerChar_idAlphabet c :
  Js.isLower c || Js.isUpper c || Js.isDigit c || (Js.code c =? 45)%nat = true ->
  idAlphabet (Js.lowerChar c) = true.
Proof.
  destruct c as [[] [] [] [] [] [] [] []]; vm_compute; auto.
Qed.

(** X4.  Button identifiers: the sections at two different positions of
    one [insertButtons] call never get the same identifier, whatever
    their titles; and an identifier is ["dwpp-btn-"], the position, a
    hyphen and a slug of the title made only of lower-case letters,
    digits and hyphens. *)
Theorem generateButtonId_distinct_and_safe
    (section section' : HeadingSection.t) (index index' : nat) :
  (ButtonManagerService.generateButtonId section index
   = ButtonManagerService.generateButtonId section' index' -> index = index')
  /\ exists slug,
      ButtonManagerService.generateButtonId section index
      = "dwpp-btn-" ++ Js.ofNat index ++ "-" ++ slug
      /\ allChars idAlphabet slug = true.
Proof.
  split; [apply generateButtonId_index|].
  eexists. split; [reflexivity|].
  unfold Js.toLowerCase. eapply allChars_mapChars; [|apply allChars_filterChars].
  exact lowerChar_idAlphabet.
Qed.

(** X5.  Section identifiers of the parsing service: a heading that has
    an [id] attribute keeps it as its section identifier, whatever its
    position; for headings without one the identifier starts with
    ["section-"] and the position, so two such headings at different
    positions never share an identifier, even with equal titles. *)
Theorem generateSectionId_by_position (heading heading' : Dom.Elem) (i j : nat) :
  (Js.truthy (Dom.elemId heading) = true ->
   HeadingParserService.generateSectionId heading i = Dom.elemId heading)
  /\ (Dom.elemId heading = "" -> Dom.elemId heading' = "" ->
      HeadingParserService.generateSectionId heading i
      = HeadingParserService.generateSectionId heading' j ->
      i = j).
Proof.
  unfold HeadingParserService.generateSectionId. split.
  - now intros ->.
  - intros -> -> H. cbn [Js.truthy] in H. apply append_inj_l in H.
    apply ofNat_inj. eapply digits_then_dash; [apply ofNat_digits.. | exact H].
Qed.

End IdentifierFacts.

(** ** Stored sections *)

Module MapperFacts.

Import Json HeadingSectionStorageMapper.

Section WithBrowser.

Variable toISOString : Z -> string.
Variable newDate : Value -> option Z.
Variable display : Value -> string.

Local Abbreviation serialize := (serializeHeadingSection toISOString).
Local Abbreviation deserialize := (deserializeHeadingSection newDate display).
Local Abbreviation storable := (HeadingSectionStorageMapper.storable toISOString newDate).

Lemma deserializeLoop_acc items :
  forall acc,
    deserializeLoop newDate display items acc
    = (acc ++ deserializeLoop newDate display items [])%list.
Proof.
  induction items as [| x r IH]; intros acc; cbn [deserializeLoop app].
  - now rewrite app_nil_r.
  - destruct (deserialize x) as [o |]; [|apply IH].
    destruct (isHeadingSection o) as [s |]; [|apply IH].
    rewrite (IH (acc ++ [s])%list), (IH [s]), <- app_assoc. reflexivity.
Qed.

Lemma deserialize_serialize s :
  storable s ->
  exists o, deserialize (serialize s) = Ok o /\ isHeadingSection o = Some s.
Proof.
  intros (Hl & Hid & Hdate).
  unfold HeadingSection.isValidHeadingLevel, HeadingSection.MIN_HEADING_LEVEL,
    HeadingSection.MAX_HEADING_LEVEL in Hl.
  apply andb_true_iff in Hl as [Hlo Hhi].
  apply Z.leb_le in Hlo, Hhi.
  unfold deserializeHeadingSection, serializeHeadingSection.
  cbn [fieldsOf]. change (firstMissing _ requiredFields) with (@None string).
  cbv beta iota.
  change (get "level" _)
    with (Number (AddHeadingSectionUseCase.Integer (HeadingSection.level s))).
  change (get "sectionId" _) with (Str (HeadingSection.sectionId s)).
  change (get "addedAt" _) with (Str (toISOString (HeadingSection.addedAt s))).
  change (get "tagName" _) with (Str (HeadingSection.tagName s)).
  change (get "titleText" _) with (Str (HeadingSection.titleText s)).
  change (get "contentHtml" _) with (Str (HeadingSection.contentHtml s)).
  change (get "sourceUrl" _) with (Str (HeadingSection.sourceUrl s)).
  cbv beta iota.
  destruct ((HeadingSection.level s <? 1) || (HeadingSection.level s >? 6))
    eqn:Hrange.
  { exfalso. apply orb_true_iff in Hrange as [H | H];
      [apply Z.ltb_lt in H | rewrite Z.gtb_ltb in H; apply Z.ltb_lt in H]; lia. }
  cbn [bind]. rewrite Hid. cbn [bind]. rewrite Hdate.
  eexists. split; [reflexivity|].
  unfold isHeadingSection. cbn.
  destruct ((HeadingSection.level s >=? 1) && (HeadingSection.level s <=? 6))
    eqn:Hguard.
  - destruct s; reflexivity.
  - exfalso. apply andb_false_iff in Hguard as [H | H];
      [rewrite Z.geb_leb in H|]; apply Z.leb_gt in H; lia.
Qed.

Lemma deserialize_sound data o s :
  deserialize data = Ok o -> isHeadingSection o = Some s ->
  HeadingSection.isValidHeadingLevel (HeadingSection.level s) = true
  /\ Js.truthy (Js.trim (HeadingSection.sectionId s)) = true
  /\ exists fields,
      fieldsOf data = Some fields
      /\ get "sectionId" fields = Str (HeadingSection.sectionId s)
      /\ get "titleText" fields = Str (HeadingSection.titleText s)
      /\ newDate (get "addedAt" fields) = Some (HeadingSection.addedAt s).
Proof.
  unfold deserializeHeadingSection.
  destruct (fieldsOf data) as [fields |] eqn:Hfields; [|discriminate].
  destruct (firstMissing fields requiredFields); [discriminate|].
  destruct (get "level" fields) as [| | | [z |] | | |] eqn:Hlevel; try discriminate.
  destruct ((z <? 1) || (z >? 6)) eqn:Hrange; [discriminate|].
  cbn [bind].
  destruct (get "sectionId" fields) as [| | | | id | |] eqn:Hid; try discriminate.
  destruct (Js.truthy (Js.trim id)) eqn:Hblank; [|discriminate].
  cbn [bind].
  destruct (newDate (get "addedAt" fields)) as [t |] eqn:Hdate; [|discriminate].
  intros [= <-]. unfold isHeadingSection. cbn.
  destruct ((z >=? 1) && (z <=? 6)) eqn:Hz; [|discriminate].
  destruct (get "tagName" fields); try discriminate.
  destruct (get "titleText" fields) eqn:Htitle; try discriminate.
  destruct (get "contentHtml" fields); try discriminate.
  destruct (get "sourceUrl" fields); try discriminate.
  intros [= <-]. cbn. split; [|split; [exact Hblank|]].
  - apply orb_false_iff in Hrange as [H1 H2].
    unfold HeadingSection.isValidHeadingLevel, HeadingSection.MIN_HEADING_LEVEL,
      HeadingSection.MAX_HEADING_LEVEL.
    apply Z.ltb_ge in H1. rewrite Z.gtb_ltb in H2. apply Z.ltb_ge in H2.
    apply andb_true_iff. split; apply Z.leb_le; lia.
  - exists fields. repeat split; auto.
Qed.

Lemma deserializeLoop_serialized ss :
  Forall storable ss ->
  deserializeLoop newDate display (map serialize ss) [] = ss.
Proof.
  induction 1 as [| s r Hs _ IH]; [reflexivity|].
  cbn [map deserializeLoop].
  destruct (deserialize_serialize s Hs) as (o & -> & ->).
  rewrite deserializeLoop_acc, IH. reflexivity.
Qed.

Lemma deserializeLoop_sound items s :
  s ∈ deserializeLoop newDate display items [] ->
  HeadingSection.isValidHeadingLevel (HeadingSection.level s) = true
  /\ Js.truthy (Js.trim (HeadingSection.sectionId s)) = true.
Proof.
  induction items as [| x r IH]; cbn [deserializeLoop].
  - intros H. inversion H.
  - destruct (deserialize x) as [o |] eqn:Ho; [|exact IH].
    destruct (isHeadingSection o) as [s' |] eqn:Hg; [|exact IH].
    rewrite deserializeLoop_acc. cbn [app]. rewrite elem_of_cons.
    intros [-> | Hin]; [|auto].
    destruct (deserialize_sound x o s' Ho Hg) as (H1 & H2 & _). auto.
Qed.

End WithBrowser.

(** X6.  Storing and reading back: a list of sections whose levels are
    in 1..6, whose identifiers are not blank and whose dates survive
    [toISOString] and [new Date] is returned unchanged, in order, by
    [deserializeSections] applied to [serializeSections]; each single
    section deserialises to an object that passes the type guard as
    itself.  Conversely, whatever the stored data is, every section
    that [deserializeSections] returns has a level in 1..6 and an
    identifier that is not blank, and data that is not an array gives
    the empty list. *)
Theorem stored_sections_round_trip
    (toISOString : Z -> string) (newDate : Value -> option Z)
    (display : Value -> string) (sections : list HeadingSection.t) :
  Forall (storable toISOString newDate) sections ->
  deserializeSections newDate display (serializeSections toISOString sections)
  = sections
  /\ Forall (fun s =>
               exists o,
                 deserializeHeadingSection newDate display
                   (serializeHeadingSection toISOString s) = Ok o
                 /\ isHeadingSection o = Some s) sections
  /\ (forall data s,
        s ∈ deserializeSections newDate display data ->
        HeadingSection.isValidHeadingLevel (HeadingSection.level s) = true
        /\ Js.truthy (Js.trim (HeadingSection.sectionId s)) = true)
  /\ (forall data,
        (forall items, data <> Arr items) ->
        deserializeSections newDate display data = []).
Proof.
  intros Hs. split; [|split; [|split]].
  - now apply deserializeLoop_serialized.
  - eapply Forall_impl; [exact Hs|]. intros s. apply deserialize_serialize.
  - intros data s. destruct data as [| | | | | items |];
      cbn [deserializeSections]; try (intros H; now inversion H).
    apply (deserializeLoop_sound newDate display items).
  - intros data Hno. destruct data; try reflexivity. now destruct (Hno items).
Qed.

Lemma stored_sections_round_trip_witness :
  deserializeSections epochOnly noDisplay
    (serializeSections epochString [Spec.titled "Usage"; Spec.storedUsage])
  = [Spec.titled "Usage"; Spec.storedUsage].
Proof.
  apply (stored_sections_round_trip epochString epochOnly noDisplay).
  repeat constructor.
Defined.

End MapperFacts.

(** ** The Chrome storage repository *)

Module RepositoryFacts.

Import Json HeadingSectionStorageMapper ChromeStorageHeadingSectionRepository.

Section WithBrowser.

Variable toISOString : Z -> string.
Variable newDate : Value -> option Z.
Variable display : Value -> string.
Variable byteSize : Value -> Z.
Variable useSync : bool.

(** A date that was read can be written and read again. *)
Hypothesis dates_survive :
  forall v t, newDate v = Some t -> newDate (Str (toISOString t)) = Some t.

Local Abbreviation storable := (HeadingSectionStorageMapper.storable toISOString newDate).
Local Abbreviation getAll := (getAllSections newDate display).
Local Abbreviation save := (saveSections toISOString byteSize useSync).

Lemma deserializeLoop_storable items s :
  s ∈ deserializeLoop newDate display items [] -> storable s.
Proof.
  induction items as [| x r IH]; cbn [deserializeLoop].
  - intros H. inversion H.
  - destruct (deserializeHeadingSection newDate display x) as [o |] eqn:Ho;
      [|exact IH].
    destruct (isHeadingSection o) as [s' |] eqn:Hg; [|exact IH].
    rewrite (MapperFacts.deserializeLoop_acc newDate display). cbn [app].
    rewrite elem_of_cons. intros [-> | Hin]; [|auto].
    destruct (MapperFacts.deserialize_sound newDate display x o s' Ho Hg)
      as (H1 & H2 & fields & _ & _ & _ & Hdate).
    split; [exact H1|]. split; [exact H2|]. eapply dates_survive, Hdate.
Qed.

Lemma getAll_storable area l : getAll area = Ok l -> Forall storable l.
Proof.
  unfold getAllSections. destruct (storageGet area) as [v |]; [|discriminate].
  destruct v; intros [= <-]; try constructor.
  apply Forall_forall. intros s Hs. eapply deserializeLoop_storable, Hs.
Qed.

Lemma getAll_reads area l : getAll area = Ok l -> getError area = None.
Proof.
  unfold getAllSections, storageGet. destruct (getError area); [discriminate | auto].
Qed.

Lemma getAll_contents area :
  getError area = None ->
  getAll area
  = Ok (match contents area with
        | Arr items => deserializeLoop newDate display items []
        | _ => []
        end).
Proof.
  unfold getAllSections, storageGet. intros ->. now destruct (contents area).
Qed.

Lemma save_done area ss area' :
  save area ss = Done area' ->
  area' = mkArea (serializeSections toISOString ss) (getError area) (setError area).
Proof.
  unfold saveSections, storageSet.
  destruct (validateStorageSize byteSize useSync _) as [[] | e].
  - destruct (setError area _) as [e |].
    + destruct (isQuotaExceededError e); discriminate.
    + now intros [= <-].
  - destruct (isQuotaExceededError e); discriminate.
Qed.

Lemma read_after_save area ss area' :
  getError area = None -> Forall storable ss ->
  save area ss = Done area' -> getAll area' = Ok ss.
Proof.
  intros Hget Hs Hsave. apply save_done in Hsave as ->.
  rewrite getAll_contents by exact Hget. cbn [contents serializeSections].
  now rewrite (MapperFacts.deserializeLoop_serialized toISOString newDate display).
Qed.

Lemma findById_app id l s :
  findById id l = None -> Js.eqb (HeadingSection.sectionId s) id = true ->
  findById id (l ++ [s]) = Some s.
Proof.
  unfold findById. induction l as [| x r IH]; cbn [find app].
  - now intros _ ->.
  - destruct (Js.eqb (HeadingSection.sectionId x) id); [discriminate | auto].
Qed.

Lemma eqb_refl s : Js.eqb s s = true.
Proof. apply String.eqb_refl. Qed.

Lemma handleStorageError_failure {A} e fallback :
  exists err, @handleStorageError A e fallback = Failure err.
Proof.
  unfold handleStorageError. destruct (isRepositoryError e).
  - destruct e; eauto.
  - destruct e; eauto. destruct (isQuotaExceededError _); eauto.
Qed.

End WithBrowser.

(** X7.  Adding and reading back.  When [addSection] reports success on
    an area whose sections could be read, a following [getAllSections]
    returns the sections that were there before, in their order,
    followed by the new one, and [getSectionById] finds the new
    section under its identifier if no stored section had it.  The
    section must be one the store gives back as it was (level in 1..6,
    identifier not blank, date that survives [toISOString]). *)
Theorem addSection_then_read
    (toISOString : Z -> string) (newDate : Value -> option Z)
    (display : Value -> string) (byteSize : Value -> Z) (useSync : bool)
    (area : StorageArea) (section : HeadingSection.t)
    (existing : list HeadingSection.t) :
  (forall v t, newDate v = Some t -> newDate (Str (toISOString t)) = Some t) ->
  storable toISOString newDate section ->
  getAllSections newDate display area = Ok existing ->
  fst (addSection toISOString newDate display byteSize useSync area section)
  = Success tt ->
  let area' :=
    snd (addSection toISOString newDate display byteSize useSync area section) in
  getAllSections newDate display area' = Ok (existing ++ [section])%list
  /\ (sectionExists newDate display area (HeadingSection.sectionId section) = false ->
      getSectionById newDate display area' (HeadingSection.sectionId section)
      = Ok (Some section))
  /\ sectionExists newDate display area' (HeadingSection.sectionId section) = true.
Proof.
  intros Hdates Hs Hread Hok area'.
  assert (Hall : getAllSections newDate display area'
                 = Ok (existing ++ [section])%list).
  { subst area'. revert Hok. unfold addSection. rewrite Hread.
    destruct (saveSections toISOString byteSize useSync area _) as [a |] eqn:Hsave.
    - intros _. cbn [snd].
      eapply (read_after_save toISOString newDate display byteSize useSync);
        [eapply getAll_reads, Hread | | exact Hsave].
      apply Forall_app. split; [|now apply Forall_singleton].
      eapply getAll_storable; [exact Hdates | exact Hread].
    - cbn [fst].
      destruct (handleStorageError_failure (A := unit) e
                  "Failed to add section to storage") as (err & ->).
      discriminate. }
  split; [exact Hall|]. split.
  - unfold sectionExists, getSectionById. rewrite Hread, Hall. intros Hnone.
    f_equal. apply findById_app; [|apply eqb_refl].
    destruct (findById _ existing); [discriminate | reflexivity].
  - unfold sectionExists, getSectionById. rewrite Hall.
    destruct (findById _ (existing ++ [section])) eqn:Hf; [reflexivity|].
    exfalso. unfold findById in Hf.
    pose proof (find_none _ _ Hf section) as Hno. cbv beta in Hno.
    rewrite eqb_refl in Hno. discriminate Hno.
    apply in_or_app. right. now left.
Qed.

Lemma addSection_then_read_witness :
  getAllSections epochOnly noDisplay
    (snd (addSection epochString epochOnly noDisplay noSize false
            (healthy (serializeSections epochString [Spec.storedUsage]))
            (Spec.titled "Install")))
  = Ok [Spec.storedUsage; Spec.titled "Install"].
Proof.
  apply (addSection_then_read epochString epochOnly noDisplay noSize false
           (healthy (serializeSections epochString [Spec.storedUsage]))
           (Spec.titled "Install") [Spec.storedUsage]).
  - intros v t. destruct v; try discriminate. cbn.
    destruct (Js.eqb s _); [|discriminate]. now intros [= <-].
  - repeat constructor.
  - reflexivity.
  - reflexivity.
Defined.

End RepositoryFacts.

(** ** Adding over the Chrome storage repository *)

Module AddingFacts.

Import Json HeadingSectionStorageMapper ChromeStorageHeadingSectionRepository.
Import RepositoryFacts.

Lemma bind_throw {A B} (m : Outcome A) (k : A -> Outcome B) e :
  bind m k = Throw e -> m = Throw e \/ exists a, m = Ok a /\ k a = Throw e.
Proof.
  destruct m as [a | e']; cbn; intros H.
  - right. exists a. split; [reflexivity | exact H].
  - left. injection H as ->. reflexivity.
Qed.

Lemma guard_throw b e e' : guard b e = Throw e' -> e' = e.
Proof. destruct b; cbn; congruence. Qed.

(** The errors of validation and construction. *)
Definition ofTheInput (e : Exn) : Prop :=
  match e with
  | InputValidationError _ _ | ValidationError _ | PlainError _ => True
  | _ => False
  end.

Ltac throw_inv H :=
  repeat match type of H with
         | bind _ _ = Throw _ =>
             apply bind_throw in H as [H | (? & _ & H)]
         | guard _ _ = Throw _ => apply guard_throw in H; subst; exact I
         | Throw _ = Throw _ => injection H as <-; exact I
         end.

Lemma prepared_throws validUrl gen now input e :
  Spec.prepared validUrl gen now input = Throw e -> ofTheInput e.
Proof.
  unfold Spec.prepared. intros H. apply bind_throw in H as [H | (level & _ & H)].
  - unfold AddHeadingSectionUseCase.validateInput in H.
    apply bind_throw in H as [H | (z & _ & H)].
    + destruct (AddHeadingSectionUseCase.in_level input) as [z |];
        [destruct ((z <? 1) || (z >? 6))|]; try discriminate;
        injection H as <-; exact I.
    + throw_inv H. discriminate.
  - unfold AddHeadingSectionUseCase.createHeadingSection in H.
    apply bind_throw in H as [H | (s & _ & H)].
    + unfold HeadingSection.createHeadingSection in H.
      apply bind_throw in H as [H | (? & _ & H)];
        [unfold HeadingSection.validateHeadingLevel in H; throw_inv H|].
      apply bind_throw in H as [H | (? & _ & H)];
        [unfold HeadingSection.validateTagName in H; throw_inv H|].
      apply bind_throw in H as [H | (? & _ & H)];
        [unfold HeadingSection.validateRequiredFields in H; throw_inv H;
         discriminate|].
      discriminate.
    + throw_inv H. discriminate.
Qed.

Lemma addSection_failure_keeps toISOString newDate display byteSize useSync
    area section err :
  fst (addSection toISOString newDate display byteSize useSync area section)
  = Failure err ->
  snd (addSection toISOString newDate display byteSize useSync area section)
  = area.
Proof.
  unfold addSection. destruct (getAllSections newDate display area);
    [|reflexivity].
  destruct (saveSections toISOString byteSize useSync area _);
    [discriminate | reflexivity].
Qed.

Lemma sectionExists_unreadable newDate display area e id :
  getError area = Some e -> sectionExists newDate display area id = false.
Proof.
  unfold sectionExists, getSectionById, getAllSections, storageGet.
  now intros ->.
Qed.

Lemma save_refused toISOString byteSize useSync area ss :
  (forall v, setError area v <> None) ->
  exists e, saveSections toISOString byteSize useSync area ss = Raise e.
Proof.
  intros Hset. unfold saveSections, storageSet.
  destruct (validateStorageSize byteSize useSync _) as [[] | e].
  - destruct (setError area _) as [e |] eqn:He; [|now destruct (Hset _ He)].
    destruct (isQuotaExceededError e); eauto.
  - destruct (isQuotaExceededError e); eauto.
Qed.

(** X8.  [AddHeadingSectionUseCase] over the Chrome storage repository,
    as the background script wires them.  Once the input is valid and
    [sectionExists] answers [false], [execute] reports success with the
    section's identifier whatever the storage does: [addSection]
    reports a failed read or write through its [Result] and never
    throws, and [execute] does not read that [Result].  When the
    storage refuses every write, or cannot be read, the call still
    reports success and the stored data is what it was.  Accordingly
    no call ends with [REPOSITORY_ERROR] or [STORAGE_QUOTA_EXCEEDED]. *)
Theorem execute_reports_success_without_a_write
    (validUrl : string -> bool) (gen : string -> Z -> string -> string) (now : Z)
    (toISOString : Z -> string) (newDate : Value -> option Z)
    (display : Value -> string) (byteSize : Value -> Z) (useSync : bool)
    (input : AddHeadingSectionUseCase.AddHeadingSectionInput)
    (area : StorageArea) :
  let repository := forAdding toISOString newDate display byteSize useSync in
  let run := AddHeadingSectionUseCase.execute validUrl gen now repository input area in
  (forall section,
     Spec.prepared validUrl gen now input = Ok section ->
     sectionExists newDate display area (HeadingSection.sectionId section) = false ->
     AddHeadingSectionUseCase.result run
     = AddHeadingSectionUseCase.Success (HeadingSection.sectionId section)
     /\ AddHeadingSectionUseCase.store run
        = snd (addSection toISOString newDate display byteSize useSync area section)
     /\ ((forall v, setError area v <> None) ->
         AddHeadingSectionUseCase.store run = area)
     /\ (getError area <> None -> AddHeadingSectionUseCase.store run = area))
  /\ (forall section,
        Spec.prepared validUrl gen now input = Ok section ->
        getError area <> None ->
        AddHeadingSectionUseCase.result run
        = AddHeadingSectionUseCase.Success (HeadingSection.sectionId section))
  /\ (forall message,
        AddHeadingSectionUseCase.result run
        <> AddHeadingSectionUseCase.Failure
             AddHeadingSectionUseCase.REPOSITORY_ERROR message
        /\ AddHeadingSectionUseCase.result run
           <> AddHeadingSectionUseCase.Failure
                AddHeadingSectionUseCase.STORAGE_QUOTA_EXCEEDED message).
Proof.
  intros repository run.
  pose proof (UseCaseFacts.execute_cases validUrl gen now repository input area)
    as Hcases.
  cbv zeta in Hcases. fold run in Hcases.
  assert (Hgo : forall section,
             Spec.prepared validUrl gen now input = Ok section ->
             sectionExists newDate display area (HeadingSection.sectionId section)
             = false ->
             run = AddHeadingSectionUseCase.mkRun StorageArea
                     (AddHeadingSectionUseCase.Success
                        (HeadingSection.sectionId section))
                     (snd (addSection toISOString newDate display byteSize
                             useSync area section))
                     [HeadingSection.sectionId section] [section]).
  { intros section Hp Hex. rewrite Hp in Hcases. cbn in Hcases.
    rewrite Hex in Hcases. exact Hcases. }
  split; [|split].
  - intros section Hp Hex. rewrite (Hgo section Hp Hex). cbn.
    split; [reflexivity|]. split; [reflexivity|]. split.
    + intros Hset. unfold addSection.
      destruct (getAllSections newDate display area) as [existing |];
        [|reflexivity].
      destruct (save_refused toISOString byteSize useSync area
                  (existing ++ [section])%list Hset) as (e & ->).
      reflexivity.
    + intros Hget. unfold addSection, getAllSections, storageGet.
      destruct (getError area); [reflexivity | contradiction].
  - intros section Hp Hget. rewrite (Hgo section Hp); [reflexivity|].
    destruct (getError area) as [e |] eqn:He; [|contradiction].
    eapply sectionExists_unreadable, He.
  - intros message.
    destruct (Spec.prepared validUrl gen now input) as [section | e] eqn:Hp.
    + cbn in Hcases.
      destruct (sectionExists newDate display area _); rewrite Hcases; cbn;
        split; discriminate.
    + rewrite Hcases. cbn. apply prepared_throws in Hp.
      destruct e; try contradiction; cbn; split; discriminate.
Qed.

Lemma execute_reports_success_without_a_write_witness :
  let run :=
    AddHeadingSectionUseCase.execute Spec.anyUrl Spec.fixedId 0
      (forAdding epochString epochOnly noDisplay noSize false)
      Spec.usageAgain (full (Arr [])) in
  AddHeadingSectionUseCase.result run = AddHeadingSectionUseCase.Success "generated-id"
  /\ AddHeadingSectionUseCase.store run = full (Arr []).
Proof.
  destruct (execute_reports_success_without_a_write Spec.anyUrl Spec.fixedId 0
              epochString epochOnly noDisplay noSize false
              Spec.usageAgain (full (Arr []))) as (H & _).
  destruct (H (HeadingSection.mk 2 "H2" "Usage" "<h2>Usage</h2>"
                 "https://deepwiki.com/a/b" 0 "generated-id")
              eq_refl eq_refl) as (Hr & _ & Hs & _).
  split; [exact Hr|]. apply Hs. intros v. discriminate.
Defined.

End AddingFacts.

(** ** Removing and clearing *)

Module RemovingFacts.

Import Json HeadingSectionStorageMapper ChromeStorageHeadingSectionRepository.
Import RepositoryFacts Background.

Lemma strlen_zero s : (Js.strlen s =? 0) = negb (Js.truthy s).
Proof. destruct s; reflexivity. Qed.

Lemma validateInput_accepts id :
  Js.truthy (Js.trim id) = true ->
  RemoveHeadingSectionUseCase.validateInput id = Ok tt.
Proof.
  intros Ht. unfold RemoveHeadingSectionUseCase.validateInput.
  assert (Hid : Js.truthy id = true).
  { destruct id; [discriminate | reflexivity]. }
  rewrite Hid, strlen_zero, Ht. reflexivity.
Qed.

(** X9.  [RemoveHeadingSectionUseCase.execute] and identifiers that
    cannot name a section.  The empty identifier is rejected as
    [INVALID_INPUT]; an identifier of whitespace only is rejected too,
    but as [UNKNOWN_ERROR], because its message does not contain the
    word the error handler looks for.  Neither reaches the repository.
    When the lookup finds nothing the result is [SECTION_NOT_FOUND],
    and [removeSection] is called only after a lookup that found a
    section. *)
Theorem remove_rejects_what_cannot_be_found
    {Store : Type} (repository : RemoveHeadingSectionUseCase.Repository Store)
    (st : Store) :
  RemoveHeadingSectionUseCase.execute repository "" st
  = RemoveHeadingSectionUseCase.mkRun
      (RemoveHeadingSectionUseCase.Failed RemoveHeadingSectionUseCase.INVALID_INPUT
         "Section ID is required and must be a string")
      st [] []
  /\ (forall sectionId,
        Js.truthy sectionId = true -> Js.trim sectionId = "" ->
        RemoveHeadingSectionUseCase.execute repository sectionId st
        = RemoveHeadingSectionUseCase.mkRun
            (RemoveHeadingSectionUseCase.Failed
               RemoveHeadingSectionUseCase.UNKNOWN_ERROR
               ("Failed to remove section '" ++ sectionId
                ++ "': Section ID cannot be empty"))
            st [] [])
  /\ (forall sectionId,
        Js.truthy (Js.trim sectionId) = true ->
        RemoveHeadingSectionUseCase.getSectionById repository st sectionId
        = Ok None ->
        RemoveHeadingSectionUseCase.execute repository sectionId st
        = RemoveHeadingSectionUseCase.mkRun
            (RemoveHeadingSectionUseCase.Failed
               RemoveHeadingSectionUseCase.SECTION_NOT_FOUND
               ("Section with ID '" ++ sectionId ++ "' not found"))
            st [sectionId] [])
  /\ (forall sectionId,
        RemoveHeadingSectionUseCase.removals
          (RemoveHeadingSectionUseCase.execute repository sectionId st) <> [] ->
        Js.truthy (Js.trim sectionId) = true
        /\ exists section,
            RemoveHeadingSectionUseCase.getSectionById repository st sectionId
            = Ok (Some section)).
Proof.
  split; [reflexivity|]. split; [|split].
  - intros sectionId Hid Hblank.
    unfold RemoveHeadingSectionUseCase.execute,
      RemoveHeadingSectionUseCase.validateInput.
    rewrite Hid, Hblank. reflexivity.
  - intros sectionId Hid Hnone. unfold RemoveHeadingSectionUseCase.execute.
    rewrite validateInput_accepts by exact Hid. now rewrite Hnone.
  - intros sectionId. unfold RemoveHeadingSectionUseCase.execute.
    destruct (RemoveHeadingSectionUseCase.validateInput sectionId) eqn:Hv;
      [|cbn; congruence].
    destruct (RemoveHeadingSectionUseCase.getSectionById repository st sectionId)
      as [[section |] | e]; try (cbn; congruence).
    intros _. split; [|eauto].
    unfold RemoveHeadingSectionUseCase.validateInput in Hv.
    destruct (Js.truthy sectionId); [|discriminate]. cbn in Hv.
    rewrite strlen_zero, negb_involutive in Hv.
    destruct (Js.truthy (Js.trim sectionId)); [reflexivity | discriminate].
Qed.

Lemma filter_all {A} (P : A -> Prop) `{forall x, Decision (P x)} (l : list A) :
  (forall x, x ∈ l -> P x) -> filter P l = l.
Proof.
  induction l as [| x r IH]; intros Hall; [reflexivity|].
  rewrite filter_cons_True by (apply Hall; left).
  f_equal. apply IH. intros y Hy. apply Hall. now right.
Qed.

Lemma findById_stored id l s :
  findById id l = Some s -> s ∈ l /\ HeadingSection.sectionId s = id.
Proof.
  unfold findById. intros H. apply find_some in H as [Hin Heq].
  split; [now apply list_elem_of_In | now apply String.eqb_eq].
Qed.

Lemma findById_filtered id l :
  findById id (filter (fun s => HeadingSection.sectionId s ≠ id) l) = None.
Proof.
  destruct (findById id _) as [s |] eqn:H; [|reflexivity].
  apply findById_stored in H as [Hin Heq].
  apply list_elem_of_filter in Hin as [Hne _]. contradiction.
Qed.

Section WithBrowser.

Variable toISOString : Z -> string.
Variable newDate : Value -> option Z.
Variable display : Value -> string.
Variable byteSize : Value -> Z.
Variable useSync : bool.

Hypothesis dates_survive :
  forall v t, newDate v = Some t -> newDate (Str (toISOString t)) = Some t.

Local Abbreviation getAll := (getAllSections newDate display).
Local Abbreviation save := (saveSections toISOString byteSize useSync).
Local Abbreviation remove :=
  (removeSection toISOString newDate display byteSize useSync).

Lemma removeSection_absent area id existing :
  getAll area = Ok existing -> findById id existing = None ->
  remove area id = (Success false, area).
Proof.
  intros Hread Hnone. unfold removeSection. rewrite Hread.
  replace (filter _ existing) with existing; [now rewrite Nat.eqb_refl|].
  symmetry. apply filter_all. intros s Hin Heq.
  unfold findById in Hnone.
  pose proof (find_none _ _ Hnone s) as Hno. cbv beta in Hno.
  rewrite Heq, eqb_refl in Hno. discriminate Hno. now apply list_elem_of_In.
Qed.

Lemma removeSection_present area id existing s :
  getAll area = Ok existing -> findById id existing = Some s ->
  remove area id
  = match save area (filter (fun s => HeadingSection.sectionId s ≠ id) existing) with
    | Raise e =>
        (handleStorageError e "Failed to remove section from storage", area)
    | Done area' => (Success true, area')
    end.
Proof.
  intros Hread Hsome. unfold removeSection. rewrite Hread.
  apply findById_stored in Hsome as [Hin Heq].
  pose proof (length_filter_lt (fun s => HeadingSection.sectionId s ≠ id)
                existing s Hin) as Hlt.
  destruct (Nat.eqb_spec
              (length (filter (fun s => HeadingSection.sectionId s ≠ id) existing))
              (length existing)) as [Heql | _]; [|reflexivity].
  exfalso. assert (Hn : ¬ HeadingSection.sectionId s ≠ id) by auto.
  specialize (Hlt Hn). lia.
Qed.

End WithBrowser.

(** X10.  Removing over the Chrome storage repository.  For an
    identifier that is not blank and a store that can be read: if no
    stored section has the identifier, the result is
    [SECTION_NOT_FOUND] and nothing is written; if one has it and the
    write succeeds, the result names the identifier, the store then
    holds the other sections in their order (every section with that
    identifier is gone) and [sectionExists] answers [false]; if the
    write fails the result is [REPOSITORY_ERROR] and the store is
    what it was. *)
Theorem remove_then_read
    (toISOString : Z -> string) (newDate : Value -> option Z)
    (display : Value -> string) (byteSize : Value -> Z) (useSync : bool)
    (area : StorageArea) (sectionId : string)
    (existing : list HeadingSection.t) :
  (forall v t, newDate v = Some t -> newDate (Str (toISOString t)) = Some t) ->
  Js.truthy (Js.trim sectionId) = true ->
  getAllSections newDate display area = Ok existing ->
  let run :=
    RemoveHeadingSectionUseCase.execute
      (forRemoving toISOString newDate display byteSize useSync) sectionId area in
  let others := filter (fun s => HeadingSection.sectionId s ≠ sectionId) existing in
  (findById sectionId existing = None ->
   run = RemoveHeadingSectionUseCase.mkRun
           (RemoveHeadingSectionUseCase.Failed
              RemoveHeadingSectionUseCase.SECTION_NOT_FOUND
              ("Section with ID '" ++ sectionId ++ "' not found"))
           area [sectionId] [])
  /\ (findById sectionId existing <> None ->
      forall area',
        saveSections toISOString byteSize useSync area others = Done area' ->
        RemoveHeadingSectionUseCase.result run
        = RemoveHeadingSectionUseCase.Removed sectionId
        /\ RemoveHeadingSectionUseCase.store run = area'
        /\ getAllSections newDate display area' = Ok others
        /\ sectionExists newDate display area' sectionId = false)
  /\ (findById sectionId existing <> None ->
      forall e,
        saveSections toISOString byteSize useSync area others = Raise e ->
        RemoveHeadingSectionUseCase.result run
        = RemoveHeadingSectionUseCase.Failed
            RemoveHeadingSectionUseCase.REPOSITORY_ERROR
            "Failed to remove section from repository"
        /\ RemoveHeadingSectionUseCase.store run = area).
Proof.
  intros Hdates Hid Hread run others.
  assert (Hlookup : getSectionById newDate display area sectionId
                    = Ok (findById sectionId existing)).
  { unfold getSectionById. now rewrite Hread. }
  subst run. unfold RemoveHeadingSectionUseCase.execute.
  rewrite validateInput_accepts by exact Hid. cbn [forRemoving
    RemoveHeadingSectionUseCase.getSectionById
    RemoveHeadingSectionUseCase.removeSection].
  rewrite Hlookup. split; [|split].
  - now intros ->.
  - intros Hsome area' Hsave.
    destruct (findById sectionId existing) as [s |] eqn:Hf; [|contradiction].
    rewrite (removeSection_present toISOString newDate display byteSize useSync
               area sectionId existing s Hread Hf).
    fold others. rewrite Hsave. cbn.
    split; [reflexivity|]. split; [reflexivity|].
    assert (Hall : getAllSections newDate display area' = Ok others).
    { eapply (read_after_save toISOString newDate display byteSize useSync);
        [eapply getAll_reads, Hread | | exact Hsave].
      pose proof (getAll_storable toISOString newDate display Hdates area
                    existing Hread) as Hst.
      rewrite Forall_forall in Hst. apply Forall_forall. intros x Hx.
      apply Hst. apply list_elem_of_filter in Hx. tauto. }
    split; [exact Hall|].
    unfold sectionExists, getSectionById. rewrite Hall.
    unfold others. now rewrite findById_filtered.
  - intros Hsome e Hsave.
    destruct (findById sectionId existing) as [s |] eqn:Hf; [|contradiction].
    rewrite (removeSection_present toISOString newDate display byteSize useSync
               area sectionId existing s Hread Hf).
    fold others. rewrite Hsave.
    destruct (handleStorageError_failure (A := bool) e
                "Failed to remove section from storage") as (err & ->).
    split; reflexivity.
Qed.

Lemma remove_then_read_witness :
  let run :=
    RemoveHeadingSectionUseCase.execute
      (forRemoving epochString epochOnly noDisplay noSize false) "id"
      (healthy (serializeSections epochString
                  [Spec.titled "Install"; Spec.storedUsage])) in
  RemoveHeadingSectionUseCase.result run = RemoveHeadingSectionUseCase.Removed "id"
  /\ getAllSections epochOnly noDisplay (RemoveHeadingSectionUseCase.store run)
     = Ok [Spec.storedUsage].
Proof.
  cbv zeta.
  destruct (remove_then_read epochString epochOnly noDisplay noSize false
              (healthy (serializeSections epochString
                          [Spec.titled "Install"; Spec.storedUsage]))
              "id" [Spec.titled "Install"; Spec.storedUsage]) as (_ & H & _).
  - intros v t. destruct v; try discriminate. cbn.
    destruct (Js.eqb s _); [|discriminate]. now intros [= <-].
  - reflexivity.
  - reflexivity.
  - destruct (H ltac:(discriminate)
                (healthy (serializeSections epochString [Spec.storedUsage]))
                eq_refl) as (Hr & Hs & Hall & _).
    split; [exact Hr|]. rewrite Hs. exact Hall.
Defined.

(** X11.  Clearing over the Chrome storage repository.  When the store
    can be read and the write succeeds, [execute] reports as cleared
    the number of sections that [getAllSections] returned (entries that
    do not deserialise are not counted) and the store then reads as
    empty.  When the write fails the result is [REPOSITORY_ERROR] and
    the store is what it was.  When the store cannot be read nothing is
    cleared: the result is [REPOSITORY_ERROR] with the message of the
    failed read, and no write is attempted. *)
Theorem clear_all_counts_and_empties
    (toISOString : Z -> string) (newDate : Value -> option Z)
    (display : Value -> string) (byteSize : Value -> Z) (useSync : bool)
    (area : StorageArea) :
  let run :=
    ClearAllHeadingSectionsUseCase.execute
      (forClearing toISOString newDate display byteSize useSync) area in
  (forall existing area',
     getAllSections newDate display area = Ok existing ->
     saveSections toISOString byteSize useSync area [] = Done area' ->
     run = (ClearAllHeadingSectionsUseCase.Cleared (length existing), area')
     /\ getAllSections newDate display area' = Ok []
     /\ contents area' = Arr [])
  /\ (forall existing e,
        getAllSections newDate display area = Ok existing ->
        saveSections toISOString byteSize useSync area [] = Raise e ->
        run = (ClearAllHeadingSectionsUseCase.Failed
                 ClearAllHeadingSectionsUseCase.REPOSITORY_ERROR
                 "Failed to clear sections from repository", area))
  /\ (getError area <> None ->
      run = (ClearAllHeadingSectionsUseCase.Failed
               ClearAllHeadingSectionsUseCase.REPOSITORY_ERROR
               ("Repository error while clearing sections: "
                ++ "Failed to retrieve sections from storage"), area)).
Proof.
  intros run. subst run. unfold ClearAllHeadingSectionsUseCase.execute.
  cbn [forClearing ClearAllHeadingSectionsUseCase.getAllSections
         ClearAllHeadingSectionsUseCase.clearAllSections].
  split; [|split].
  - intros existing area' Hread Hsave. rewrite Hread.
    unfold clearAllSections. rewrite Hsave. split; [reflexivity|].
    pose proof (save_done toISOString byteSize useSync area [] area' Hsave) as ->.
    split; [|reflexivity].
    rewrite getAll_contents; [reflexivity|]. cbn. eapply getAll_reads, Hread.
  - intros existing e Hread Hsave. rewrite Hread.
    unfold clearAllSections. rewrite Hsave.
    destruct (handleStorageError_failure (A := unit) e
                "Failed to clear all sections from storage") as (err & ->).
    reflexivity.
  - intros Hget. unfold getAllSections, storageGet.
    destruct (getError area); [reflexivity | contradiction].
Qed.

End RemovingFacts.

(** ** Querying the collection *)

Module QueryFacts.

Import AddHeadingSectionUseCase(Num, Integer, NotInteger).
Import GetHeadingSectionsUseCase.
Import ChromeStorageHeadingSectionRepository(slice).

(** *** The sort *)

Lemma insertBy_perm {A} (compare : A -> A -> Z) x l :
  insertBy compare x l ≡ₚ x :: l.
Proof.
  induction l as [| y r IH]; cbn [insertBy]; [reflexivity|].
  destruct (compare y x <=? 0); [|reflexivity].
  rewrite IH. apply Permutation_swap.
Qed.

Lemma sort_perm {A} (compare : A -> A -> Z) l : sort compare l ≡ₚ l.
Proof.
  unfold sort.
  assert (H : forall acc,
             fold_left (fun sorted x => insertBy compare x sorted) l acc
             ≡ₚ (acc ++ l)%list).
  { induction l as [| x r IH]; intros acc; cbn [fold_left].
    - now rewrite app_nil_r.
    - rewrite IH, insertBy_perm. apply Permutation_middle. }
  apply (H []).
Qed.

Section Sorting.

Context {A : Type} (compare : A -> A -> Z) (R : A -> A -> Prop).

Hypothesis compare_R : forall a b, compare a b <= 0 <-> R a b.
Hypothesis R_total : forall a b, R a b \/ R b a.
Hypothesis R_trans : forall a b c, R a b -> R b c -> R a c.

Lemma insertBy_sorted x l :
  StronglySorted R l -> StronglySorted R (insertBy compare x l).
Proof.
  induction 1 as [| y r Hr IH Hy]; cbn [insertBy].
  - repeat constructor.
  - destruct (Z.leb_spec (compare y x) 0) as [Hle | Hgt].
    + constructor; [exact IH|].
      rewrite insertBy_perm. constructor; [now apply compare_R | exact Hy].
    + assert (Hxy : R x y).
      { destruct (R_total x y) as [H | H]; [exact H|].
        apply compare_R in H. lia. }
      constructor; [now constructor|].
      constructor; [exact Hxy|].
      eapply Forall_impl; [exact Hy|]. intros z Hz. now apply (R_trans x y z).
Qed.

Lemma sort_sorted l : StronglySorted R (sort compare l).
Proof.
  unfold sort.
  assert (H : forall acc,
             StronglySorted R acc ->
             StronglySorted R
               (fold_left (fun sorted x => insertBy compare x sorted) l acc)).
  { induction l as [| x r IH]; intros acc Hacc; cbn [fold_left]; [exact Hacc|].
    apply IH, insertBy_sorted, Hacc. }
  apply H. constructor.
Qed.

End Sorting.

(** *** Validation *)

Lemma bind_ok {A B} (m : Outcome A) (k : A -> Outcome B) b :
  bind m k = Ok b -> exists a, m = Ok a /\ k a = Ok b.
Proof. destruct m as [a | e]; cbn; [eauto | discriminate]. Qed.

Section WithBrowser.

Variable validUrl : string -> bool.
Variable localeCompare : string -> string -> Z.

Local Abbreviation validate := (validateInput validUrl).

Lemma validateInput_ok input v :
  validate input = Ok v ->
  match in_level input with
  | None => v_level v = None
  | Some level => exists z, level = Integer z /\ v_level v = Some z /\ 1 <= z <= 6
  end
  /\ match in_limit input with
     | None => v_limit v = None
     | Some limit => exists n, limit = Integer n /\ v_limit v = Some n /\ 1 <= n
     end
  /\ match in_sourceUrl input with
     | None => True
     | Some sourceUrl => Js.truthy sourceUrl = true
     end.
Proof.
  unfold validateInput. intros H.
  apply bind_ok in H as (level & Hlevel & H).
  apply bind_ok in H as (? & Hurl & H).
  apply bind_ok in H as (? & _ & H).
  apply bind_ok in H as (limit & Hlimit & H).
  apply bind_ok in H as (? & _ & H).
  apply bind_ok in H as (? & _ & H).
  injection H as <-. cbn [v_level v_limit]. split; [|split].
  - destruct (in_level input) as [[z |] |]; try discriminate.
    + destruct ((z <? 1) || (z >? 6)) eqn:Hr; [discriminate|].
      injection Hlevel as <-. exists z. split; [reflexivity|]. split; [reflexivity|].
      apply orb_false_iff in Hr as [H1 H2]. apply Z.ltb_ge in H1.
      rewrite Z.gtb_ltb in H2. apply Z.ltb_ge in H2. lia.
    + now injection Hlevel as <-.
  - destruct (in_limit input) as [[n |] |]; try discriminate.
    + destruct (n <? 1) eqn:Hr; [discriminate|].
      injection Hlimit as <-. exists n. split; [reflexivity|]. split; [reflexivity|].
      apply Z.ltb_ge in Hr. lia.
    + now injection Hlimit as <-.
  - destruct (in_sourceUrl input) as [sourceUrl |]; [|exact I].
    apply bind_ok in Hurl as (? & Hblank & _).
    destruct sourceUrl; [discriminate | reflexivity].
Qed.

Ltac rejected H :=
  repeat match type of H with
         | bind _ _ = Throw _ =>
             apply AddingFacts.bind_throw in H as [H | (? & _ & H)]
         | guard _ _ = Throw _ =>
             apply AddingFacts.guard_throw in H; subst; reflexivity
         | Throw _ = Throw _ => injection H as <-; reflexivity
         | match ?x with _ => _ end = Throw _ => destruct x
         | (if ?x then _ else _) = Throw _ => destruct x
         | Ok _ = Throw _ => discriminate H
         end.

Lemma validateInput_rejects input e :
  validate input = Throw e -> handleError e = Failed INVALID_INPUT (exnMessage e).
Proof.
  unfold validateInput. intros H. rejected H.
Qed.

End WithBrowser.

(** *** What [execute] returns *)

Lemma slice_take {A} (n : Z) (l : list A) :
  0 <= n -> slice 0 n l = take (Z.to_nat n) l.
Proof.
  intros Hn. unfold slice.
  replace (0 <? 0) with false by reflexivity.
  destruct (n <? 0) eqn:Hneg; [apply Z.ltb_lt in Hneg; lia|].
  rewrite (Z.min_l 0) by lia. rewrite Z.sub_0_r.
  change (Z.to_nat 0) with 0%nat. rewrite drop_0.
  destruct (Z.le_ge_cases n (Z.of_nat (length l))) as [Hle | Hge].
  - now rewrite Z.min_l by lia.
  - rewrite Z.min_r by lia. rewrite Nat2Z.id.
    rewrite firstn_all. symmetry. apply take_ge. lia.
Qed.

Lemma keep_Forall (test : HeadingSection.t -> bool) l :
  Forall (fun s => test s = true) (keep test l).
Proof.
  apply Forall_forall. intros s Hs. unfold keep in Hs.
  apply list_elem_of_In, List.filter_In in Hs. tauto.
Qed.

Lemma keep_preserves (P : HeadingSection.t -> Prop) test l :
  Forall P l -> Forall P (keep test l).
Proof.
  rewrite !Forall_forall. intros H s Hs. apply H. unfold keep in Hs.
  apply list_elem_of_In, List.filter_In in Hs. apply list_elem_of_In. tauto.
Qed.

Lemma keep_preserves_if (P : HeadingSection.t -> Prop) (b : bool) test l :
  Forall P l -> Forall P (if b then keep test l else l).
Proof. destruct b; [apply keep_preserves | auto]. Qed.

Section WithBrowser.

Variable validUrl : string -> bool.
Variable localeCompare : string -> string -> Z.

Local Abbreviation run := (execute validUrl localeCompare).
Local Abbreviation sorting := (applySorting localeCompare).

Lemma handleError_failed e : exists code message, handleError e = Failed code message.
Proof.
  unfold handleError.
  destruct (isErrorObject e && _); [eauto|].
  destruct (RemoveHeadingSectionUseCase.isRepositoryError e); eauto.
Qed.

Lemma execute_found {Store} (repository : Repository Store) input st
    sections totalCount metadata :
  run repository input st = Found sections totalCount metadata ->
  exists v matches,
    validateInput validUrl input = Ok v
    /\ retrieveFilteredSections repository st input v = Ok matches
    /\ totalCount = length matches
    /\ sections
       = match v_limit v with
         | Some limit =>
             slice 0 limit (sorting matches (in_sortBy input) (in_sortOrder input))
         | None => sorting matches (in_sortBy input) (in_sortOrder input)
         end
    /\ wasLimited metadata
       = match v_limit v with
         | Some limit =>
             Z.of_nat (length (sorting matches (in_sortBy input)
                                 (in_sortOrder input))) >? limit
         | None => false
         end.
Proof.
  unfold execute.
  destruct (validateInput validUrl input) as [v | e] eqn:Hv.
  - destruct (retrieveFilteredSections repository st input v)
      as [matches | e] eqn:Hm.
    + intros [= <- <- <-]. exists v, matches. cbn. auto.
    + destruct (handleError_failed e) as (code & message & ->). discriminate.
  - destruct (handleError_failed e) as (code & message & ->). discriminate.
Qed.

Lemma sorting_perm l sortBy sortOrder : sorting l sortBy sortOrder ≡ₚ l.
Proof.
  unfold applySorting. destruct (negb (given sortBy)); apply sort_perm.
Qed.

Lemma sorting_default l sortOrder :
  StronglySorted Asked.newestFirst (sorting l None sortOrder).
Proof.
  unfold applySorting. cbn [given negb].
  apply sort_sorted; unfold Asked.newestFirst; intros; lia.
Qed.

Lemma sorting_oldest l :
  StronglySorted Asked.oldestFirst (sorting l (Some "addedAt") (Some "asc")).
Proof.
  unfold applySorting. cbn.
  apply sort_sorted; unfold Asked.oldestFirst; intros; lia.
Qed.

Lemma sorting_level l :
  StronglySorted Asked.lowestLevelFirst (sorting l (Some "level") (Some "asc")).
Proof.
  unfold applySorting. cbn.
  apply sort_sorted; unfold Asked.lowestLevelFirst; intros; lia.
Qed.

End WithBrowser.

(** X12.  A request that [validateInput] rejects is answered with
    [INVALID_INPUT] and the message of the rejection, whatever the
    repository and its state are: every message of the validation
    contains the words the error handler looks for, and the repository
    is not consulted. *)
Theorem get_rejects_invalid_input
    (validUrl : string -> bool) (localeCompare : string -> string -> Z)
    (input : GetHeadingSectionsInput) (error : Exn) :
  validateInput validUrl input = Throw error ->
  forall (Store : Type) (repository : Repository Store) (st : Store),
    execute validUrl localeCompare repository input st
    = Failed INVALID_INPUT (exnMessage error).
Proof.
  intros Hv Store repository st. unfold execute. rewrite Hv.
  eapply validateInput_rejects, Hv.
Qed.

Lemma get_rejects_invalid_input_witness :
  execute Spec.anyUrl Asked.byCode Asked.listed
    (mkInput None None None None None None (Some (Integer 0)) None None)
    Asked.threeStored
  = Failed INVALID_INPUT "Limit must be a positive integer".
Proof.
  apply (get_rejects_invalid_input Spec.anyUrl Asked.byCode
           (mkInput None None None None None None (Some (Integer 0)) None None)
           (PlainError "Limit must be a positive integer")).
  reflexivity.
Defined.

(** X13.  What a successful query returns.  [totalCount] is the number
    of sections that match, before any limit.  The sections returned
    are those matches in the requested order, cut to the first [limit]
    of them when a limit is given, and [wasLimited] tells whether the
    cut dropped any.  Without [sortBy] the order is newest first,
    whatever [sortOrder] says; with [sortBy] "addedAt" or "level" and
    [sortOrder] "asc" it is oldest first, or lowest level first. *)
Theorem get_returns_the_first_matches_in_order
    (validUrl : string -> bool) (localeCompare : string -> string -> Z)
    {Store : Type} (repository : Repository Store)
    (input : GetHeadingSectionsInput) (st : Store)
    (sections : list HeadingSection.t) (totalCount : nat) (metadata : Metadata) :
  execute validUrl localeCompare repository input st
  = Found sections totalCount metadata ->
  exists v matches,
    validateInput validUrl input = Ok v
    /\ retrieveFilteredSections repository st input v = Ok matches
    /\ totalCount = length matches
    /\ let sorted :=
         applySorting localeCompare matches (in_sortBy input) (in_sortOrder input) in
       sorted ≡ₚ matches
       /\ (in_sortBy input = None -> StronglySorted Asked.newestFirst sorted)
       /\ (in_sortBy input = Some "addedAt" -> in_sortOrder input = Some "asc" ->
           StronglySorted Asked.oldestFirst sorted)
       /\ (in_sortBy input = Some "level" -> in_sortOrder input = Some "asc" ->
           StronglySorted Asked.lowestLevelFirst sorted)
       /\ match in_limit input with
          | None => sections = sorted /\ wasLimited metadata = false
          | Some limit =>
              exists n,
                limit = Integer n /\ 1 <= n
                /\ sections = take (Z.to_nat n) sorted
                /\ (wasLimited metadata = true <-> n < Z.of_nat totalCount)
          end.
Proof.
  intros H. apply execute_found in H as (v & matches & Hv & Hm & Ht & Hs & Hw).
  exists v, matches. split; [exact Hv|]. split; [exact Hm|]. split; [exact Ht|].
  cbv zeta. split; [apply sorting_perm|].
  split; [intros ->; apply sorting_default|].
  split; [intros -> ->; apply sorting_oldest|].
  split; [intros -> ->; apply sorting_level|].
  destruct (validateInput_ok validUrl input v Hv) as (_ & Hlimit & _).
  destruct (in_limit input) as [limit |].
  - destruct Hlimit as (n & -> & Hn & Hpos). exists n. rewrite Hn in Hs, Hw.
    split; [reflexivity|]. split; [exact Hpos|].
    split; [rewrite Hs; apply slice_take; lia|].
    rewrite Hw, (Permutation_length (sorting_perm localeCompare matches _ _)).
    rewrite Z.gtb_ltb, Z.ltb_lt, Ht. reflexivity.
  - rewrite Hlimit in Hs, Hw. auto.
Qed.

Lemma get_returns_the_first_matches_in_order_witness :
  exists rest,
    execute Spec.anyUrl Asked.byCode Asked.listed
      (mkInput None None None None None None (Some (Integer 2)) None (Some "asc"))
      Asked.threeStored
    = Found rest 3
        (mkMetadata true true None (Some "asc"))
    /\ map HeadingSection.sectionId rest = ["s2"; "s3"].
Proof.
  eexists. split; [reflexivity|].
  destruct (get_returns_the_first_matches_in_order Spec.anyUrl Asked.byCode
              Asked.listed
              (mkInput None None None None None None (Some (Integer 2)) None
                 (Some "asc"))
              Asked.threeStored _ _ _ eq_refl)
    as (v & matches & _ & _ & _ & _ & _ & _ & _ & n & _ & _ & _ & _).
  reflexivity.
Defined.

(** *** The filters *)

Lemma filterCount_mainFilters validUrl input v :
  validateInput validUrl input = Ok v ->
  filterCount input v = Asked.mainFilters input.
Proof.
  intros Hv. destruct (validateInput_ok validUrl input v Hv) as (Hlevel & _ & _).
  unfold filterCount, Asked.mainFilters.
  replace (givenNumber (v_level v)) with (isSome (in_level input)); [reflexivity|].
  destruct (in_level input) as [level |].
  - destruct Hlevel as (z & -> & -> & Hz). cbn.
    symmetry. apply negb_true_iff, Z.eqb_neq. lia.
  - now rewrite Hlevel.
Qed.

Lemma count_cases (a b c d : bool) :
  length (filter (fun x => x = true) [a; b; c; d]) = 1%nat ->
  (a = true /\ b = false /\ c = false /\ d = false)
  \/ (a = false /\ b = true /\ c = false /\ d = false)
  \/ (a = false /\ b = false /\ c = true /\ d = false)
  \/ (a = false /\ b = false /\ c = false /\ d = true).
Proof. destruct a, b, c, d; cbn; intros H; try discriminate; tauto. Qed.

Lemma withinDates_both startDate endDate s :
  (HeadingSection.addedAt s >=? startDate) && (HeadingSection.addedAt s <=? endDate)
  = withinDates (Some startDate) (Some endDate) s.
Proof.
  unfold withinDates. f_equal.
  - rewrite Z.geb_leb, Z.ltb_antisym. now rewrite negb_involutive.
  - rewrite Z.gtb_ltb, Z.leb_antisym. reflexivity.
Qed.

Section Filters.

Context {Store : Type} (repository : Repository Store) (st : Store).
Variable input : GetHeadingSectionsInput.
Variable v : Validated.
Variable matches : list HeadingSection.t.

Hypothesis retrieved : retrieveFilteredSections repository st input v = Ok matches.

Lemma matches_within_dates :
  Forall (fun s => withinDates (in_startDate input) (in_endDate input) s = true)
    matches.
Proof.
  unfold retrieveFilteredSections in retrieved.
  apply bind_ok in retrieved as (raw & Hraw & Hm). injection Hm as <-.
  unfold applyAdditionalFilters.
  apply keep_preserves_if.
  destruct ((isSome (in_startDate input) || isSome (in_endDate input))
            && negb (wasRepositoryFiltered ByDateRange input v)) eqn:Happlied.
  - apply keep_Forall.
  - apply andb_false_iff in Happlied as [Hnone | Hrepo].
    + apply orb_false_iff in Hnone as [Hs He].
      destruct (in_startDate input); [discriminate|].
      destruct (in_endDate input); [discriminate|].
      apply Forall_forall. reflexivity.
    + apply negb_false_iff in Hrepo. unfold wasRepositoryFiltered in Hrepo.
      destruct (filterCount input v =? 1)%nat eqn:Hone; [|discriminate].
      cbn [negb] in Hrepo. apply Nat.eqb_eq, count_cases in Hone.
      destruct Hone as [H | [H | [H | H]]];
        destruct H as (Hu & Hl & Hd & Hx); try congruence.
      rewrite Hu, Hl, Hd in Hraw.
      apply bind_ok in Hraw as (allSections & _ & Hraw). injection Hraw as <-.
      unfold bothDates in Hd.
      destruct (in_startDate input) as [startDate |]; [|discriminate].
      destruct (in_endDate input) as [endDate |]; [|discriminate].
      cbn [orZero].
      repeat apply keep_preserves_if.
      eapply Forall_impl; [apply keep_Forall|].
      intros s Hs. cbv beta in Hs. now rewrite <- withinDates_both.
Qed.

Hypothesis several : (filterCount input v =? 1)%nat = false.

Lemma not_delegated filterType : wasRepositoryFiltered filterType input v = false.
Proof. unfold wasRepositoryFiltered. now rewrite several. Qed.

Lemma matches_source :
  given (in_sourceUrl input) = true ->
  Forall (fun s => matchesSourceUrl (orEmpty (in_sourceUrl input)) s = true) matches.
Proof.
  intros Hg. unfold retrieveFilteredSections in retrieved.
  apply bind_ok in retrieved as (raw & _ & Hm). injection Hm as <-.
  unfold applyAdditionalFilters. rewrite !not_delegated, Hg. cbn [negb andb].
  repeat apply keep_preserves_if. apply keep_Forall.
Qed.

Lemma matches_level :
  givenNumber (v_level v) = true ->
  Forall (fun s => matchesLevel (orZero (v_level v)) s = true) matches.
Proof.
  intros Hg. unfold retrieveFilteredSections in retrieved.
  apply bind_ok in retrieved as (raw & _ & Hm). injection Hm as <-.
  unfold applyAdditionalFilters. rewrite !not_delegated, Hg. cbn [negb andb].
  repeat apply keep_preserves_if. apply keep_Forall.
Qed.

Lemma matches_search :
  given (in_searchText input) = true ->
  Forall (fun s => matchesSearch (orEmpty (in_searchText input))
                     (in_searchInContent input) s = true) matches.
Proof.
  intros Hg. unfold retrieveFilteredSections in retrieved.
  apply bind_ok in retrieved as (raw & _ & Hm). injection Hm as <-.
  unfold applyAdditionalFilters. rewrite !not_delegated, Hg. cbn [negb andb].
  apply keep_Forall.
Qed.

End Filters.

Lemma Forall_cut (P : HeadingSection.t -> Prop) limit l l' :
  l' ≡ₚ l -> Forall P l ->
  Forall P (match limit with Some n => slice 0 n l' | None => l' end).
Proof.
  intros Hp Hl. assert (Hl' : Forall P l') by now rewrite Hp.
  destruct limit as [n |]; [|exact Hl'].
  unfold slice. now apply Forall_take, Forall_drop.
Qed.

(** X14.  Which criteria the use case enforces itself.  Whatever the
    repository answers, every section returned lies within the date
    bounds that were given (both, one or none).  When the request
    carries two or more of the main criteria (source URL, level, a
    complete date range, search text), every section returned also has
    the requested source URL, the requested level and matches the
    search text; with a single main criterion the answer of the
    repository's own query is passed on unchecked. *)
Theorem get_enforces_the_criteria
    (validUrl : string -> bool) (localeCompare : string -> string -> Z)
    {Store : Type} (repository : Repository Store)
    (input : GetHeadingSectionsInput) (st : Store)
    (sections : list HeadingSection.t) (totalCount : nat) (metadata : Metadata) :
  execute validUrl localeCompare repository input st
  = Found sections totalCount metadata ->
  Forall (fun s => withinDates (in_startDate input) (in_endDate input) s = true)
    sections
  /\ ((2 <= Asked.mainFilters input)%nat ->
      (forall sourceUrl,
         in_sourceUrl input = Some sourceUrl ->
         Forall (fun s => HeadingSection.sourceUrl s = sourceUrl) sections)
      /\ (forall level,
            in_level input = Some (Integer level) ->
            Forall (fun s => HeadingSection.level s = level) sections)
      /\ (forall searchText,
            in_searchText input = Some searchText -> searchText <> "" ->
            Forall (fun s => matchesSearch searchText (in_searchInContent input) s
                             = true) sections)).
Proof.
  intros H. apply execute_found in H as (v & matches & Hv & Hm & _ & -> & _).
  pose proof (sorting_perm localeCompare matches (in_sortBy input)
                (in_sortOrder input)) as Hperm.
  split.
  - apply (Forall_cut _ _ matches); [exact Hperm|].
    eapply matches_within_dates, Hm.
  - intros Htwo.
    assert (Hseveral : (filterCount input v =? 1)%nat = false).
    { rewrite (filterCount_mainFilters validUrl input v Hv).
      apply Nat.eqb_neq. lia. }
    destruct (validateInput_ok validUrl input v Hv) as (Hlevel & _ & Hurl).
    split; [|split].
    + intros sourceUrl Hs. rewrite Hs in Hurl.
      apply (Forall_cut _ _ matches); [exact Hperm|].
      eapply Forall_impl;
        [eapply (matches_source repository st input v matches Hm Hseveral)|].
      * unfold given. now rewrite Hs.
      * intros s. rewrite Hs. cbn [orEmpty]. unfold matchesSourceUrl.
        apply String.eqb_eq.
    + intros level Hl. rewrite Hl in Hlevel.
      destruct Hlevel as (z & [= <-] & Hvl & Hz).
      apply (Forall_cut _ _ matches); [exact Hperm|].
      eapply Forall_impl;
        [eapply (matches_level repository st input v matches Hm Hseveral)|].
      * rewrite Hvl. cbn. apply negb_true_iff, Z.eqb_neq. lia.
      * intros s. rewrite Hvl. cbn [orZero]. unfold matchesLevel. apply Z.eqb_eq.
    + intros searchText Hs Hne.
      apply (Forall_cut _ _ matches); [exact Hperm|].
      eapply Forall_impl;
        [eapply (matches_search repository st input v matches Hm Hseveral)|].
      * unfold given. rewrite Hs. destruct searchText; [contradiction | reflexivity].
      * intros s. now rewrite Hs.
Qed.

Lemma get_enforces_the_criteria_witness :
  exists sections,
    execute Spec.anyUrl Asked.byCode Asked.listed
      (mkInput None (Some (Integer 2)) None None (Some "usage") (Some true)
         None None None)
      Asked.threeStored
    = Found sections 1 (mkMetadata true false None None)
    /\ Forall (fun s => HeadingSection.level s = 2) sections
    /\ map HeadingSection.sectionId sections = ["s3"].
Proof.
  eexists. split; [reflexivity|]. split; [|reflexivity].
  destruct (get_enforces_the_criteria Spec.anyUrl Asked.byCode Asked.listed
              (mkInput None (Some (Integer 2)) None None (Some "usage") (Some true)
                 None None None)
              Asked.threeStored _ _ _ eq_refl) as (_ & H).
  destruct (H ltac:(vm_compute; lia)) as (_ & Hl & _).
  exact (Hl 2 eq_refl).
Defined.

(** X15.  [searchInContent] has no effect when the search text is the
    only main criterion: the use case then passes the text to the
    repository's title search and applies no filter of its own, so
    the answer is the same with the flag set, cleared or absent. *)
Theorem search_in_content_needs_a_second_criterion
    (validUrl : string -> bool) (localeCompare : string -> string -> Z)
    {Store : Type} (repository : Repository Store)
    (input : GetHeadingSectionsInput) (st : Store) (flag flag' : option bool) :
  in_sourceUrl input = None ->
  in_level input = None ->
  bothDates input = false ->
  given (in_searchText input) = true ->
  execute validUrl localeCompare repository
    (Asked.withSearchInContent flag input) st
  = execute validUrl localeCompare repository
      (Asked.withSearchInContent flag' input) st.
Proof.
  intros Hu Hl Hd Hs.
  assert (Hsame : forall b,
             validateInput validUrl (Asked.withSearchInContent b input)
             = validateInput validUrl input) by reflexivity.
  unfold execute. rewrite !Hsame.
  destruct (validateInput validUrl input) as [v | e] eqn:Hv; [|reflexivity].
  destruct (validateInput_ok validUrl input v Hv) as (Hlevel & _ & _).
  rewrite Hl in Hlevel.
  assert (Hret : forall b,
             retrieveFilteredSections repository st
               (Asked.withSearchInContent b input) v
             = (sections <-
                  searchSectionsByTitle repository st (orEmpty (in_searchText input)) ;;
                Ok (if isSome (in_startDate input) || isSome (in_endDate input)
                    then keep (withinDates (in_startDate input) (in_endDate input))
                           sections
                    else sections))).
  { intros b.
    unfold retrieveFilteredSections, applyAdditionalFilters, wasRepositoryFiltered,
      filterCount, bothDates, Asked.withSearchInContent in *.
    cbn [in_sourceUrl in_level in_startDate in_endDate in_searchText
           in_searchInContent in_limit in_sortBy in_sortOrder].
    rewrite Hu, Hlevel, Hs, Hd. cbn [given givenNumber andb negb].
    change (length (filter (fun b0 : bool => b0 = true) [false; false; false; true])
            =? 1)%nat with true.
    cbn [negb andb]. rewrite !andb_true_r. reflexivity. }
  rewrite !Hret. reflexivity.
Qed.

Lemma search_in_content_needs_a_second_criterion_witness :
  execute Spec.anyUrl Asked.byCode Asked.listed
    (mkInput None None None None (Some "usage") (Some true) None None None)
    Asked.threeStored
  = execute Spec.anyUrl Asked.byCode Asked.listed
      (mkInput None None None None (Some "usage") None None None None)
      Asked.threeStored.
Proof.
  apply (search_in_content_needs_a_second_criterion Spec.anyUrl Asked.byCode
           Asked.listed
           (mkInput None None None None (Some "usage") None None None None)
           Asked.threeStored (Some true) None); reflexivity.
Defined.

End QueryFacts.

(** ** Locating the heading of a section *)

Module FinderFacts.

Import Page HeadingElementFinder.

Lemma firstWith_elem p hs e :
  firstWith p hs = Some e -> exists t, (e, t) ∈ hs /\ p t = true.
Proof.
  unfold firstWith. destruct (List.find _ hs) as [[e' t] |] eqn:Hf; [|discriminate].
  intros [= <-]. apply find_some in Hf as [Hin Hp].
  exists t. split; [now apply list_elem_of_In | exact Hp].
Qed.

Lemma firstWith_none p hs e t :
  firstWith p hs = None -> (e, t) ∈ hs -> p t = false.
Proof.
  unfold firstWith. destruct (List.find _ hs) as [[e' t'] |] eqn:Hf; [discriminate|].
  intros _ Hin. apply list_elem_of_In in Hin.
  exact (find_none _ _ Hf (e, t) Hin).
Qed.

Lemma firstWith_first p hs1 e t hs2 :
  Forall (fun h => p (snd h) = false) hs1 -> p t = true ->
  firstWith p (hs1 ++ (e, t) :: hs2) = Some e.
Proof.
  unfold firstWith. induction 1 as [| [e' t'] r Hx _ IH]; intros Hp; cbn.
  - now rewrite Hp.
  - cbn in Hx. rewrite Hx. now apply IH.
Qed.

Lemma locateIn_elem section hs index e :
  locateIn section hs index = Some e -> exists t, (e, t) ∈ hs.
Proof.
  unfold locateIn.
  destruct (findExactMatch section hs) eqn:H1.
  { intros [= <-]. apply firstWith_elem in H1 as (t & Ht & _). eauto. }
  destruct (findNormalizedMatch section hs) eqn:H2.
  { intros [= <-]. apply firstWith_elem in H2 as (t & Ht & _). eauto. }
  destruct (findPartialMatch section hs) eqn:H3.
  { intros [= <-]. apply firstWith_elem in H3 as (t & Ht & _). eauto. }
  unfold findIndexMatch. destruct (hs !! index) as [[e' t] |] eqn:Hi; [|discriminate].
  intros [= <-]. exists t. eapply list_elem_of_lookup_2, Hi.
Qed.

Lemma prefix_empty s : String.prefix "" s = true.
Proof. now destruct s. Qed.

(** X16.  [HeadingElementFinder.find].  What it returns is a heading of
    the section's level that is in the document.  It returns [null]
    only if no heading of that level matches the title and the
    section's position is not below the number of such headings: with
    a position in range the heading at that position is the last
    resort.  A heading of the level whose text is empty matches every
    title, because every title starts with the empty text.  The first
    heading whose trimmed text equals the title is preferred to every
    other match and to the position, and it alone receives the
    section attribute; when nothing is found the document is left as
    it was. *)
Theorem find_returns_a_heading_of_the_level
    (section : HeadingSection.t) (index : nat) (d : Document) :
  let headingsOfItsLevel := headingsOfLevel d (HeadingSection.level section) in
  (forall e,
     fst (find section index d) = Some e ->
     exists h,
       h ∈ headings d /\ hid h = e /\ hLevel h = HeadingSection.level section)
  /\ ((index < length headingsOfItsLevel)%nat -> fst (find section index d) <> None)
  /\ ((exists e, (e, "") ∈ headingsOfItsLevel) -> fst (find section index d) <> None)
  /\ (forall before e after,
        headingsOfItsLevel
        = (before ++ (e, HeadingSection.titleText section) :: after)%list ->
        Forall (fun h => snd h <> HeadingSection.titleText section) before ->
        find section index d = (Some e, setSectionData e (Js.ofNat index) d))
  /\ (fst (find section index d) = None -> snd (find section index d) = d).
Proof.
  intros hs. unfold find. fold hs.
  split; [|split; [|split; [|split]]].
  - intros e. destruct (locateIn section hs index) as [e' |] eqn:Hl; [|discriminate].
    cbn. intros [= <-]. apply locateIn_elem in Hl as (t & Ht).
    unfold hs, headingsOfLevel in Ht.
    apply list_elem_of_fmap in Ht as (h & [= -> ->] & Hh).
    apply list_elem_of_filter in Hh as [Hlevel Hin]. eauto.
  - intros Hlt. destruct (locateIn section hs index) as [e |] eqn:Hl;
      [discriminate|].
    exfalso. unfold locateIn in Hl.
    destruct (findExactMatch section hs); [discriminate|].
    destruct (findNormalizedMatch section hs); [discriminate|].
    destruct (findPartialMatch section hs); [discriminate|].
    unfold findIndexMatch in Hl.
    destruct (lookup_lt_is_Some_2 hs index Hlt) as (x & Hx).
    rewrite Hx in Hl. discriminate.
  - intros (e & He).
    destruct (locateIn section hs index) as [e' |] eqn:Hl; [discriminate|].
    exfalso. unfold locateIn in Hl.
    destruct (findExactMatch section hs); [discriminate|].
    destruct (findNormalizedMatch section hs); [discriminate|].
    destruct (findPartialMatch section hs) eqn:Hp; [discriminate|].
    unfold findPartialMatch in Hp.
    pose proof (firstWith_none _ hs e "" Hp He) as Hno. cbv beta in Hno.
    unfold startsWith in Hno. rewrite (prefix_empty (HeadingSection.titleText section)) in Hno.
    rewrite orb_true_r in Hno. discriminate.
  - intros before e after Hhs Hbefore.
    unfold locateIn, findExactMatch. rewrite Hhs.
    rewrite (firstWith_first _ before e (HeadingSection.titleText section) after);
      [reflexivity | | apply String.eqb_refl].
    eapply Forall_impl; [exact Hbefore|]. intros h Hne. now apply String.eqb_neq.
  - destruct (locateIn section hs index); [discriminate | reflexivity].
Qed.

End FinderFacts.

(** ** Updating and paging *)

Module PagingFacts.

Import Json HeadingSectionStorageMapper ChromeStorageHeadingSectionRepository.
Import RepositoryFacts.

Lemma findIndex_some id l i :
  findIndex id l = Some i ->
  exists s,
    l !! i = Some s /\ HeadingSection.sectionId s = id
    /\ forall j s', (j < i)%nat -> l !! j = Some s' ->
         HeadingSection.sectionId s' <> id.
Proof.
  revert i. induction l as [| x r IH]; intros i; cbn [findIndex]; [discriminate|].
  destruct (Js.eqb (HeadingSection.sectionId x) id) eqn:Hx.
  - intros [= <-]. exists x. split; [reflexivity|].
    split; [now apply String.eqb_eq|]. intros j s' Hj. lia.
  - destruct (findIndex id r) as [k |]; [|discriminate]. intros [= <-].
    destruct (IH k eq_refl) as (s & Hs & Hid & Hfirst).
    exists s. split; [exact Hs|]. split; [exact Hid|].
    intros [| j] s' Hj Hl.
    + injection Hl as <-. now apply String.eqb_neq.
    + apply (Hfirst j s'); [lia | exact Hl].
Qed.

Lemma findIndex_none id l :
  findIndex id l = None -> Forall (fun s => HeadingSection.sectionId s <> id) l.
Proof.
  induction l as [| x r IH]; cbn [findIndex]; [constructor|].
  destruct (Js.eqb (HeadingSection.sectionId x) id) eqn:Hx; [discriminate|].
  destruct (findIndex id r); [discriminate|]. intros _.
  constructor; [now apply String.eqb_neq | now apply IH].
Qed.

(** X17.  [updateSection] replaces the first stored section that has
    the identifier of the given one and leaves every other section,
    and the order, as they were; when the write succeeds the store
    reads back as that list.  When no stored section has the
    identifier it reports the failure "Section not found for update"
    and writes nothing. *)
Theorem updateSection_replaces_in_place
    (toISOString : Z -> string) (newDate : Value -> option Z)
    (display : Value -> string) (byteSize : Value -> Z) (useSync : bool)
    (area : StorageArea) (section : HeadingSection.t)
    (existing : list HeadingSection.t) :
  (forall v t, newDate v = Some t -> newDate (Str (toISOString t)) = Some t) ->
  storable toISOString newDate section ->
  getAllSections newDate display area = Ok existing ->
  let outcome := updateSection toISOString newDate display byteSize useSync area section in
  (Forall (fun s => HeadingSection.sectionId s <> HeadingSection.sectionId section)
     existing ->
   outcome = (Failure (RepositoryError "Section not found for update"), area))
  /\ (fst outcome = Success tt ->
      exists i old,
        existing !! i = Some old
        /\ HeadingSection.sectionId old = HeadingSection.sectionId section
        /\ (forall j s', (j < i)%nat -> existing !! j = Some s' ->
              HeadingSection.sectionId s' <> HeadingSection.sectionId section)
        /\ getAllSections newDate display (snd outcome)
           = Ok (<[ i := section ]> existing)
        /\ length (<[ i := section ]> existing) = length existing
        /\ forall j, j <> i -> <[ i := section ]> existing !! j = existing !! j).
Proof.
  intros Hdates Hs Hread outcome. subst outcome. unfold updateSection.
  rewrite Hread. split.
  - intros Hnone.
    destruct (findIndex (HeadingSection.sectionId section) existing) as [i |] eqn:Hi;
      [|reflexivity].
    apply findIndex_some in Hi as (s & Hl & Hid & _).
    rewrite Forall_forall in Hnone. exfalso.
    apply (Hnone s); [eapply list_elem_of_lookup_2, Hl | exact Hid].
  - destruct (findIndex (HeadingSection.sectionId section) existing) as [i |] eqn:Hi;
      [|discriminate].
    destruct (saveSections toISOString byteSize useSync area _) as [area' |] eqn:Hsave.
    + intros _. cbn [snd]. apply findIndex_some in Hi as (old & Hl & Hid & Hfirst).
      exists i, old. split; [exact Hl|]. split; [exact Hid|]. split; [exact Hfirst|].
      split; [|split].
      * eapply (read_after_save toISOString newDate display byteSize useSync);
          [eapply getAll_reads, Hread | | exact Hsave].
        apply Forall_insert; [|exact Hs].
        eapply getAll_storable; [exact Hdates | exact Hread].
      * apply length_insert.
      * intros j Hj. apply list_lookup_insert_ne. congruence.
    + cbn [fst].
      destruct (handleStorageError_failure (A := unit) e "Failed to update section")
        as (err & ->).
      discriminate.
Qed.

Lemma updateSection_replaces_in_place_witness :
  getAllSections epochOnly noDisplay
    (snd (updateSection epochString epochOnly noDisplay noSize false
            (healthy (serializeSections epochString
                        [Spec.storedUsage; Spec.titled "Install"]))
            (Spec.titled "Setup")))
  = Ok [Spec.storedUsage; Spec.titled "Setup"].
Proof.
  destruct (updateSection_replaces_in_place epochString epochOnly noDisplay noSize
              false
              (healthy (serializeSections epochString
                          [Spec.storedUsage; Spec.titled "Install"]))
              (Spec.titled "Setup") [Spec.storedUsage; Spec.titled "Install"])
    as (_ & H).
  - intros v t. destruct v; try discriminate. cbn.
    destruct (Js.eqb s _); [|discriminate]. now intros [= <-].
  - repeat split.
  - reflexivity.
  - destruct (H eq_refl) as (i & old & _ & _ & _ & Hall & _). reflexivity.
Defined.

Lemma slice_window {A} (offset limit : Z) (l : list A) :
  0 <= offset -> 0 <= limit ->
  slice offset (offset + limit) l = take (Z.to_nat limit) (drop (Z.to_nat offset) l).
Proof.
  intros Ho Hl. unfold slice.
  destruct (offset <? 0) eqn:H1; [apply Z.ltb_lt in H1; lia|].
  destruct (offset + limit <? 0) eqn:H2; [apply Z.ltb_lt in H2; lia|].
  set (len := Z.of_nat (length l)).
  destruct (Z.le_gt_cases len offset) as [Hout | Hin].
  - rewrite !Z.min_r by lia. rewrite Z.sub_diag. cbn [Z.to_nat take].
    rewrite !drop_ge by (subst len; lia). now rewrite !take_nil.
  - rewrite (Z.min_l offset) by lia.
    destruct (Z.le_gt_cases (offset + limit) len) as [Hfit | Hover].
    + rewrite Z.min_l by lia. f_equal. lia.
    + rewrite Z.min_r by lia.
      rewrite !take_ge; [reflexivity | |]; rewrite length_drop; subst len; lia.
Qed.

(** X18.  [getSectionsPage] with an offset and a limit that are not
    negative returns the [limit] sections that follow the first
    [offset] ones (fewer at the end of the list), the number of all
    stored sections, and [hasMore] exactly when sections remain after
    the page.  A page followed by the next one is the page of their
    joint size, so consecutive pages cover the list without gaps or
    repetitions. *)
Theorem getSectionsPage_pages
    (newDate : Value -> option Z) (display : Value -> string)
    (area : StorageArea) (existing : list HeadingSection.t) (offset limit : Z) :
  getAllSections newDate display area = Ok existing ->
  0 <= offset -> 0 <= limit ->
  exists page,
    getSectionsPage newDate display area offset limit = Ok page
    /\ pageSections page
       = take (Z.to_nat limit) (drop (Z.to_nat offset) existing)
    /\ total page = Z.of_nat (length existing)
    /\ (hasMore page = true
        <-> drop (Z.to_nat (offset + limit)) existing <> [])
    /\ forall limit' page',
         0 <= limit' ->
         getSectionsPage newDate display area (offset + limit) limit' = Ok page' ->
         exists joint,
           getSectionsPage newDate display area offset (limit + limit') = Ok joint
           /\ pageSections joint = (pageSections page ++ pageSections page')%list.
Proof.
  intros Hread Ho Hl. unfold getSectionsPage. rewrite Hread.
  eexists. split; [reflexivity|]. cbn [pageSections total hasMore].
  split; [now apply slice_window|]. split; [reflexivity|]. split.
  - rewrite Z.ltb_lt. split.
    + intros Hlt Hnil.
      apply (f_equal length) in Hnil. rewrite length_drop in Hnil. cbn in Hnil. lia.
    + intros Hne. destruct (Z.lt_ge_cases (offset + limit) (Z.of_nat (length existing)))
        as [Hlt | Hge]; [exact Hlt|].
      exfalso. apply Hne. apply drop_ge. lia.
  - intros limit' page' Hl' [= <-]. eexists. split; [reflexivity|].
    cbn [pageSections]. rewrite !slice_window by lia.
    replace (Z.to_nat (limit + limit')) with (Z.to_nat limit + Z.to_nat limit')%nat
      by lia.
    replace (Z.to_nat (offset + limit)) with (Z.to_nat offset + Z.to_nat limit)%nat
      by lia.
    rewrite <- drop_drop. symmetry. apply take_take_drop.
Qed.

Lemma getSectionsPage_pages_witness :
  exists page,
    getSectionsPage epochOnly noDisplay
      (healthy (serializeSections epochString
                  [Spec.storedUsage; Spec.titled "Install"; Spec.titled "Setup"]))
      1 1 = Ok page
    /\ pageSections page = [Spec.titled "Install"]
    /\ total page = 3.
Proof.
  destruct (getSectionsPage_pages epochOnly noDisplay
              (healthy (serializeSections epochString
                          [Spec.storedUsage; Spec.titled "Install";
                           Spec.titled "Setup"]))
              [Spec.storedUsage; Spec.titled "Install"; Spec.titled "Setup"] 1 1
              eq_refl ltac:(lia) ltac:(lia))
    as (page & Hp & Hs & Ht & _).
  exists page. split; [exact Hp|]. split; [exact Hs | exact Ht].
Defined.

End PagingFacts.

(** ** From the page to the collection *)

Module MessageFacts.

Import TextFacts.

Lemma truthy_trim s : Js.truthy (Js.trim s) = true -> Js.truthy s = true.
Proof. destruct s; [discriminate | reflexivity]. Qed.

Lemma tag_of_level level :
  HeadingSection.isValidHeadingLevel level = true ->
  Js.eqb (Js.toUpperCase ("H" ++ Js.ofZ level)) ("H" ++ Js.ofZ level) = true.
Proof.
  intros Hv.
  destruct (TagFacts.level_cases level Hv) as [-> | [-> | [-> | [-> | [-> | ->]]]]];
    reflexivity.
Qed.

Lemma markup_not_blank (level : Z) (title : string) :
  Js.truthy (Js.trim ("<h" ++ Js.ofZ level ++ ">" ++ title ++ "</h"
                      ++ Js.ofZ level ++ ">")) = true.
Proof. reflexivity. Qed.

(** X19.  A section sent from the page arrives in the collection under
    its own identifier.  For a section with a level in 1..6, a title
    and an identifier that are not blank, and a page address that is a
    valid URL, [handleAddHeading] sends a message that the use case
    accepts, and the entity it builds has the section's identifier and
    title (trimmed), its level and the matching tag, and the markup of
    the section (trimmed).  Its source URL is the address of the page
    at the time of the click, not the one recorded in the section, and
    its date is the time of the addition. *)
Theorem sent_section_keeps_its_identifier
    (validUrl : string -> bool) (gen : string -> Z -> string -> string) (now : Z)
    (section : HeadingSection.t) (href : string) :
  HeadingSection.isValidHeadingLevel (HeadingSection.level section) = true ->
  Js.truthy (Js.trim (HeadingSection.titleText section)) = true ->
  Js.truthy (Js.trim (HeadingSection.sectionId section)) = true ->
  Js.truthy (Js.trim href) = true ->
  validUrl href = true ->
  exists input stored,
    ContentMessages.handleAddHeading section href = Some input
    /\ Spec.prepared validUrl gen now input = Ok stored
    /\ HeadingSection.sectionId stored = Js.trim (HeadingSection.sectionId section)
    /\ HeadingSection.level stored = HeadingSection.level section
    /\ HeadingSection.tagName stored = "H" ++ Js.ofZ (HeadingSection.level section)
    /\ HeadingSection.titleText stored = Js.trim (HeadingSection.titleText section)
    /\ HeadingSection.sourceUrl stored = href
    /\ HeadingSection.addedAt stored = now
    /\ (Js.truthy (Js.trim (HeadingSection.contentHtml section)) = true ->
        HeadingSection.contentHtml stored
        = Js.trim (HeadingSection.contentHtml section)).
Proof.
  intros Hlevel Htitle Hid Hhref Hurl.
  pose proof Hlevel as Hrange.
  apply HeadingSectionFacts.isValidHeadingLevel_spec in Hrange.
  assert (Hguard : AddHeadingSectionUseCase.isHeadingSection section = true).
  { unfold AddHeadingSectionUseCase.isHeadingSection.
    apply andb_true_iff. split; [rewrite Z.geb_leb|]; apply Z.leb_le; lia. }
  unfold ContentMessages.handleAddHeading. rewrite Hguard. cbn [negb].
  eexists.
  set (content :=
         if Js.truthy (Js.trim (HeadingSection.contentHtml section))
         then Js.trim (HeadingSection.contentHtml section)
         else "<h" ++ Js.ofZ (HeadingSection.level section) ++ ">"
              ++ Js.trim (HeadingSection.titleText section) ++ "</h"
              ++ Js.ofZ (HeadingSection.level section) ++ ">").
  exists (HeadingSection.mk (HeadingSection.level section)
            ("H" ++ Js.ofZ (HeadingSection.level section))
            (Js.trim (HeadingSection.titleText section)) content href now
            (Js.trim (HeadingSection.sectionId section))).
  split; [reflexivity|]. split.
  - unfold Spec.prepared, AddHeadingSectionUseCase.validateInput.
    cbn [AddHeadingSectionUseCase.in_level AddHeadingSectionUseCase.in_title
           AddHeadingSectionUseCase.in_sourceUrl AddHeadingSectionUseCase.in_id
           AddHeadingSectionUseCase.in_content].
    replace ((HeadingSection.level section <? 1) || (HeadingSection.level section >? 6))
      with false
      by (symmetry; apply orb_false_iff; split;
          [apply Z.ltb_ge | rewrite Z.gtb_ltb; apply Z.ltb_ge]; lia).
    cbn [bind]. rewrite (truthy_trim _ Htitle), !RemovingFacts.strlen_zero.
    rewrite Htitle, Hid, (truthy_trim _ Hhref), Hurl. cbn [negb andb guard bind].
    unfold AddHeadingSectionUseCase.createHeadingSection.
    cbn [AddHeadingSectionUseCase.in_level AddHeadingSectionUseCase.in_title
           AddHeadingSectionUseCase.in_sourceUrl AddHeadingSectionUseCase.in_id
           AddHeadingSectionUseCase.in_content].
    rewrite (truthy_trim _ Hid). fold content.
    unfold HeadingSection.createHeadingSection, HeadingSection.validateHeadingLevel,
      HeadingSection.validateTagName, HeadingSection.validateRequiredFields.
    cbn [HeadingSection.p_level HeadingSection.p_tagName HeadingSection.p_titleText
           HeadingSection.p_contentHtml HeadingSection.p_sourceUrl
           HeadingSection.p_sectionId].
    rewrite Hlevel, (tag_of_level _ Hlevel), !trim_idempotent, Htitle, Hid, Hhref, Hurl.
    assert (Hcontent : Js.truthy (Js.trim content) = true).
    { subst content.
      destruct (Js.truthy (Js.trim (HeadingSection.contentHtml section))) eqn:Hc.
      - now rewrite trim_idempotent.
      - apply markup_not_blank. }
    rewrite Hcontent. cbn [guard bind].
    pose proof (tag_of_level _ Hlevel) as Htag. apply String.eqb_eq in Htag.
    rewrite Htag.
    unfold AddHeadingSectionUseCase.isHeadingSection.
    cbn [HeadingSection.level].
    replace ((HeadingSection.level section >=? 1) && (HeadingSection.level section <=? 6))
      with true
      by (symmetry; apply andb_true_iff; split; [rewrite Z.geb_leb|];
          apply Z.leb_le; lia).
    reflexivity.
  - cbn. repeat split. intros Hc. subst content. now rewrite Hc.
Qed.

Lemma sent_section_keeps_its_identifier_witness :
  exists input stored,
    ContentMessages.handleAddHeading Spec.storedUsage "https://deepwiki.com/a/c"
    = Some input
    /\ Spec.prepared Spec.anyUrl Spec.fixedId 7 input = Ok stored
    /\ HeadingSection.sectionId stored = "deepwiki-com-h2-usage-old"
    /\ HeadingSection.sourceUrl stored = "https://deepwiki.com/a/c".
Proof.
  destruct (sent_section_keeps_its_identifier Spec.anyUrl Spec.fixedId 7
              Spec.storedUsage "https://deepwiki.com/a/c"
              eq_refl eq_refl eq_refl eq_refl eq_refl)
    as (input & stored & Hsent & Hp & Hid & _ & _ & _ & Hurl & _).
  exists input, stored. repeat split; assumption.
Defined.

End MessageFacts.

(** ** The feedback of a click *)

Module FeedbackFacts.

Import ButtonFactory ButtonFeedback.

Lemma updateButtonState_tracked buttonId state m button :
  buttons m !! buttonId = Some button ->
  updateButtonState buttonId state m
  = mkManager (<[ buttonId := ButtonFactory.updateButtonState button state ]> (buttons m))
      (timers m) (handled m).
Proof. unfold updateButtonState. now intros ->. Qed.

Lemma style_updated button state :
  style (ButtonFactory.updateButtonState button state)
  = stateStyles state ∪ style button.
Proof. destruct state; reflexivity. Qed.

Lemma no_cursor_in state :
  state <> Adding -> stateStyles state !! "cursor" = None.
Proof. destruct state; intros H; try contradiction; vm_compute; reflexivity. Qed.

Lemma cursor_after button state :
  state <> Adding ->
  style (ButtonFactory.updateButtonState
           (ButtonFactory.updateButtonState
              (ButtonFactory.updateButtonState button Adding) state) Default)
    !! "cursor" = Some "not-allowed".
Proof.
  intros Hstate. rewrite !style_updated.
  rewrite lookup_union_r by (apply no_cursor_in; discriminate).
  rewrite lookup_union_r by (apply no_cursor_in; exact Hstate).
  apply lookup_union_Some_l. vm_compute. reflexivity.
Qed.

(** X20.  The feedback of a click.  A click on an enabled, tracked
    button hands the section to the callback exactly once and leaves
    the button enabled, showing the success icon if the callback
    returned and the error icon if it threw, with one timer set to
    restore the default state after 1500 ms or 2000 ms.  When that
    timer fires the button shows the default icon again, but its
    [cursor] style stays ["not-allowed"], the value the "adding" state
    gave it: no later state assigns [cursor], while a button fresh
    from the factory has ["pointer"].  A click on a disabled button
    does nothing.  A click on an enabled button that the manager no
    longer tracks still hands the section to the callback and sets the
    timer; it changes no button. *)
Theorem click_feedback
    (buttonId : string) (section : HeadingSection.t)
    (onButtonClick : HeadingSection.t -> Outcome unit)
    (m : Manager) (button : Button) :
  buttons m !! buttonId = Some button ->
  disabled button = false ->
  timers m = [] ->
  let succeeded := match onButtonClick section with Ok _ => true | Throw _ => false end in
  let clicked := click button buttonId section onButtonClick m in
  handled clicked = (handled m ++ [section])%list
  /\ timers clicked
     = [(buttonId, Default, if succeeded then FEEDBACK_SUCCESS else FEEDBACK_ERROR)]
  /\ (exists shown,
        buttons clicked !! buttonId = Some shown
        /\ disabled shown = false
        /\ innerHTML shown = stateIcon (if succeeded then Success else Error))
  /\ (exists restored,
        buttons (timerFires clicked) !! buttonId = Some restored
        /\ innerHTML restored = stateIcon Default
        /\ disabled restored = false
        /\ style restored !! "cursor" = Some "not-allowed")
  /\ timers (timerFires clicked) = []
  /\ (forall section' index,
        style (create section' index) !! "cursor" = Some "pointer"
        /\ disabled (create section' index) = false)
  /\ (forall stale m',
        disabled stale = true ->
        click stale buttonId section onButtonClick m' = m')
  /\ (forall stale m',
        disabled stale = false ->
        buttons m' !! buttonId = None ->
        click stale buttonId section onButtonClick m'
        = mkManager (buttons m')
            (timers m'
             ++ [(buttonId, Default,
                  if succeeded then FEEDBACK_SUCCESS else FEEDBACK_ERROR)])%list
            (handled m' ++ [section])%list).
Proof.
  intros Htracked Henabled Htimers succeeded clicked.
  assert (Hclicked :
            clicked
            = mkManager
                (<[ buttonId :=
                      ButtonFactory.updateButtonState
                        (ButtonFactory.updateButtonState button Adding)
                        (if succeeded then Success else Error) ]>
                   (<[ buttonId := ButtonFactory.updateButtonState button Adding ]>
                      (buttons m)))
                [(buttonId, Default,
                  if succeeded then FEEDBACK_SUCCESS else FEEDBACK_ERROR)]
                (handled m ++ [section])%list).
  { subst clicked succeeded. unfold click. rewrite Henabled.
    unfold handleButtonClick.
    rewrite (updateButtonState_tracked buttonId Adding m button Htracked).
    unfold call. cbn [buttons timers handled].
    destruct (onButtonClick section);
      (erewrite updateButtonState_tracked
         by (cbn [buttons]; apply lookup_insert_eq));
      unfold setTimeout; cbn [buttons timers handled]; rewrite Htimers; reflexivity. }
  rewrite Hclicked. cbn [handled timers buttons].
  split; [reflexivity|]. split; [reflexivity|].
  split; [|split; [|split; [|split; [|split]]]].
  - eexists. split; [apply lookup_insert_eq|].
    split; [now destruct succeeded | now destruct succeeded].
  - unfold timerFires. cbn [timers].
    erewrite updateButtonState_tracked by (cbn [buttons]; apply lookup_insert_eq).
    cbn [buttons]. eexists. split; [apply lookup_insert_eq|].
    split; [reflexivity|]. split; [reflexivity|].
    apply cursor_after. destruct succeeded; discriminate.
  - unfold timerFires. cbn [timers].
    erewrite updateButtonState_tracked by (cbn [buttons]; apply lookup_insert_eq).
    reflexivity.
  - intros section' index. split; reflexivity.
  - intros stale m' Hdisabled. unfold click. now rewrite Hdisabled.
  - intros stale m' Hstale Hnone. unfold click. rewrite Hstale.
    assert (Huntracked : forall state timers' handled',
               updateButtonState buttonId state
                 (mkManager (buttons m') timers' handled')
               = mkManager (buttons m') timers' handled').
    { intros state timers' handled'. unfold updateButtonState.
      cbn [buttons]. now rewrite Hnone. }
    unfold handleButtonClick.
    replace (updateButtonState buttonId Adding m') with m'
      by (unfold updateButtonState; now rewrite Hnone).
    unfold call. subst succeeded.
    destruct (onButtonClick section); rewrite Huntracked; reflexivity.
Qed.

Lemma click_feedback_witness :
  let m :=
    mkManager {[ "dwpp-btn-0-usage" := create (Spec.titled "Usage") 0 ]} [] [] in
  handled (click (create (Spec.titled "Usage") 0) "dwpp-btn-0-usage"
             (Spec.titled "Usage") (fun _ => Ok tt) m)
  = [Spec.titled "Usage"].
Proof.
  cbv zeta.
  apply (click_feedback "dwpp-btn-0-usage" (Spec.titled "Usage") (fun _ => Ok tt)
           (mkManager {[ "dwpp-btn-0-usage" := create (Spec.titled "Usage") 0 ]} [] [])
           (create (Spec.titled "Usage") 0)).
  - apply lookup_singleton_eq.
  - reflexivity.
  - reflexivity.
Defined.

End FeedbackFacts.

(** ** The SPA monitor between [startMonitoring] and [stopMonitoring] *)

Module SessionFacts.

Import SPAMonitorService SPAMonitorSession DomContent.

Lemma checkNavigationChange_callbacks currentUrl m :
  navigationCallbacks (checkNavigationChange currentUrl m) = navigationCallbacks m.
Proof.
  unfold checkNavigationChange. now destruct (negb (Js.eqb currentUrl (lastUrl m))).
Qed.

Lemma checkNavigationChange_idle currentUrl m :
  navigationCallbacks m = [] ->
  invocations (checkNavigationChange currentUrl m) = invocations m.
Proof.
  intros Hnone. unfold checkNavigationChange.
  destruct (negb (Js.eqb currentUrl (lastUrl m))); [|reflexivity].
  cbn [invocations]. now rewrite Hnone.
Qed.

Lemma fresh_consistent url : Consistent (fresh, freshWindow url).
Proof.
  cbn. split; [congruence|]. repeat split; reflexivity.
Qed.

Lemma step_consistent state event :
  Consistent state -> Consistent (step state event).
Proof.
  destruct state as [s w]. destruct s as [active m cc ci mo dt pd op orp].
  destruct w as [url ps rs pl nt].
  unfold Consistent. cbn [isActive monitor contentCallbacks pending debounceTimer
    pushState replaceState originalPushState originalReplaceState
    popstateListener mutationObserver].
  intros [Hpending Hfields].
  destruct event as [onNav onContent | | target | target | target | | mutations | ];
    cbn [step].
  - unfold startMonitoring. cbn [isActive]. destruct active.
    + cbn [isActive]. split; [exact Hpending | exact Hfields].
    + destruct Hfields as (Hn & Hc & Hps & Hrs & _ & _ & _ & _ & Hpd).
      cbn [isActive monitor contentCallbacks pending debounceTimer pushState
        replaceState originalPushState originalReplaceState popstateListener
        mutationObserver navigationCallbacks href navigationTimers].
      split; [exact Hpending|]. rewrite Hn. subst. repeat split; reflexivity.
  - unfold stopMonitoring. cbn [isActive]. destruct active; cbn [negb].
    + destruct Hfields as (_ & _ & _ & _ & Hop & Horp & _ & _).
      cbn [isActive monitor contentCallbacks pending debounceTimer pushState
        replaceState originalPushState originalReplaceState popstateListener
        mutationObserver navigationCallbacks].
      assert (Hcleared : (if dt then None else pd) = None).
      { destruct dt; [reflexivity|]. destruct pd; [|reflexivity].
        now discriminate Hpending. }
      rewrite Hcleared, Hop, Horp. split; [congruence|]. repeat split; reflexivity.
    + cbn [isActive]. split; [exact Hpending | exact Hfields].
  - cbn [pushState originalPushState isActive pending debounceTimer monitor
      contentCallbacks mutationObserver originalReplaceState].
    split; [exact Hpending|].
    unfold navigate. destruct ps; [|destruct op as [[|]|]];
      cbn [pushState replaceState popstateListener]; exact Hfields.
  - cbn [replaceState originalReplaceState isActive pending debounceTimer monitor
      contentCallbacks mutationObserver originalPushState].
    split; [exact Hpending|].
    unfold navigate. destruct rs; [|destruct orp as [[|]|]];
      cbn [pushState replaceState popstateListener]; exact Hfields.
  - cbn [popstateListener pushState replaceState navigationTimers href].
    destruct pl; cbn [withMonitor isActive pending debounceTimer monitor
      contentCallbacks mutationObserver originalPushState originalReplaceState
      pushState replaceState popstateListener];
      (split; [exact Hpending|]);
      rewrite ?checkNavigationChange_callbacks; exact Hfields.
  - cbn [navigationTimers]. destruct nt as [|n];
      cbn [withMonitor isActive pending debounceTimer monitor
        contentCallbacks mutationObserver originalPushState originalReplaceState
        pushState replaceState popstateListener href];
      (split; [exact Hpending|]);
      rewrite ?checkNavigationChange_callbacks; exact Hfields.
  - cbn [mutationObserver]. destruct mo.
    + unfold observerCallback.
      cbn [isActive pending debounceTimer monitor contentCallbacks
        mutationObserver originalPushState originalReplaceState].
      split; [reflexivity|]. destruct active; [exact Hfields|].
      destruct Hfields as (_ & _ & _ & _ & _ & _ & _ & Hmo & _). discriminate Hmo.
    + cbn [isActive pending debounceTimer monitor contentCallbacks
        mutationObserver originalPushState originalReplaceState].
      split; [exact Hpending | exact Hfields].
  - cbn [pending]. destruct pd as [mutations|].
    + unfold debounced.
      cbn [isActive pending debounceTimer monitor contentCallbacks
        mutationObserver originalPushState originalReplaceState contentInvocations].
      destruct (detectSignificantChange mutations);
        cbn [isActive pending debounceTimer monitor contentCallbacks
          mutationObserver originalPushState originalReplaceState];
        (split; [congruence|]);
        (destruct active; [exact Hfields|]);
        destruct Hfields as (_ & _ & _ & _ & _ & _ & _ & _ & Hpd); discriminate Hpd.
    + cbn [isActive pending debounceTimer monitor contentCallbacks
        mutationObserver originalPushState originalReplaceState].
      split; [exact Hpending | exact Hfields].
Qed.

Lemma run_consistent events : forall state,
  Consistent state -> Consistent (run state events).
Proof.
  induction events as [|event events IH]; intros state Hstate; [exact Hstate|].
  cbn [run fold_left]. apply IH. now apply step_consistent.
Qed.

Lemma run_app state events events' :
  run state (events ++ events') = run (run state events) events'.
Proof. unfold run. apply fold_left_app. Qed.

(** X21.  Whatever sequence of starts, stops, navigations, mutations and
    timer expiries the service goes through from its creation, it holds
    exactly one navigation callback and one content callback and both
    History methods are its wrappers while it monitors, and it holds no
    callback, no armed debounce timer, and the page has its native
    History methods back and no popstate listener while it does not. *)
Theorem monitoring_never_accumulates url events :
  let '(s, w) := run (fresh, freshWindow url) events in
  if isMonitoring s
  then length (navigationCallbacks (monitor s)) = 1%nat
       /\ length (contentCallbacks s) = 1%nat
       /\ pushState w = Wrapper /\ replaceState w = Wrapper
       /\ popstateListener w = true
       /\ mutationObserver s = true
  else navigationCallbacks (monitor s) = []
       /\ contentCallbacks s = []
       /\ pushState w = Native /\ replaceState w = Native
       /\ popstateListener w = false
       /\ mutationObserver s = false
       /\ pending s = None.
Proof.
  pose proof (run_consistent events _ (fresh_consistent url)) as Hrun.
  destruct (run (fresh, freshWindow url) events) as [s w].
  unfold Consistent in Hrun. unfold isMonitoring.
  destruct Hrun as [_ Hfields]. destruct (isActive s).
  - destruct Hfields as (? & ? & ? & ? & _ & _ & ? & ?). repeat split; assumption.
  - destruct Hfields as (? & ? & ? & ? & _ & _ & ? & ? & ?). repeat split; assumption.
Qed.

Lemma idle_step state event :
  Consistent state ->
  isActive (fst state) = false ->
  isStart event = false ->
  isActive (fst (step state event)) = false
  /\ invocations (monitor (fst (step state event)))
     = invocations (monitor (fst state))
  /\ contentInvocations (fst (step state event)) = contentInvocations (fst state).
Proof.
  destruct state as [s w]. destruct s as [active m cc ci mo dt pd op orp].
  destruct w as [url ps rs pl nt].
  unfold Consistent. cbn [fst isActive monitor contentCallbacks pending
    debounceTimer pushState replaceState originalPushState originalReplaceState
    popstateListener mutationObserver contentInvocations].
  intros [_ Hfields] -> Hevent.
  destruct Hfields as (Hn & _ & _ & _ & _ & _ & Hpl & Hmo & Hpd). subst.
  destruct event as [onNav onContent | | target | target | target | | mutations | ];
    try discriminate Hevent; cbn [step].
  - unfold stopMonitoring. cbn. repeat split; reflexivity.
  - cbn. repeat split; reflexivity.
  - cbn. repeat split; reflexivity.
  - cbn. repeat split; reflexivity.
  - destruct nt as [|n]; cbn [navigationTimers fst withMonitor isActive monitor
      contentInvocations href]; [repeat split; reflexivity|].
    split; [reflexivity|]. split; [|reflexivity].
    now apply checkNavigationChange_idle.
  - cbn. repeat split; reflexivity.
  - cbn. repeat split; reflexivity.
Qed.

Lemma idle_run events : forall state,
  Consistent state ->
  isActive (fst state) = false ->
  forallb (fun event => negb (isStart event)) events = true ->
  isActive (fst (run state events)) = false
  /\ invocations (monitor (fst (run state events)))
     = invocations (monitor (fst state))
  /\ contentInvocations (fst (run state events)) = contentInvocations (fst state).
Proof.
  induction events as [|event events IH]; intros state Hstate Hidle Hevents.
  - repeat split; [exact Hidle].
  - cbn [forallb] in Hevents. apply andb_prop in Hevents as [Hevent Hevents].
    apply negb_true_iff in Hevent.
    destruct (idle_step state event Hstate Hidle Hevent) as (Hidle' & Hn & Hc).
    cbn [run fold_left].
    destruct (IH (step state event) (step_consistent _ _ Hstate) Hidle' Hevents)
      as (Hidle'' & Hn' & Hc').
    unfold run in *. rewrite Hn', Hc', Hn, Hc. repeat split. exact Hidle''.
Qed.

Lemma stop_idle state : isActive (fst (step state Stop)) = false.
Proof.
  destruct state as [s w]. cbn [step]. unfold stopMonitoring.
  destruct (isActive s) eqn:Hactive; cbn [negb fst isActive]; [reflexivity|].
  exact Hactive.
Qed.

(** X22.  Once [stopMonitoring] has run, no navigation callback and no
    content callback is called until the next [startMonitoring],
    whatever happens on the page: navigations, mutations, and the
    expiry of timers that were armed before the stop. *)
Theorem nothing_is_called_after_stop url before after :
  forallb (fun event => negb (isStart event)) after = true ->
  let stopped := step (run (fresh, freshWindow url) before) Stop in
  let later := run stopped after in
  isMonitoring (fst later) = false
  /\ invocations (monitor (fst later)) = invocations (monitor (fst stopped))
  /\ contentInvocations (fst later) = contentInvocations (fst stopped).
Proof.
  intros Hafter stopped later. subst later. unfold isMonitoring.
  apply idle_run.
  - subst stopped. apply step_consistent, run_consistent, fresh_consistent.
  - subst stopped. apply stop_idle.
  - exact Hafter.
Qed.

Lemma nothing_is_called_after_stop_witness :
  let quiet := mkCallback 1 (fun _ => false) in
  let heading := mkAdded 5 true false true 0 4 None in
  let stopped :=
    step (run (fresh, freshWindow "https://deepwiki.com/a/b")
            [Start quiet 2; PushState "https://deepwiki.com/a/c";
             Mutations [mkMutation true [heading]]])
         Stop in
  let later :=
    run stopped
      [NavigationTimerFires; DebounceTimerFires;
       PopState "https://deepwiki.com/a/b"; Mutations [mkMutation true [heading]];
       DebounceTimerFires] in
  invocations (monitor (fst later)) = []
  /\ contentInvocations (fst later) = [].
Proof.
  cbv zeta.
  destruct (nothing_is_called_after_stop "https://deepwiki.com/a/b"
              [Start (mkCallback 1 (fun _ => false)) 2;
               PushState "https://deepwiki.com/a/c";
               Mutations [mkMutation true [mkAdded 5 true false true 0 4 None]]]
              [NavigationTimerFires; DebounceTimerFires;
               PopState "https://deepwiki.com/a/b";
               Mutations [mkMutation true [mkAdded 5 true false true 0 4 None]];
               DebounceTimerFires]
              eq_refl) as (_ & Hn & Hc).
  split; [rewrite Hn | rewrite Hc]; reflexivity.
Defined.

Lemma burst_keeps w batches : forall s,
  mutationObserver s = true ->
  exists s',
    run (s, w) (map Mutations batches) = (s', w)
    /\ mutationObserver s' = true
    /\ contentCallbacks s' = contentCallbacks s
    /\ contentInvocations s' = contentInvocations s.
Proof.
  induction batches as [|batch batches IH]; intros s Hobserving.
  - exists s. repeat split. exact Hobserving.
  - cbn [map run fold_left step]. rewrite Hobserving.
    destruct (IH (observerCallback batch s) Hobserving)
      as (s' & Hrun & Hmo & Hcc & Hci).
    exists s'. unfold run in Hrun. rewrite Hrun. repeat split; assumption.
Qed.

(** X23.  The content observer debounces by restarting its timer with
    the mutations of the latest call only.  When several batches of
    mutations arrive before the timer expires, the expiry inspects the
    last batch alone: the callbacks are called with the significant
    element of that batch, or not at all when it has none, whatever the
    earlier batches added. *)
Theorem only_the_last_batch_is_inspected s w earlier last :
  mutationObserver s = true ->
  let s' := fst (run (s, w)
                   (map Mutations earlier ++ [Mutations last; DebounceTimerFires])) in
  contentInvocations s'
  = (contentInvocations s
     ++ match detectSignificantChange last with
        | Some element =>
            map (fun callback => (callback, element)) (contentCallbacks s)
        | None => []
        end)%list
  /\ pending s' = None.
Proof.
  intros Hobserving s'. subst s'. rewrite run_app.
  destruct (burst_keeps w earlier s Hobserving) as (s1 & Hrun & Hmo & Hcc & Hci).
  rewrite Hrun. cbn [run fold_left step]. rewrite Hmo.
  unfold observerCallback. cbn [step pending]. unfold debounced.
  cbn [isActive monitor contentCallbacks contentInvocations mutationObserver
    debounceTimer pending originalPushState originalReplaceState].
  destruct (detectSignificantChange last);
    cbn [fst contentInvocations pending]; rewrite ?Hcc, Hci.
  - split; reflexivity.
  - now rewrite app_nil_r.
Qed.

Lemma only_the_last_batch_is_inspected_witness :
  let quiet := mkCallback 1 (fun _ => false) in
  let started := startMonitoring quiet 2 fresh (freshWindow "https://deepwiki.com/a/b") in
  let article := mkAdded 5 true true false 3 400 None in
  let spinner := mkAdded 6 true false false 0 0 None in
  contentInvocations
    (fst (run started
            [Mutations [mkMutation true [article]];
             Mutations [mkMutation true [spinner]];
             DebounceTimerFires]))
  = [].
Proof.
  cbv zeta.
  destruct (only_the_last_batch_is_inspected
              (fst (startMonitoring (mkCallback 1 (fun _ => false)) 2 fresh
                      (freshWindow "https://deepwiki.com/a/b")))
              (snd (startMonitoring (mkCallback 1 (fun _ => false)) 2 fresh
                      (freshWindow "https://deepwiki.com/a/b")))
              [[mkMutation true [mkAdded 5 true true false 3 400 None]]]
              [mkMutation true [mkAdded 6 true false false 0 0 None]]
              eq_refl) as [Hcalls _].
  exact Hcalls.
Defined.

Lemma detectInNodes_none nodes :
  detectInNodes nodes = None
  <-> (forall node, In node nodes -> isElement node = true ->
         matchesContentSelector node = false /\ matchesHeading node = false
         /\ headingCount node = 0%nat /\ firstMarkdownInside node = None).
Proof.
  induction nodes as [|node nodes IH]; cbn [detectInNodes].
  - split; [intros _ ? [] | reflexivity].
  - unfold isSignificantElement, findSignificantChildElement, hasValidContent.
    destruct (isElement node) eqn:Helement.
    + destruct (matchesContentSelector node) eqn:Hcontent.
      { split; [discriminate|]. intros Hall.
        destruct (Hall node (or_introl eq_refl) Helement) as (? & _). congruence. }
      destruct (matchesHeading node) eqn:Hheading.
      { split; [discriminate|]. intros Hall.
        destruct (Hall node (or_introl eq_refl) Helement) as (_ & ? & _). congruence. }
      destruct (headingCount node) as [|count] eqn:Hcount.
      * cbn. destruct (firstMarkdownInside node) eqn:Hinside.
        { split; [discriminate|]. intros Hall.
          destruct (Hall node (or_introl eq_refl) Helement) as (_ & _ & _ & ?).
          congruence. }
        rewrite IH. split.
        -- intros Hall node' [<- | Hin] Helement'; [|now apply Hall].
           repeat split; assumption.
        -- intros Hall node' Hin. apply Hall. now right.
      * assert (Hsome :
                  (if (2 <=? S count)%nat || (0 <? S count)%nat && (50 <=? textLength node)%nat
                   then Some (nodeId node)
                   else if (0 <? S count)%nat then Some (nodeId node)
                        else firstMarkdownInside node)
                  = Some (nodeId node)).
        { destruct ((2 <=? S count)%nat || (0 <? S count)%nat && (50 <=? textLength node)%nat);
            reflexivity. }
        destruct ((2 <=? S count)%nat || (0 <? S count)%nat && (50 <=? textLength node)%nat).
        -- split; [discriminate|]. intros Hall.
           destruct (Hall node (or_introl eq_refl) Helement) as (_ & _ & ? & _).
           congruence.
        -- cbn. split; [discriminate|]. intros Hall.
           destruct (Hall node (or_introl eq_refl) Helement) as (_ & _ & ? & _).
           congruence.
    + rewrite IH. split.
      * intros Hall node' [<- | Hin] Helement'; [congruence | now apply Hall].
      * intros Hall node' Hin. apply Hall. now right.
Qed.

Lemma detectInNodes_some nodes element :
  detectInNodes nodes = Some element ->
  exists node,
    In node nodes /\ isElement node = true
    /\ ((element = nodeId node
         /\ (matchesContentSelector node = true \/ matchesHeading node = true
             \/ (0 < headingCount node)%nat))
        \/ firstMarkdownInside node = Some element).
Proof.
  induction nodes as [|node nodes IH]; cbn [detectInNodes]; [discriminate|].
  unfold isSignificantElement, findSignificantChildElement, hasValidContent.
  destruct (isElement node) eqn:Helement.
  - destruct (matchesContentSelector node) eqn:Hcontent.
    { intros [= <-]. exists node. split; [now left|]. split; [exact Helement|].
      left. split; [reflexivity | now left]. }
    destruct (matchesHeading node) eqn:Hheading.
    { intros [= <-]. exists node. split; [now left|]. split; [exact Helement|].
      left. split; [reflexivity | right; now left]. }
    destruct (headingCount node) as [|count] eqn:Hcount.
    + cbn. destruct (firstMarkdownInside node) eqn:Hinside.
      * intros [= <-]. exists node. split; [now left|]. split; [exact Helement|].
        now right.
      * intros Hrest. destruct (IH Hrest) as (node' & Hin & Hrest').
        exists node'. split; [now right | exact Hrest'].
    + intros Hfound.
      assert (Hself : element = nodeId node).
      { destruct ((2 <=? S count)%nat || (0 <? S count)%nat && (50 <=? textLength node)%nat);
          cbn in Hfound; congruence. }
      exists node. split; [now left|]. split; [exact Helement|].
      left. split; [exact Hself|]. right. right. rewrite Hcount. lia.
  - intros Hrest. destruct (IH Hrest) as (node' & Hin & Hrest').
    exists node'. split; [now right | exact Hrest'].
Qed.

(** X24.  The content callbacks are called for a batch of mutations
    exactly when a child-list record adds an element that matches a
    content selector, is a heading, contains a heading or contains a
    markdown container; the element handed over is that added element,
    or the first markdown container inside it.  The thresholds of
    [hasValidContent] (two headings, fifty characters) never decide:
    one heading inside is enough. *)
Theorem detectSignificantChange_characterised mutations :
  (detectSignificantChange mutations = None
   <-> forall mutation node,
         In mutation mutations -> isChildList mutation = true ->
         In node (addedNodes mutation) -> isElement node = true ->
         matchesContentSelector node = false /\ matchesHeading node = false
         /\ headingCount node = 0%nat /\ firstMarkdownInside node = None)
  /\ (forall element,
        detectSignificantChange mutations = Some element ->
        exists mutation node,
          In mutation mutations /\ isChildList mutation = true
          /\ In node (addedNodes mutation) /\ isElement node = true
          /\ ((element = nodeId node
               /\ (matchesContentSelector node = true \/ matchesHeading node = true
                   \/ (0 < headingCount node)%nat))
              \/ firstMarkdownInside node = Some element)).
Proof.
  induction mutations as [|mutation mutations [IHnone IHsome]];
    cbn [detectSignificantChange].
  - split; [split; [intros _ ? ? [] | reflexivity] | discriminate].
  - destruct (isChildList mutation) eqn:Hchild; cbn [andb].
    + destruct (addedNodes mutation) as [|first others] eqn:Hadded.
      * cbn. split.
        -- rewrite IHnone. split.
           ++ intros Hall mutation' node [<- | Hin] Hchild' Hnode.
              ** rewrite Hadded in Hnode. destruct Hnode.
              ** exact (Hall mutation' node Hin Hchild' Hnode).
           ++ intros Hall mutation' node Hin. apply Hall. right. exact Hin.
        -- intros element Hfound.
           destruct (IHsome element Hfound) as (mutation' & node & Hin & Hrest).
           exists mutation', node. split; [now right | exact Hrest].
      * change (0 <? length (first :: others))%nat with true. cbv iota.
        rewrite <- Hadded.
        destruct (detectInNodes (addedNodes mutation)) as [found|] eqn:Hnodes.
        -- split.
           ++ split; [discriminate|]. intros Hall.
              assert (Hnone : detectInNodes (addedNodes mutation) = None).
              { apply detectInNodes_none. intros node Hin.
                now apply (Hall mutation node (or_introl eq_refl) Hchild Hin). }
              congruence.
           ++ intros element [= <-].
              destruct (detectInNodes_some _ _ Hnodes) as (node & Hin & Helement & Hwhy).
              exists mutation, node. split; [now left|]. repeat split; assumption.
        -- split.
           ++ rewrite IHnone. split.
              ** intros Hall mutation' node [<- | Hin] Hchild' Hnode.
                 --- now apply (proj1 (detectInNodes_none _) Hnodes).
                 --- exact (Hall mutation' node Hin Hchild' Hnode).
              ** intros Hall mutation' node Hin. apply Hall. right. exact Hin.
           ++ intros element Hfound.
              destruct (IHsome element Hfound) as (mutation' & node & Hin & Hrest).
              exists mutation', node. split; [now right | exact Hrest].
    + split.
      * rewrite IHnone. split.
        -- intros Hall mutation' node [<- | Hin] Hchild' Hnode; [congruence|].
           exact (Hall mutation' node Hin Hchild' Hnode).
        -- intros Hall mutation' node Hin. apply Hall. right. exact Hin.
      * intros element Hfound.
        destruct (IHsome element Hfound) as (mutation' & node & Hin & Hrest).
        exists mutation', node. split; [now right | exact Hrest].
Qed.

End SessionFacts.

(** ** The main content container *)

Module ContainerFacts.

Import ContentContainerFinder.

Lemma trySelectors_some d selectors container :
  trySelectors d selectors = Some container ->
  isValidContainer container = true
  /\ exists selector, In selector selectors /\ querySelector d selector = Some container.
Proof.
  induction selectors as [|selector rest IH]; cbn [trySelectors]; [discriminate|].
  destruct (querySelector d selector) as [first|] eqn:Hfirst.
  - destruct (isValidContainer first) eqn:Hvalid.
    + intros [= <-]. split; [exact Hvalid|]. exists selector. split; [now left | exact Hfirst].
    + intros Hrest. destruct (IH Hrest) as (Hv & selector' & Hin & Hq).
      split; [exact Hv|]. exists selector'. split; [now right | exact Hq].
  - intros Hrest. destruct (IH Hrest) as (Hv & selector' & Hin & Hq).
    split; [exact Hv|]. exists selector'. split; [now right | exact Hq].
Qed.

Lemma trySelectors_none d selectors :
  trySelectors d selectors = None ->
  forall selector first,
    In selector selectors -> querySelector d selector = Some first ->
    isValidContainer first = false.
Proof.
  induction selectors as [|selector rest IH]; cbn [trySelectors].
  - intros _ ? ? [].
  - destruct (querySelector d selector) as [first|] eqn:Hfirst.
    + destruct (isValidContainer first) eqn:Hvalid; [discriminate|].
      intros Hrest selector' first' [<- | Hin] Hq.
      * congruence.
      * exact (IH Hrest selector' first' Hin Hq).
    + intros Hrest selector' first' [<- | Hin] Hq.
      * congruence.
      * exact (IH Hrest selector' first' Hin Hq).
Qed.

(** X25.  [find] always returns an element.  The element has at least
    three headings, or at least one heading and thirty characters of
    text, unless it is [document.body]; and the body is returned
    unchecked only when no first match of a content selector and no
    [main], [article] or [div] of the page has that much content. *)
Theorem find_returns_a_container_or_the_body d :
  let container := find d in
  ((3 <= headingCount container)%nat
   \/ ((0 < headingCount container)%nat /\ (30 <= textLength container)%nat))
  \/ (container = body d
      /\ (forall selector first,
            In selector CONTENT_SELECTORS -> querySelector d selector = Some first ->
            isValidContainer first = false)
      /\ (forall candidate,
            In candidate (candidates d) -> isValidContainer candidate = false)).
Proof.
  assert (Hvalid : forall element,
             isValidContainer element = true ->
             (3 <= headingCount element)%nat
             \/ ((0 < headingCount element)%nat /\ (30 <= textLength element)%nat)).
  { intros element. unfold isValidContainer, DomContent.hasValidContent,
      minHeadingCount, minTextLength.
    rewrite orb_true_iff, andb_true_iff, !Nat.leb_le, Nat.ltb_lt. tauto. }
  cbv zeta. unfold find.
  destruct (trySelectors d CONTENT_SELECTORS) as [container|] eqn:Hselected.
  - left. apply Hvalid. now apply (trySelectors_some _ _ _ Hselected).
  - unfold findFallbackContainer.
    destruct (List.find isValidContainer (candidates d)) as [fallback|] eqn:Hfallback.
    + left. apply Hvalid. now apply (find_some _ _ Hfallback).
    + right. split; [reflexivity|]. split.
      * exact (trySelectors_none _ _ Hselected).
      * intros candidate Hin. exact (find_none _ _ Hfallback candidate Hin).
Qed.

End ContainerFacts.
